(** * LLM graph builder: a shallow embedding of the extraction back end

    The development follows three source files of the repository:
    - [backend/src/llm.py]: chunk combination, instruction sanitising and
      the validation done by [get_graph_from_llm];
    - [backend/src/shared/common_fn.py]: the deadlock-retry wrappers, the
      cleaning of graph documents and the chunk/graph-document mapping;
    - [backend/src/main.py]: chunk selection on a retry, the processing
      pipeline and the schema introspection.

    Python values are modelled as follows.  A [str] is a [string] whose
    characters are the code points 0..255.  Exceptions are the values of
    [exn]; a call that may raise returns a [result].  Objects that the code
    mutates in place (nodes, relationships, graph documents) live in a store
    indexed by references, so that two references to one object observe each
    other's updates.  Calls that leave the process (graph database, model,
    clock, environment, file store) are operations of a [Backend] acting on
    an abstract world; every call that can change the world is recorded in
    a log, reads of the environment, the clock and the file system are
    not.  Logging calls of the source are left out. *)

From Stdlib Require Import ZArith String Ascii List Bool Lia.
From stdpp Require Import base option list gmap strings functions pretty.

Local Open Scope string_scope.
Local Open Scope Z_scope.
Local Open Scope nat_scope.

(** ** Python strings *)

Module Py.

(** [str.isspace] on one code point below 256: TAB..CR, FS..US, SPACE,
    NEL and NBSP.  [str.strip] and the pattern [\s] use the same test. *)
Definition isspace (c : ascii) : bool :=
  let n := nat_of_ascii c in
  ((9 <=? n) && (n <=? 13)) || ((28 <=? n) && (n <=? 32))
  || (n =? 133) || (n =? 160).

(** [str.lower] on one code point below 256. *)
Definition lower (c : ascii) : ascii :=
  let n := nat_of_ascii c in
  if ((65 <=? n) && (n <=? 90))
     || ((192 <=? n) && (n <=? 222) && negb (n =? 215))
  then ascii_of_nat (n + 32) else c.

Fixpoint str_lower (s : string) : string :=
  match s with
  | EmptyString => EmptyString
  | String c s' => String (lower c) (str_lower s')
  end.

(** Truth value of a string: non-empty. *)
Definition truthy (s : string) : bool :=
  match s with EmptyString => false | String _ _ => true end.

Fixpoint lstrip (s : string) : string :=
  match s with
  | EmptyString => EmptyString
  | String c s' => if isspace c then lstrip s' else s
  end.

Fixpoint rstrip (s : string) : string :=
  match s with
  | EmptyString => EmptyString
  | String c s' =>
      let r := rstrip s' in
      if isspace c && negb (truthy r) then EmptyString else String c r
  end.

(** [s.strip()] *)
Definition strip (s : string) : string := rstrip (lstrip s).

(** [s.split(sep)] for a one-character separator: never the empty list. *)
Fixpoint split (sep : ascii) (s : string) : list string :=
  match s with
  | EmptyString => [EmptyString]
  | String c s' =>
      if Ascii.eqb c sep then EmptyString :: split sep s'
      else match split sep s' with
           | w :: ws => String c w :: ws
           | [] => [String c EmptyString]
           end
  end.

(** [s.replace(old, new)] for a one-character [old]. *)
Fixpoint replace (old : ascii) (new : string) (s : string) : string :=
  match s with
  | EmptyString => EmptyString
  | String c s' =>
      if Ascii.eqb c old then new ++ replace old new s'
      else String c (replace old new s')
  end.

(** [s.startswith(p)] *)
Fixpoint startswith (p s : string) : bool :=
  match p, s with
  | EmptyString, _ => true
  | String a p', String b s' => Ascii.eqb a b && startswith p' s'
  | String _ _, EmptyString => false
  end.

(** [p in s] *)
Fixpoint contains (p s : string) : bool :=
  startswith p s ||
  match s with
  | EmptyString => false
  | String _ s' => contains p s'
  end.

(** A literal pattern matched at the head of [s] under [re.IGNORECASE]. *)
Fixpoint match_ci (p s : string) : bool :=
  match p, s with
  | EmptyString, _ => true
  | String a p', String b s' =>
      Ascii.eqb (lower a) (lower b) && match_ci p' s'
  | String _ _, EmptyString => false
  end.

(** [p] occurs somewhere in [s], letter case ignored. *)
Fixpoint contains_ci (p s : string) : bool :=
  match_ci p s ||
  match s with
  | EmptyString => false
  | String _ s' => contains_ci p s'
  end.

(** [re.sub(p, repl, s, flags=re.IGNORECASE)] for a non-empty literal
    pattern [p]: the scan goes left to right, a match is replaced and the
    scan resumes after it.  [skip] counts the characters of the current
    match still to be dropped. *)
Fixpoint sub_ci_from (skip : nat) (p repl s : string) : string :=
  match s with
  | EmptyString => EmptyString
  | String c s' =>
      match skip with
      | S k => sub_ci_from k p repl s'
      | O =>
          if match_ci p s
          then repl ++ sub_ci_from (String.length p - 1) p repl s'
          else String c (sub_ci_from 0 p repl s')
      end
  end.

Definition sub_ci (p repl s : string) : string := sub_ci_from 0 p repl s.

(** [re.sub(r'\s+', ' ', s)]: [in_run] tells that the previous character
    belonged to the whitespace run being replaced. *)
Fixpoint collapse_ws_from (in_run : bool) (s : string) : string :=
  match s with
  | EmptyString => EmptyString
  | String c s' =>
      if isspace c
      then if in_run then collapse_ws_from true s'
           else String " " (collapse_ws_from true s')
      else String c (collapse_ws_from false s')
  end.

Definition collapse_ws (s : string) : string := collapse_ws_from false s.

(** [x in l] for a list of strings. *)
Definition mem (x : string) (l : list string) : bool :=
  existsb (String.eqb x) l.

(** [l[start:]] with Python's treatment of negative and large indices. *)
Definition slice_from {A} (start : Z) (l : list A) : list A :=
  let n := Z.of_nat (length l) in
  let i := if (start <? 0)%Z then Z.max (n + start) 0 else Z.min start n in
  drop (Z.to_nat i) l.

(** [l[i:j]] in general. *)
Definition slice_between {A} (i j : Z) (l : list A) : list A :=
  let n := Z.of_nat (length l) in
  let norm x := if (x <? 0)%Z then Z.max (n + x) 0 else Z.min x n in
  take (Z.to_nat (norm j - norm i)) (drop (Z.to_nat (norm i)) l).

(** [l[i:i+k]] for non-negative [i] and [k]. *)
Definition slice {A} (i k : nat) (l : list A) : list A := take k (drop i l).

(** [range(0, stop, step)] for a positive [step]; [fuel] bounds the number
    of elements and [stop] itself is always enough. *)
Fixpoint range_from (fuel i stop step : nat) : list nat :=
  match fuel with
  | O => []
  | S f => if i <? stop then i :: range_from f (i + step) stop step else []
  end.

Definition range (stop step : nat) : list nat := range_from stop 0 stop step.

End Py.

(** ** Exceptions and results *)

Inductive exn : Type :=
| LLMGraphBuilderException (msg : string)
| TransientError (msg : string)
| RuntimeError (msg : string)
| IndexError (msg : string)
| ValueError (msg : string)
| TypeError (msg : string)
| PyException (msg : string)
| OtherError (cls msg : string).

(** [str(e)] *)
Definition exn_str (e : exn) : string :=
  match e with
  | LLMGraphBuilderException m | TransientError m | RuntimeError m
  | IndexError m | ValueError m | TypeError m | PyException m
  | OtherError _ m => m
  end.

Inductive result (A : Type) : Type :=
| Ok (a : A)
| Raise (e : exn).
Arguments Ok {A} a.
Arguments Raise {A} e.

(** ** Data model *)

(** A reference to a mutable object. *)
Definition ref := nat.

(** A metadata value: the code stores chunk ids (strings), positions
    (integers) and lists of chunk ids. *)
Inductive meta_val : Type :=
| MStr (s : string)
| MInt (z : Z)
| MIds (ids : list string).

(** [langchain.docstore.document.Document] *)
Record Document : Type := mkDocument {
  page_content : string;
  metadata : gmap string meta_val
}.

(** One element of a [chunkId_chunkDoc_list]: the dict
    [{'chunk_id': ..., 'chunk_doc': ...}]. *)
Record chunk_entry : Type := mkChunk {
  chunk_id : string;
  chunk_doc : Document
}.

(** [Node], [Relationship] and [GraphDocument] of
    [langchain_community.graphs.graph_document].  A relationship holds
    references to its end points and a graph document holds references to
    its nodes and relationships. *)
Record Node : Type := mkNode {
  node_id : string;
  node_type : string
}.

Record Relationship : Type := mkRel {
  rel_source : ref;
  rel_target : ref;
  rel_type : string
}.

Record GraphDocument : Type := mkGraphDoc {
  gd_nodes : list ref;
  gd_relationships : list ref;
  gd_source : Document
}.

(** The object store. *)
Record heap : Type := mkHeap {
  h_nodes : ref -> Node;
  h_rels : ref -> Relationship;
  h_docs : ref -> GraphDocument
}.

(** ** [llm.py] *)

(** [get_combined_chunks]: [range] refuses a zero step and is empty for a
    negative one. *)
Definition get_combined_chunks (chunkId_chunkDoc_list : list chunk_entry)
    (chunks_to_combine : Z) : result (list Document) :=
  if (chunks_to_combine =? 0)%Z
  then Raise (ValueError "range() arg 3 must not be zero")
  else
    let k := Z.to_nat chunks_to_combine in
    let starts :=
      if (chunks_to_combine <? 0)%Z then []
      else Py.range (length chunkId_chunkDoc_list) k in
    let combined_chunks_page_content :=
      map (fun i =>
             String.concat ""
               (map (fun document => page_content (chunk_doc document))
                    (Py.slice i k chunkId_chunkDoc_list)))
          starts in
    let combined_chunks_ids :=
      map (fun i => map chunk_id (Py.slice i k chunkId_chunkDoc_list))
          starts in
    Ok (map (fun i =>
               mkDocument
                 (nth i combined_chunks_page_content "")
                 {[ "combined_chunk_ids" := MIds (nth i combined_chunks_ids []) ]})
            (seq 0 (length combined_chunks_page_content))).

(** [get_chunk_id_as_doc_metadata] *)
Definition get_chunk_id_as_doc_metadata
    (chunkId_chunkDoc_list : list chunk_entry) : list Document :=
  map (fun document =>
         mkDocument (page_content (chunk_doc document))
                    {[ "chunk_id" := MIds [chunk_id document] ]})
      chunkId_chunkDoc_list.

(** The patterns of [sanitize_additional_instruction], as the literal
    texts the regular expressions denote. *)
Definition injection_patterns : list string :=
  ["os.getenv("; "eval("; "exec("; "subprocess."; "import os";
   "import subprocess"].

(** [sanitize_additional_instruction] *)
Definition sanitize_additional_instruction (instruction : string) : string :=
  let instruction := Py.replace "}" "]" (Py.replace "{" "[" instruction) in
  let instruction :=
    fold_left (fun acc pattern => Py.sub_ci pattern "[BLOCKED]" acc)
              injection_patterns instruction in
  Py.strip (Py.collapse_ws instruction).

(** ** The outside world *)

(** A connection to the graph database ([Neo4jGraph]). *)
Definition graph_handle := nat.

(** The chat model client built by [get_llm], with the attributes that
    [get_llm_model_name] probes. *)
Record llm_client : Type := mkLLM {
  llm_base_url : string;
  llm_attr_model_name : option string;
  llm_attr_model : option string;
  llm_attr_model_id : option string
}.

(** [ChatOllama(base_url=..., model=...)] *)
Definition ChatOllama (base_url model : string) : llm_client :=
  mkLLM base_url None (Some model) None.

(** The arguments given to [LLMGraphTransformer]. *)
Record transformer : Type := mkTransformer {
  tr_llm : llm_client;
  tr_node_properties : bool;
  tr_relationship_properties : bool;
  tr_allowed_nodes : list string;
  tr_allowed_relationships : list (string * string * string);
  tr_ignore_tool_usage : bool;
  tr_additional_instructions : string
}.

(** The keyword arguments given to [Neo4jGraph]. *)
Record connection_params : Type := mkParams {
  cp_url : string;
  cp_database : string;
  cp_username : string;
  cp_password : string;
  cp_refresh_schema : bool;
  cp_sanitize : bool;
  cp_driver_config : option string
}.

(** The queries of [shared/constants.py] that the modelled code sends. *)
Inductive query : Type :=
| QUERY_TO_GET_CHUNKS
| QUERY_TO_GET_LAST_PROCESSED_CHUNK_POSITION
| QUERY_TO_GET_LAST_PROCESSED_CHUNK_WITHOUT_ENTITY.

(** A row of [QUERY_TO_GET_CHUNKS]; the text may be [None]. *)
Record chunk_row : Type := mkChunkRow {
  row_id : string;
  row_text : option string;
  row_position : Z
}.

(** A row of the two position queries. *)
Record position_row : Type := mkPositionRow { position : Z }.

(** A counter as the pipeline carries it: an integer, or the string
    default of [dict.get]. *)
Inductive count : Type :=
| CInt (z : Z)
| CStr (s : string).

(** A row of [get_current_status_document_node]. *)
Record status_row : Type := mkStatusRow {
  Status : string;
  nodeCount : count;
  relationshipCount : count;
  processed_chunk : Z;
  is_cancelled : bool
}.

(** The attributes of [sourceNode] that the pipeline sets. *)
Record sourceNode (T : Type) : Type := mkSourceNode {
  sn_file_name : string;
  sn_status : option string;
  sn_total_chunks : option nat;
  sn_model : option string;
  sn_processed_chunk : option Z;
  sn_processing_time : option T;
  sn_node_count : option count;
  sn_relationship_count : option count
}.
Arguments mkSourceNode {T}.
Arguments sn_file_name {T}.
Arguments sn_status {T}.
Arguments sn_total_chunks {T}.
Arguments sn_model {T}.
Arguments sn_processed_chunk {T}.
Arguments sn_processing_time {T}.
Arguments sn_node_count {T}.
Arguments sn_relationship_count {T}.

(** A record of the schema query: [fromLabels], [relType], [toLabels]. *)
Record triple_record : Type := mkTriple {
  fromLabels : list string;
  relType : string;
  toLabels : list string
}.

(** The calls that leave the process, as the log records them. *)
Inductive call (T : Type) : Type :=
| Call_Neo4jGraph (params : connection_params)
| Call_create_chunk_vector_index (graph : graph_handle)
| Call_split_file_into_chunks (pages : list Document)
    (token_chunk_size chunk_overlap : Z)
| Call_create_relation_between_chunks (graph : graph_handle)
    (file_name : string) (chunks : list Document)
| Call_query (graph : graph_handle) (q : query) (filename : string)
| Call_add_graph_documents (graph : graph_handle) (docs : list ref)
| Call_sleep (delay : nat)
| Call_get_current_status_document_node (file_name : string)
| Call_update_source_node (node : sourceNode T)
| Call_update_node_relationship_count (file_name : string)
| Call_create_chunk_embeddings (graph : graph_handle)
    (chunks : list chunk_entry) (file_name : string)
| Call_aconvert_to_graph_documents (tr : transformer) (docs : list Document)
| Call_merge_relationship_between_chunk_and_entites (graph : graph_handle)
    (pairs : list (ref * string))
| Call_delete_file_from_gcs (folder_name file_name : string)
| Call_unlink (path : string)
| Call_session_run (uri database : string).
Arguments Call_Neo4jGraph {T}.
Arguments Call_create_chunk_vector_index {T}.
Arguments Call_split_file_into_chunks {T}.
Arguments Call_create_relation_between_chunks {T}.
Arguments Call_query {T}.
Arguments Call_add_graph_documents {T}.
Arguments Call_sleep {T}.
Arguments Call_get_current_status_document_node {T}.
Arguments Call_update_source_node {T}.
Arguments Call_update_node_relationship_count {T}.
Arguments Call_create_chunk_embeddings {T}.
Arguments Call_aconvert_to_graph_documents {T}.
Arguments Call_merge_relationship_between_chunk_and_entites {T}.
Arguments Call_delete_file_from_gcs {T}.
Arguments Call_unlink {T}.
Arguments Call_session_run {T}.

(** What the code needs from outside.  [W] is the state of everything
    outside the process and [T] the type of clock readings and durations.
    An operation takes the world and returns its answer with the world
    after the call; reads of the environment and of the file system leave
    the world alone.  Each field stands for code that is not among the
    modelled sources: the database driver, the model client, the chunk
    splitter, the data-access object, the standard library. *)
Record Backend (W T : Type) : Type := mkBackend {
  environ_get : string -> W -> option string;
  py_int : string -> result Z;
  sha1_hexdigest : string -> string;
  ADDITIONAL_INSTRUCTIONS : string;
  BUCKET_UPLOAD : string;
  time_now : W -> T * W;
  time_sub : T -> T -> T;
  fmt_2f : T -> string;
  fmt_rate : T -> Z -> string;
  Neo4jGraph : connection_params -> W -> result graph_handle * W;
  driver_closed : graph_handle -> W -> bool;
  create_chunk_vector_index : graph_handle -> W -> result unit * W;
  split_file_into_chunks :
    list Document -> Z -> Z -> W -> result (list Document) * W;
  create_relation_between_chunks :
    graph_handle -> string -> list Document -> W ->
    result (list chunk_entry) * W;
  graph_query_chunks :
    graph_handle -> string -> W -> result (list chunk_row) * W;
  graph_query_position :
    graph_handle -> query -> string -> W -> result (list position_row) * W;
  add_graph_documents :
    graph_handle -> list ref -> heap -> W -> result unit * W;
  sleep : nat -> W -> W;
  get_current_status_document_node :
    string -> W -> result (list status_row) * W;
  update_source_node : sourceNode T -> W -> result unit * W;
  update_node_relationship_count :
    string -> W -> result (gmap string (option count * option count)) * W;
  create_chunk_embeddings :
    graph_handle -> list chunk_entry -> string -> W -> result unit * W;
  aconvert_to_graph_documents :
    transformer -> list Document -> heap -> W ->
    result (list ref) * heap * W;
  merge_relationship_between_chunk_and_entites :
    graph_handle -> list (ref * string) -> heap -> W -> result unit * W;
  delete_file_from_gcs : string -> string -> string -> W -> result unit * W;
  path_exists : string -> W -> bool;
  path_unlink : string -> W -> result unit * W;
  session_run_triples :
    string -> string -> string -> string -> W ->
    result (list triple_record) * W
}.
Arguments environ_get {W T}.
Arguments py_int {W T}.
Arguments sha1_hexdigest {W T}.
Arguments ADDITIONAL_INSTRUCTIONS {W T}.
Arguments BUCKET_UPLOAD {W T}.
Arguments time_now {W T}.
Arguments time_sub {W T}.
Arguments fmt_2f {W T}.
Arguments fmt_rate {W T}.
Arguments Neo4jGraph {W T}.
Arguments driver_closed {W T}.
Arguments create_chunk_vector_index {W T}.
Arguments split_file_into_chunks {W T}.
Arguments create_relation_between_chunks {W T}.
Arguments graph_query_chunks {W T}.
Arguments graph_query_position {W T}.
Arguments add_graph_documents {W T}.
Arguments sleep {W T}.
Arguments get_current_status_document_node {W T}.
Arguments update_source_node {W T}.
Arguments update_node_relationship_count {W T}.
Arguments create_chunk_embeddings {W T}.
Arguments aconvert_to_graph_documents {W T}.
Arguments merge_relationship_between_chunk_and_entites {W T}.
Arguments delete_file_from_gcs {W T}.
Arguments path_exists {W T}.
Arguments path_unlink {W T}.
Arguments session_run_triples {W T}.

(** ** The monad of the embedding: state and exceptions *)

Record state (W T : Type) : Type := mkState {
  st_world : W;
  st_heap : heap;
  st_log : list (call T)
}.
Arguments mkState {W T}.
Arguments st_world {W T}.
Arguments st_heap {W T}.
Arguments st_log {W T}.

Definition M (W T A : Type) : Type := state W T -> result A * state W T.

Definition ret {W T A} (a : A) : M W T A := fun s => (Ok a, s).

Definition bind {W T A B} (m : M W T A) (k : A -> M W T B) : M W T B :=
  fun s =>
    match m s with
    | (Ok a, s') => k a s'
    | (Raise e, s') => (Raise e, s')
    end.

(** [raise e] *)
Definition raise {W T A} (e : exn) : M W T A := fun s => (Raise e, s).

(** [try: m except Exception as e: h e] *)
Definition try_except {W T A} (m : M W T A) (h : exn -> M W T A) : M W T A :=
  fun s =>
    match m s with
    | (Ok a, s') => (Ok a, s')
    | (Raise e, s') => h e s'
    end.

Definition lift {W T A} (r : result A) : M W T A := fun s => (r, s).

(** A logged call that changes the world. *)
Definition perform {W T A} (c : call T) (op : W -> result A * W) : M W T A :=
  fun s =>
    let '(r, w) := op (st_world s) in
    (r, mkState w (st_heap s) (st_log s ++ [c])).

(** A read that is not logged. *)
Definition peek {W T A} (f : W -> A) : M W T A :=
  fun s => (Ok (f (st_world s)), s).

(** A clock reading. *)
Definition clock {W T} (B : Backend W T) : M W T T :=
  fun s =>
    let '(t, w) := time_now B (st_world s) in
    (Ok t, mkState w (st_heap s) (st_log s)).

Declare Scope py_scope.
Delimit Scope py_scope with py.
Notation "'let*' x ':=' m 'in' k" := (bind m (fun x => k))
  (at level 10, x pattern, m at level 200, k at level 200) : py_scope.
Notation "m ';;;' k" := (bind m (fun _ => k))
  (at level 100, k at level 200, right associativity) : py_scope.
Local Open Scope py_scope.

Section Code.

Context {W T : Type}.
Variable B : Backend W T.

Local Abbreviation Act := (M W T).

(** *** [llm.py], the effectful part *)

(** [get_llm]: both branches of the provider test build the same client. *)
Definition get_llm (model : string) : Act (llm_client * string) :=
  let model := Py.strip (Py.str_lower model) in
  let env_key := "LLM_MODEL_CONFIG_" ++ model in
  let* env_value := peek (environ_get B env_key) in
  match env_value with
  | Some v =>
      if Py.truthy v then
        try_except
          (match Py.split "," v with
           | [model_name; base_url] =>
               ret (ChatOllama base_url model_name, model_name)
           | parts =>
               raise (ValueError
                        (if (length parts <? 2)%nat
                         then "not enough values to unpack"
                         else "too many values to unpack"))
           end)
          (fun e =>
             raise (PyException
                      ("Error while creating LLM '" ++ model ++ "': "
                       ++ exn_str e)))
      else
        raise (PyException
                 ("Environment variable '" ++ env_key
                  ++ "' is not defined as per format or missing"))
  | None =>
      raise (PyException
               ("Environment variable '" ++ env_key
                ++ "' is not defined as per format or missing"))
  end.

(** [get_llm_model_name] *)
Definition get_llm_model_name (llm : llm_client) : string :=
  let probe (attr : option string) (otherwise : string) : string :=
    match attr with
    | Some model_name =>
        if Py.truthy model_name then Py.str_lower model_name else otherwise
    | None => otherwise
    end in
  probe (llm_attr_model_name llm)
    (probe (llm_attr_model llm) (probe (llm_attr_model_id llm) "")).

(** [get_graph_document_list]: the one place where the model is called. *)
Definition get_graph_document_list (llm : llm_client)
    (combined_chunk_document_list : list Document)
    (allowedNodes : list string)
    (allowedRelationship : list (string * string * string))
    (additional_instructions : option string) : Act (list ref) :=
  let additional_instructions :=
    match additional_instructions with
    | Some i => if Py.truthy i then Some (sanitize_additional_instruction i)
                else Some i
    | None => None
    end in
  let node_properties := false in
  let relationship_properties := false in
  let TOOL_SUPPORTED_MODELS := ["qwen3"; "deepseek"] in
  let model_name := get_llm_model_name llm in
  let ignore_tool_usage :=
    negb (existsb (fun pattern => Py.contains pattern model_name)
                  TOOL_SUPPORTED_MODELS) in
  let llm_transformer :=
    mkTransformer llm node_properties relationship_properties
      allowedNodes allowedRelationship ignore_tool_usage
      (ADDITIONAL_INSTRUCTIONS B ++
       match additional_instructions with
       | Some i => if Py.truthy i then i else ""
       | None => ""
       end) in
  fun s =>
    let '(r, h, w) :=
      aconvert_to_graph_documents B llm_transformer
        combined_chunk_document_list (st_heap s) (st_world s) in
    (r, mkState w h
          (st_log s ++
           [Call_aconvert_to_graph_documents llm_transformer
              combined_chunk_document_list])).

(** The comma-separated items of a schema string, trimmed, blanks left
    out: [[x.strip() for x in s.split(',') if x.strip()]]. *)
Definition stripped_items (s : string) : list string :=
  map Py.strip (List.filter (fun x => Py.truthy (Py.strip x)) (Py.split "," s)).

(** The loop of [get_graph_from_llm] over the triples starting at the
    indices [range(0, len(items), 3)]. *)
Fixpoint check_triples (allowed_nodes items : list string)
    (starts : list nat) (allowed_relationships : list (string * string * string))
  : result (list (string * string * string)) :=
  match starts with
  | [] => Ok allowed_relationships
  | i :: rest =>
      match Py.slice i 3 items with
      | [source; relation; target] =>
          if negb (Py.mem source allowed_nodes)
             || negb (Py.mem target allowed_nodes)
          then Raise (LLMGraphBuilderException
                        ("Invalid relationship (" ++ source ++ ", "
                         ++ relation ++ ", " ++ target
                         ++ "): source or target not in allowedNodes"))
          else check_triples allowed_nodes items rest
                 (allowed_relationships ++ [(source, relation, target)])%list
      | parts =>
          Raise (ValueError
                   (if (length parts <? 3)%nat
                    then "not enough values to unpack"
                    else "too many values to unpack"))
      end
  end.

(** [get_graph_from_llm] *)
Definition get_graph_from_llm (model : string)
    (chunkId_chunkDoc_list : list chunk_entry)
    (allowedNodes allowedRelationship : string) (chunks_to_combine : Z)
    (additional_instructions : option string) : Act (list ref) :=
  try_except
    (let* resolved := get_llm model in
     let '(llm, model_name) := resolved in
     let* combined_chunk_document_list :=
       lift (get_combined_chunks chunkId_chunkDoc_list chunks_to_combine) in
     let allowed_nodes := stripped_items allowedNodes in
     let* allowed_relationships :=
       if Py.truthy allowedRelationship then
         let items := stripped_items allowedRelationship in
         if negb (length items mod 3 =? 0)%nat then
           raise (LLMGraphBuilderException
                    "allowedRelationship must be a multiple of 3 (source, relationship, target)")
         else
           lift (check_triples allowed_nodes items
                   (Py.range (length items) 3) [])
       else ret [] in
     get_graph_document_list llm combined_chunk_document_list
       allowed_nodes allowed_relationships additional_instructions)
    (fun e =>
       raise (LLMGraphBuilderException
                ("Error in getting graph from llm: " ++ exn_str e))).

(** *** [shared/common_fn.py] *)

Definition DEFAULT_MAX_RETRIES : nat := 3.
Definition DEFAULT_RETRY_DELAY : nat := 1.
Definition DEFAULT_QUERY_RETRY_DELAY : nat := 2.

(** [get_chunk_and_graphDocument]: the ids are read from the source
    document of each graph document, which always has a [metadata]
    attribute; iterating a string yields its characters and an integer
    cannot be iterated.  The second argument of the source function is not
    used by it and is left out. *)
Fixpoint get_chunk_and_graphDocument (docs : ref -> GraphDocument)
    (graph_document_list : list ref) : result (list (ref * string)) :=
  match graph_document_list with
  | [] => Ok []
  | graph_document :: rest =>
      let here :=
        match metadata (gd_source (docs graph_document))
                !! "combined_chunk_ids" with
        | None => Ok []
        | Some (MIds ids) => Ok (map (fun id => (graph_document, id)) ids)
        | Some (MStr s) =>
            Ok (map (fun c => (graph_document, String c EmptyString))
                    (list_ascii_of_string s))
        | Some (MInt _) => Raise (TypeError "'int' object is not iterable")
        end in
      match here with
      | Raise e => Raise e
      | Ok mapping =>
          match get_chunk_and_graphDocument docs rest with
          | Raise e => Raise e
          | Ok more => Ok (mapping ++ more)%list
          end
      end
  end.

(** [create_graph_database_connection] *)
Definition create_graph_database_connection
    (uri userName password database : string) : Act graph_handle :=
  let* flag := peek (environ_get B "ENABLE_USER_AGENT") in
  let enable_user_agent :=
    Py.mem (Py.str_lower (default "False" flag)) ["true"; "1"; "yes"] in
  let* user_agent := peek (environ_get B "NEO4J_USER_AGENT") in
  let driver_config :=
    if enable_user_agent then
      match user_agent with
      | Some ua => if Py.truthy ua then Some ua else None
      | None => None
      end
    else None in
  let connection_params :=
    mkParams uri database userName password false true driver_config in
  perform (Call_Neo4jGraph connection_params)
          (Neo4jGraph B connection_params).

(** ["DeadlockDetected" in str(e)] under [except TransientError]. *)
Definition is_deadlock (e : exn) : bool :=
  match e with
  | TransientError msg => Py.contains "DeadlockDetected" msg
  | _ => false
  end.

(** The loop [while retries < max_retries] of
    [save_graphDocuments_in_neo4j].  The recursion is on the number of
    iterations left, [max_retries - retries]. *)
Fixpoint save_loop (left : nat) (graph : graph_handle)
    (graph_document_list : list ref) (delay : nat) : Act unit :=
  match left with
  | O =>
      raise (RuntimeError
               "Failed to save graph documents after multiple retries due to deadlock.")
  | S left' =>
      try_except
        (fun s =>
           perform (Call_add_graph_documents graph graph_document_list)
             (add_graph_documents B graph graph_document_list (st_heap s)) s)
        (fun e =>
           if is_deadlock e then
             perform (Call_sleep delay) (fun w => (Ok tt, sleep B delay w));;;
             save_loop left' graph graph_document_list delay
           else raise e)
  end.

(** [save_graphDocuments_in_neo4j] *)
Definition save_graphDocuments_in_neo4j (graph : graph_handle)
    (graph_document_list : list ref) (max_retries delay : nat) : Act unit :=
  save_loop max_retries graph graph_document_list delay.

(** The same loop in [execute_graph_query]; [graph_query] is the call
    [graph.query(query, params)] and [c] its entry in the log. *)
Fixpoint query_loop {A} (left : nat) (c : call T)
    (graph_query : W -> result A * W) (delay : nat) : Act A :=
  match left with
  | O =>
      raise (RuntimeError
               "Query execution failed after multiple retries due to deadlock.")
  | S left' =>
      try_except
        (perform c graph_query)
        (fun e =>
           if is_deadlock e then
             perform (Call_sleep delay) (fun w => (Ok tt, sleep B delay w));;;
             query_loop left' c graph_query delay
           else raise e)
  end.

(** [execute_graph_query] *)
Definition execute_graph_query {A} (c : call T)
    (graph_query : W -> result A * W) (max_retries delay : nat) : Act A :=
  query_loop max_retries c graph_query delay.

(** The test of [handle_backticks_nodes_relationship_id_type] on a node:
    [node.type.strip() and node.id.strip()]. *)
Definition node_kept (node : Node) : bool :=
  Py.truthy (Py.strip (node_type node)) && Py.truthy (Py.strip (node_id node)).

(** The test on a relationship, read through its references. *)
Definition relationship_kept (nodes : ref -> Node) (relationship : Relationship)
  : bool :=
  Py.truthy (Py.strip (rel_type relationship))
  && Py.truthy (Py.strip (node_id (nodes (rel_source relationship))))
  && Py.truthy (Py.strip (node_type (nodes (rel_source relationship))))
  && Py.truthy (Py.strip (node_id (nodes (rel_target relationship))))
  && Py.truthy (Py.strip (node_type (nodes (rel_target relationship)))).

(** [s.replace('`', '')] *)
Definition strip_backticks (s : string) : string := Py.replace "`" "" s.

(** [node.type = node.type.replace('`', '')] on the object behind [n]. *)
Definition retype_node (nodes : ref -> Node) (n : ref) : ref -> Node :=
  <[ n := mkNode (node_id (nodes n)) (strip_backticks (node_type (nodes n))) ]>
    nodes.

(** The loop over [graph_document.nodes]. *)
Fixpoint clean_nodes (nodes : ref -> Node) (todo cleaned_nodes : list ref)
  : (ref -> Node) * list ref :=
  match todo with
  | [] => (nodes, cleaned_nodes)
  | node :: rest =>
      if node_kept (nodes node)
      then clean_nodes (retype_node nodes node) rest
             (cleaned_nodes ++ [node])%list
      else clean_nodes nodes rest cleaned_nodes
  end.

(** The loop over [graph_document.relationships]. *)
Fixpoint clean_relationships (rels : ref -> Relationship) (nodes : ref -> Node)
    (todo cleaned_relationships : list ref)
  : (ref -> Relationship) * (ref -> Node) * list ref :=
  match todo with
  | [] => (rels, nodes, cleaned_relationships)
  | relationship :: rest =>
      let r := rels relationship in
      if relationship_kept nodes r then
        let rels :=
          <[ relationship :=
               mkRel (rel_source r) (rel_target r)
                     (strip_backticks (rel_type r)) ]> rels in
        let nodes := retype_node nodes (rel_source r) in
        let nodes := retype_node nodes (rel_target r) in
        clean_relationships rels nodes rest
          (cleaned_relationships ++ [relationship])%list
      else clean_relationships rels nodes rest cleaned_relationships
  end.

(** The body of the outer loop, for one graph document. *)
Definition clean_graph_document (h : heap) (graph_document : ref) : heap :=
  let gd := h_docs h graph_document in
  let '(nodes, cleaned_nodes) := clean_nodes (h_nodes h) (gd_nodes gd) [] in
  let '(rels, nodes, cleaned_relationships) :=
    clean_relationships (h_rels h) nodes (gd_relationships gd) [] in
  mkHeap nodes rels
    (<[ graph_document :=
          mkGraphDoc cleaned_nodes cleaned_relationships (gd_source gd) ]>
       (h_docs h)).

(** [handle_backticks_nodes_relationship_id_type]: the store after the
    call and the list returned, which is the list received. *)
Definition handle_backticks_nodes_relationship_id_type (h : heap)
    (graph_document_list : list ref) : heap * list ref :=
  (fold_left clean_graph_document graph_document_list h, graph_document_list).

(** [delete_uploaded_local_file] *)
Definition delete_uploaded_local_file (merged_file_path file_name : string)
  : Act unit :=
  let* present := peek (path_exists B merged_file_path) in
  if present : bool
  then perform (Call_unlink merged_file_path) (path_unlink B merged_file_path)
  else ret tt.

(** [create_gcs_bucket_folder_name_hashed] *)
Definition create_gcs_bucket_folder_name_hashed (uri file_name : string)
  : string :=
  sha1_hexdigest B (uri ++ file_name).

(** *** [main.py] *)

(** Modelled from the spec: the retry-mode token of
    [shared/constants.py], a file that is not among the sources; the spec
    lists the three tokens literally. *)
Definition START_FROM_LAST_PROCESSED_POSITION : string :=
  "start_from_last_processed_position".

(** Truth value of an optional string ([None] and [''] are false). *)
Definition opt_truthy (o : option string) : bool :=
  match o with Some s => Py.truthy s | None => false end.

(** [o == s] for an optional string [o]. *)
Definition opt_eqb (o : option string) (s : string) : bool :=
  match o with Some x => String.eqb x s | None => false end.

Definition double_quote : ascii := ascii_of_nat 34.
Definition newline : ascii := ascii_of_nat 10.

(** The cleaning of a page text: the three [bad_chars] in turn. *)
Definition clean_page_text (text : string) : string :=
  Py.replace "'" "" (Py.replace newline " " (Py.replace double_quote "" text)).

(** The loop that turns the stored rows into chunk entries; [Document]
    refuses a [None] text. *)
Fixpoint chunk_entries (chunks : list chunk_row)
    (chunkId_chunkDoc_list : list chunk_entry) : result (list chunk_entry) :=
  match chunks with
  | [] => Ok chunkId_chunkDoc_list
  | chunk :: rest =>
      match row_text chunk with
      | None => Raise (OtherError "ValidationError" "page_content")
      | Some text =>
          let chunk_doc :=
            mkDocument text
              {[ "id" := MStr (row_id chunk);
                 "position" := MInt (row_position chunk) ]} in
          chunk_entries rest
            (chunkId_chunkDoc_list ++ [mkChunk (row_id chunk) chunk_doc])%list
      end
  end.

(** [get_chunkId_chunkDoc_list] *)
Definition get_chunkId_chunkDoc_list (graph : graph_handle)
    (file_name : string) (pages : list Document)
    (token_chunk_size chunk_overlap : Z) (retry_condition : option string)
  : Act (nat * list chunk_entry) :=
  if negb (opt_truthy retry_condition) then
    let pages :=
      map (fun page =>
             mkDocument (clean_page_text (page_content page)) (metadata page))
          pages in
    let* chunks :=
      perform (Call_split_file_into_chunks pages token_chunk_size chunk_overlap)
              (split_file_into_chunks B pages token_chunk_size chunk_overlap) in
    let* chunkId_chunkDoc_list :=
      perform (Call_create_relation_between_chunks graph file_name chunks)
              (create_relation_between_chunks B graph file_name chunks) in
    ret (length chunks, chunkId_chunkDoc_list)
  else
    let* chunks :=
      execute_graph_query (Call_query graph QUERY_TO_GET_CHUNKS file_name)
        (graph_query_chunks B graph file_name)
        DEFAULT_MAX_RETRIES DEFAULT_QUERY_RETRY_DELAY in
    match chunks with
    | [] => raise (IndexError "list index out of range")
    | first :: _ =>
        if match row_text first with
           | None => true
           | Some text => negb (Py.truthy text)
           end
        then
          raise (LLMGraphBuilderException
                   ("Chunks are not created for " ++ file_name
                    ++ ". Please re-upload file and try again."))
        else
          let* chunkId_chunkDoc_list := lift (chunk_entries chunks []) in
          if opt_eqb retry_condition START_FROM_LAST_PROCESSED_POSITION
          then
            let* starting_chunk :=
              execute_graph_query
                (Call_query graph QUERY_TO_GET_LAST_PROCESSED_CHUNK_POSITION
                   file_name)
                (graph_query_position B graph
                   QUERY_TO_GET_LAST_PROCESSED_CHUNK_POSITION file_name)
                DEFAULT_MAX_RETRIES DEFAULT_QUERY_RETRY_DELAY in
            match starting_chunk with
            | row :: _ =>
                let n := Z.of_nat (length chunkId_chunkDoc_list) in
                if (position row <? n)%Z then
                  ret (length chunks,
                       Py.slice_from (position row - 1) chunkId_chunkDoc_list)
                else if (position row =? n)%Z then
                  let* starting_chunk :=
                    execute_graph_query
                      (Call_query graph
                         QUERY_TO_GET_LAST_PROCESSED_CHUNK_WITHOUT_ENTITY
                         file_name)
                      (graph_query_position B graph
                         QUERY_TO_GET_LAST_PROCESSED_CHUNK_WITHOUT_ENTITY
                         file_name)
                      DEFAULT_MAX_RETRIES DEFAULT_QUERY_RETRY_DELAY in
                  match starting_chunk with
                  | row' :: _ =>
                      ret (length chunks,
                           Py.slice_from (position row' - 1)
                             chunkId_chunkDoc_list)
                  | [] => raise (IndexError "list index out of range")
                  end
                else
                  raise (LLMGraphBuilderException
                           ("All chunks of file " ++ file_name
                            ++ " are already processed. If you want to re-process, Please start from begnning"))
            | [] =>
                raise (LLMGraphBuilderException
                         ("All chunks of file " ++ file_name
                          ++ " are already processed. If you want to re-process, Please start from begnning"))
            end
          else ret (length chunks, chunkId_chunkDoc_list)
    end.

(** A value of the latency map. *)
Inductive lat_val : Type :=
| LStr (s : string)
| LNat (n : nat)
| LDict (d : gmap string string).

(** A value of the response map; [RSeconds] stands for
    [round(processed_time.total_seconds(), 2)]. *)
Inductive resp_val : Type :=
| RStr (s : string)
| RCount (c : count)
| RSeconds (t : T)
| RNat (n : nat).

(** [time.time()] around a step: the step's value with the formatted
    elapsed time. *)
Definition timed {A} (step : Act A) : Act (A * string) :=
  let* t0 := clock B in
  let* a := step in
  let* t1 := clock B in
  ret (a, fmt_2f B (time_sub B t1 t0)).

(** [processing_chunks] *)
Definition processing_chunks (chunkId_chunkDoc_list : list chunk_entry)
    (graph : graph_handle) (uri userName password database : string)
    (file_name model allowedNodes allowedRelationship : string)
    (chunks_to_combine : Z) (node_count rel_count : count)
    (additional_instructions : option string)
  : Act (count * count * gmap string string) :=
  let latency_processing_chunk : gmap string string := ∅ in
  let* closed := peek (driver_closed B graph) in
  let* graph :=
    if closed : bool
    then create_graph_database_connection uri userName password database
    else ret graph in
  let* r :=
    timed (perform
             (Call_create_chunk_embeddings graph chunkId_chunkDoc_list file_name)
             (create_chunk_embeddings B graph chunkId_chunkDoc_list file_name)) in
  let latency_processing_chunk :=
    <[ "update_embedding" := r.2 ]> latency_processing_chunk in
  let* r :=
    timed (get_graph_from_llm model chunkId_chunkDoc_list allowedNodes
             allowedRelationship chunks_to_combine additional_instructions) in
  let graph_documents := r.1 in
  let latency_processing_chunk :=
    <[ "entity_extraction" := r.2 ]> latency_processing_chunk in
  let* cleaned_graph_documents :=
    (fun s =>
       let '(h, l) :=
         handle_backticks_nodes_relationship_id_type (st_heap s)
           graph_documents in
       (Ok l, mkState (st_world s) h (st_log s))) in
  let* r :=
    timed (save_graphDocuments_in_neo4j graph cleaned_graph_documents
             DEFAULT_MAX_RETRIES DEFAULT_RETRY_DELAY) in
  let latency_processing_chunk :=
    <[ "save_graphDocuments" := r.2 ]> latency_processing_chunk in
  let* chunks_and_graph_documents_list :=
    (fun s =>
       lift (get_chunk_and_graphDocument (h_docs (st_heap s))
               cleaned_graph_documents) s) in
  let* r :=
    timed (fun s =>
             perform
               (Call_merge_relationship_between_chunk_and_entites graph
                  chunks_and_graph_documents_list)
               (merge_relationship_between_chunk_and_entites B graph
                  chunks_and_graph_documents_list (st_heap s)) s) in
  let latency_processing_chunk :=
    <[ "relationship_between_chunk_entity" := r.2 ]>
      latency_processing_chunk in
  let* count_response :=
    perform (Call_update_node_relationship_count file_name)
            (update_node_relationship_count B file_name) in
  match count_response !! file_name with
  | None => raise (OtherError "KeyError" file_name)
  | Some (nc, rc) =>
      ret (default (CStr "0") nc, default (CStr "0") rc,
           latency_processing_chunk)
  end.

(** [_initialize_processing] *)
Definition _initialize_processing (uri userName password database : string)
  : Act (graph_handle * T * T * gmap string lat_val) :=
  let* start_time := clock B in
  let* processing_start_time := clock B in
  let* r :=
    timed (create_graph_database_connection uri userName password database) in
  let graph := r.1 in
  let uri_latency : gmap string lat_val :=
    {[ "create_connection" := LStr r.2 ]} in
  perform (Call_create_chunk_vector_index graph)
          (create_chunk_vector_index B graph);;;
  ret (graph, start_time, processing_start_time, uri_latency).

(** [_get_chunks_and_initialize_processing] *)
Definition _get_chunks_and_initialize_processing (graph : graph_handle)
    (file_name : string) (pages : list Document)
    (token_chunk_size chunk_overlap : Z) (retry_condition : option string)
  : Act (nat * list chunk_entry * gmap string lat_val) :=
  let* r :=
    timed (get_chunkId_chunkDoc_list graph file_name pages token_chunk_size
             chunk_overlap retry_condition) in
  let '(total_chunks, chunkId_chunkDoc_list) := r.1 in
  let uri_latency_info : gmap string lat_val :=
    {[ "create_list_chunk_and_document" := LStr r.2;
       "total_chunks" := LNat total_chunks ]} in
  ret (total_chunks, chunkId_chunkDoc_list, uri_latency_info).

(** [_get_document_status] *)
Definition _get_document_status (file_name : string)
  : Act (list status_row * string) :=
  timed (perform (Call_get_current_status_document_node file_name)
                 (get_current_status_document_node B file_name)).

(** [_create_processing_source_node]; [result] is known to be non-empty
    where the pipeline calls it and [row] is its first element. *)
Definition _create_processing_source_node (file_name : string)
    (total_chunks : nat) (model : string) (retry_condition : option string)
    (row : status_row) : sourceNode T * count * count * Z :=
  let resume :=
    opt_eqb retry_condition START_FROM_LAST_PROCESSED_POSITION in
  let node_count := if resume then nodeCount row else CInt 0 in
  let rel_count := if resume then relationshipCount row else CInt 0 in
  let select_chunks_with_retry :=
    if resume then processed_chunk row else 0%Z in
  (mkSourceNode (Py.strip file_name) (Some "Processing") (Some total_chunks)
     (Some model) (Some (0 + select_chunks_with_retry)%Z) None None None,
   node_count, rel_count, select_chunks_with_retry).

(** [_update_source_node_and_get_chunks] *)
Definition _update_source_node_and_get_chunks (source_node : sourceNode T)
    (file_name : string) : Act unit :=
  perform (Call_update_source_node source_node)
          (update_source_node B source_node);;;
  perform (Call_update_node_relationship_count file_name)
          (update_node_relationship_count B file_name);;;
  ret tt.

(** [int(os.environ.get('UPDATE_GRAPH_CHUNKS_PROCESSED', 10))] *)
Definition update_graph_chunks_processed : Act Z :=
  let* v := peek (environ_get B "UPDATE_GRAPH_CHUNKS_PROCESSED") in
  match v with
  | None => ret 10%Z
  | Some s => lift (py_int B s)
  end.

(** [range(0, n, step)] for an integer step. *)
Definition batch_starts (n : nat) (step : Z) : result (list nat) :=
  if (step =? 0)%Z then Raise (ValueError "range() arg 3 must not be zero")
  else if (step <? 0)%Z then Ok []
  else Ok (Py.range n (Z.to_nat step)).

(** The batch loop of [processing_source]; the result starts with the
    job status, ["Cancelled"] when the loop was left by [break]. *)
Fixpoint process_batches (starts : list nat)
    (chunkId_chunkDoc_list : list chunk_entry) (graph : graph_handle)
    (uri userName password database : string)
    (file_name model allowedNodes allowedRelationship : string)
    (chunks_to_combine : Z) (additional_instructions : option string)
    (node_count rel_count : count) (uri_latency : gmap string lat_val)
  : Act (string * count * count * gmap string lat_val) :=
  match starts with
  | [] => ret ("Completed", node_count, rel_count, uri_latency)
  | i :: rest =>
      let* step := update_graph_chunks_processed in
      let select_chunks_upto :=
        Z.min (Z.of_nat i + step) (Z.of_nat (length chunkId_chunkDoc_list)) in
      let selected_chunks :=
        Py.slice_between (Z.of_nat i) select_chunks_upto
          chunkId_chunkDoc_list in
      let* result :=
        perform (Call_get_current_status_document_node file_name)
                (get_current_status_document_node B file_name) in
      match result with
      | [] => raise (IndexError "list index out of range")
      | row :: _ =>
          if is_cancelled row
          then ret ("Cancelled", node_count, rel_count, uri_latency)
          else
            let* r :=
              timed (processing_chunks selected_chunks graph uri userName
                       password database file_name model allowedNodes
                       allowedRelationship chunks_to_combine node_count
                       rel_count additional_instructions) in
            let '(node_count, rel_count, latency_processed_chunk) := r.1 in
            let span := pretty i ++ "-" ++ pretty select_chunks_upto in
            let uri_latency :=
              <[ "processed_combine_chunk_" ++ span := LStr r.2 ]>
                uri_latency in
            let uri_latency :=
              <[ "processed_chunk_detail_" ++ span :=
                   LDict latency_processed_chunk ]> uri_latency in
            process_batches rest chunkId_chunkDoc_list graph uri userName
              password database file_name model allowedNodes
              allowedRelationship chunks_to_combine additional_instructions
              node_count rel_count uri_latency
      end
  end.

(** [processing_source] *)
Definition processing_source (uri userName password database : string)
    (model file_name : string) (pages : list Document)
    (allowedNodes allowedRelationship : string)
    (token_chunk_size chunk_overlap chunks_to_combine : Z)
    (is_uploaded_from_local : bool) (merged_file_path : option string)
    (retry_condition additional_instructions : option string)
  : Act (gmap string lat_val * gmap string resp_val) :=
  let* init := _initialize_processing uri userName password database in
  let '(graph, start_time, processing_start_time, uri_latency) := init in
  let* got :=
    _get_chunks_and_initialize_processing graph file_name pages
      token_chunk_size chunk_overlap retry_condition in
  let '(total_chunks, chunkId_chunkDoc_list, chunk_latency_info) := got in
  let uri_latency := chunk_latency_info ∪ uri_latency in
  let* status := _get_document_status file_name in
  let '(result, status_elapsed_time) := status in
  let uri_latency :=
    <[ "get_status_document_node" := LStr status_elapsed_time ]> uri_latency in
  match result with
  | [] =>
      raise (LLMGraphBuilderException
               "Unable to get the status of document node.")
  | row :: _ =>
      if String.eqb (Status row) "Processing" then ret (uri_latency, ∅)
      else
        let '(source_node, node_count, rel_count, select_chunks_with_retry) :=
          _create_processing_source_node file_name total_chunks model
            retry_condition row in
        let* _ := update_graph_chunks_processed in
        _update_source_node_and_get_chunks source_node file_name;;;
        let job_status := "Completed" in
        let* step := update_graph_chunks_processed in
        let* starts :=
          lift (batch_starts (length chunkId_chunkDoc_list) step) in
        let* done :=
          process_batches starts chunkId_chunkDoc_list graph uri userName
            password database file_name model allowedNodes
            allowedRelationship chunks_to_combine additional_instructions
            node_count rel_count uri_latency in
        let '(job_status, node_count, rel_count, uri_latency) := done in
        let* end_time := clock B in
        let processed_time := time_sub B end_time start_time in
        let final_source_node :=
          mkSourceNode (Py.strip file_name) (Some job_status) None None None
            (Some processed_time) (Some node_count) (Some rel_count) in
        perform (Call_update_source_node final_source_node)
                (update_source_node B final_source_node);;;
        perform (Call_update_node_relationship_count file_name)
                (update_node_relationship_count B file_name);;;
        (if is_uploaded_from_local then
           let* gcs_file_cache := peek (environ_get B "GCS_FILE_CACHE") in
           if match gcs_file_cache with
              | Some v => String.eqb v "True"
              | None => false
              end
           then
             let folder_name :=
               create_gcs_bucket_folder_name_hashed uri file_name in
             perform (Call_delete_file_from_gcs folder_name file_name)
                     (delete_file_from_gcs B (BUCKET_UPLOAD B) folder_name
                        file_name)
           else
             match merged_file_path with
             | Some path => delete_uploaded_local_file path file_name
             | None =>
                 raise (TypeError
                          "expected str, bytes or os.PathLike object, not NoneType")
             end
         else ret tt);;;
        let* now := clock B in
        let processing_source_func := time_sub B now processing_start_time in
        let uri_latency :=
          <[ "Processed_source" := LStr (fmt_2f B processing_source_func) ]>
            uri_latency in
        let* per_entity :=
          match node_count with
          | CInt 0 => ret "N/A"
          | CInt z => ret (fmt_rate B processing_source_func z ++ "/s")
          | CStr _ =>
              raise (TypeError
                       "unsupported operand type(s) for /: 'int' and 'str'")
          end in
        let uri_latency :=
          <[ "Per_entity_latency" := LStr per_entity ]> uri_latency in
        let response : gmap string resp_val :=
          {[ "fileName" := RStr file_name;
             "nodeCount" := RCount node_count;
             "relationshipCount" := RCount rel_count;
             "total_processing_time" := RSeconds processed_time;
             "status" := RStr job_status;
             "model" := RStr model;
             "success_count" := RNat 1 ]} in
        ret (uri_latency, response)
  end.

(** The label and relationship names that [get_labels_and_relationtypes]
    leaves out. *)
Definition excluded_labels : list string :=
  ["Document"; "Chunk"; "_Bloom_Perspective_"; "__Community__";
   "__Entity__"; "Session"; "Message"].

Definition excluded_relationships : list string :=
  ["NEXT_CHUNK"; "_Bloom_Perspective_"; "FIRST_CHUNK"; "SIMILAR";
   "IN_COMMUNITY"; "PARENT_COMMUNITY"; "NEXT"; "LAST_MESSAGE"].

(** [next((lbl for lbl in labels if lbl not in excluded_labels), None)] *)
Definition first_label (labels : list string) : option string :=
  List.find (fun lbl => negb (Py.mem lbl excluded_labels)) labels.

(** [f"{from_label}-{rel_type}->{to_label}"] *)
Definition triplet (from_label rel_type to_label : string) : string :=
  from_label ++ "-" ++ rel_type ++ "->" ++ to_label.

(** The body of the loop over the records: the triplet added to the set,
    or [None] when the record is passed over by [continue]. *)
Definition record_triplet (record : triple_record) : option string :=
  let from_labels := fromLabels record in
  let to_labels := toLabels record in
  let rel_type := relType record in
  match first_label from_labels, first_label to_labels with
  | Some from_label, Some to_label =>
      if negb (Py.truthy from_label) || negb (Py.truthy to_label) then None
      else if String.eqb rel_type "PART_OF" then
        if String.eqb from_label "Chunk" && String.eqb to_label "Document"
        then None
        else Some (triplet from_label rel_type to_label)
      else if String.eqb rel_type "HAS_ENTITY" then
        if String.eqb from_label "Chunk" then None
        else Some (triplet from_label rel_type to_label)
      else if Py.mem from_label excluded_labels
              || Py.mem to_label excluded_labels
              || Py.mem rel_type excluded_relationships
      then None
      else Some (triplet from_label rel_type to_label)
  | _, _ => None
  end.

(** The set [triples] after the loop. *)
Definition collect_triples (records : list triple_record) : gset string :=
  fold_left (fun triples record =>
               match record_triplet record with
               | Some t => {[ t ]} ∪ triples
               | None => triples
               end)
            records ∅.

(** [get_labels_and_relationtypes]: the value under ["triplets"].  The
    order of [list(triples)] is not fixed by Python; [elements] picks
    one. *)
Definition get_labels_and_relationtypes (uri userName password database : string)
  : Act (list string) :=
  let* records :=
    perform (Call_session_run uri database)
            (session_run_triples B uri userName password database) in
  ret (elements (collect_triples records)).

End Code.

(** ** A scripted backend

    A backend whose answers are fixed in advance, for running the code on
    concrete inputs.  Its world is the number of calls made so far, which
    also serves as the clock. *)

Record script : Type := mkScript {
  sc_environ : string -> option string;
  sc_chunks : result (list chunk_row);
  sc_position : query -> result (list position_row);
  sc_status : result (list status_row);
  sc_save : result unit;
  sc_extract : result (list ref);
  sc_records : result (list triple_record)
}.

Definition scripted (sc : script) : Backend nat nat :=
  {| environ_get := fun k _ => sc_environ sc k;
     py_int := fun _ => Raise (ValueError "invalid literal for int()");
     sha1_hexdigest := fun s => s;
     ADDITIONAL_INSTRUCTIONS := "";
     BUCKET_UPLOAD := "upload";
     time_now := fun w => (w, S w);
     time_sub := fun a b => a - b;
     fmt_2f := fun _ => "0.00";
     fmt_rate := fun _ _ => "0";
     Neo4jGraph := fun _ w => (Ok 0, S w);
     driver_closed := fun _ _ => false;
     create_chunk_vector_index := fun _ w => (Ok tt, S w);
     split_file_into_chunks := fun pages _ _ w => (Ok pages, S w);
     create_relation_between_chunks := fun _ _ _ w => (Ok [], S w);
     graph_query_chunks := fun _ _ w => (sc_chunks sc, S w);
     graph_query_position := fun _ q _ w => (sc_position sc q, S w);
     add_graph_documents := fun _ _ _ w => (sc_save sc, S w);
     sleep := fun d w => w + d;
     get_current_status_document_node := fun _ w => (sc_status sc, S w);
     update_source_node := fun _ w => (Ok tt, S w);
     update_node_relationship_count := fun _ w => (Ok ∅, S w);
     create_chunk_embeddings := fun _ _ _ w => (Ok tt, S w);
     aconvert_to_graph_documents := fun _ _ h w => (sc_extract sc, h, S w);
     merge_relationship_between_chunk_and_entites :=
       fun _ _ _ w => (Ok tt, S w);
     delete_file_from_gcs := fun _ _ _ w => (Ok tt, S w);
     path_exists := fun _ _ => false;
     path_unlink := fun _ w => (Ok tt, S w);
     session_run_triples := fun _ _ _ _ w => (sc_records sc, S w) |}.

Definition deadlock : exn :=
  TransientError "Neo.TransientError.Transaction.DeadlockDetected".

(** A script in which the model is configured and every call succeeds
    with an empty answer. *)
Definition quiet : script :=
  {| sc_environ := fun k =>
       if String.eqb k "LLM_MODEL_CONFIG_m" then Some "m,http://localhost"
       else None;
     sc_chunks := Ok [];
     sc_position := fun _ => Ok [];
     sc_status := Ok [];
     sc_save := Ok tt;
     sc_extract := Ok [];
     sc_records := Ok [] |}.

(** A store in which every reference denotes the same blank object. *)
Definition empty_heap : heap :=
  mkHeap (fun _ => mkNode "" "") (fun _ => mkRel 0 0 "")
         (fun _ => mkGraphDoc [] [] (mkDocument "" ∅)).

Definition start {T} (w : nat) : state nat T := mkState w empty_heap [].

(** Ten stored chunks, with ids ["c1"] to ["c10"]. *)
Definition ten_rows : list chunk_row :=
  map (fun i => mkChunkRow ("c" ++ pretty i) (Some ("text" ++ pretty i))
                           (Z.of_nat i))
      (seq 1 10).

(** ** Vocabulary of the statements *)

(** The pairs that one graph document contributes when the value under
    [combined_chunk_ids] is a list. *)
Definition pairs_of (docs : ref -> GraphDocument) (d : ref)
  : list (ref * string) :=
  match metadata (gd_source (docs d)) !! "combined_chunk_ids" with
  | Some (MIds ids) => map (fun id => (d, id)) ids
  | _ => []
  end.

(** The chunks of the [j]-th window of size [k]. *)
Definition window {A} (k j : nat) (l : list A) : list A :=
  take k (drop (j * k) l).

(** The ids that a combined document carries. *)
Definition combined_chunk_ids (d : Document) : list string :=
  match metadata d !! "combined_chunk_ids" with
  | Some (MIds ids) => ids
  | _ => []
  end.

(** The combined document of a group of chunks. *)
Definition combined_document (group : list chunk_entry) : Document :=
  mkDocument
    (String.concat "" (map (fun c => page_content (chunk_doc c)) group))
    {[ "combined_chunk_ids" := MIds (map chunk_id group) ]}.

(** A call answers with the transient deadlock error. *)
Definition raises_deadlock {A} (r : result A) : Prop :=
  exists msg, r = Raise (TransientError msg)
              /\ Py.contains "DeadlockDetected" msg = true.

(** The log of [n] failed attempts of the call [c], each followed by a
    pause of [delay] seconds. *)
Fixpoint failed_attempts {T} (c : call T) (delay n : nat) : list (call T) :=
  match n with
  | O => []
  | S n' => c :: Call_sleep delay :: failed_attempts c delay n'
  end.

(** The three queries of a retry, each with the retry wrapper around it. *)
Definition stored_chunks {W T} (B : Backend W T) (graph : graph_handle)
    (file_name : string) : M W T (list chunk_row) :=
  execute_graph_query B (Call_query graph QUERY_TO_GET_CHUNKS file_name)
    (graph_query_chunks B graph file_name)
    DEFAULT_MAX_RETRIES DEFAULT_QUERY_RETRY_DELAY.

Definition stored_position {W T} (B : Backend W T) (graph : graph_handle)
    (file_name : string) (q : query) : M W T (list position_row) :=
  execute_graph_query B (Call_query graph q file_name)
    (graph_query_position B graph q file_name)
    DEFAULT_MAX_RETRIES DEFAULT_QUERY_RETRY_DELAY.

(** What the hypothesis of the claim says of the items of
    [allowedRelationship]: their number is not a multiple of three, or
    some triple has a source or a target outside the allowed nodes. *)
Definition malformed (allowed_nodes items : list string) : Prop :=
  length items mod 3 <> 0
  \/ exists j source relation target,
       items !! (3 * j) = Some source
       /\ items !! (3 * j + 1) = Some relation
       /\ items !! (3 * j + 2) = Some target
       /\ ((source ∉ allowed_nodes) \/ (target ∉ allowed_nodes)).

(** The character [c] occurs in [s]. *)
Fixpoint has_char (c : ascii) (s : string) : bool :=
  match s with
  | EmptyString => false
  | String c' s' => Ascii.eqb c' c || has_char c s'
  end.

(** A type name keeps its standing under the emptiness test when its
    backticks are removed: it is not made of backticks and whitespace only,
    with at least one backtick. *)
Definition stable (type_name : string) : Prop :=
  Py.truthy (Py.strip (strip_backticks type_name))
  = Py.truthy (Py.strip type_name).

(** The nodes that a graph document reaches: its own and the end points of
    its relationships. *)
Definition reached_nodes (h : heap) (d : ref) : list ref :=
  (gd_nodes (h_docs h d)
   ++ flat_map (fun r => [rel_source (h_rels h r); rel_target (h_rels h r)])
        (gd_relationships (h_docs h d)))%list.

(** No type name reached from the documents of the list is made of
    backticks and whitespace only. *)
Definition stable_types (h : heap) (graph_document_list : list ref) : Prop :=
  forall d, d ∈ graph_document_list ->
    (forall n, n ∈ reached_nodes h d -> stable (node_type (h_nodes h n)))
    /\ (forall r, r ∈ gd_relationships (h_docs h d) ->
          stable (rel_type (h_rels h r))).

(** The node behind [n] has the type it had in [h0], without backticks,
    and the id it had. *)
Definition node_cleaned (h0 h : ref -> Node) (n : ref) : Prop :=
  h n = mkNode (node_id (h0 n)) (strip_backticks (node_type (h0 n))).

(** The same for a relationship, whose end points are unchanged. *)
Definition rel_cleaned (h0 h : ref -> Relationship) (r : ref) : Prop :=
  h r = mkRel (rel_source (h0 r)) (rel_target (h0 r))
              (strip_backticks (rel_type (h0 r))).

(** The store of the example of the claim: node 0 is Alice, of type
    Person written in backticks; node 1 has an empty id; relationship 0
    goes from Alice to node 1; graph document 0 holds them. *)
Definition alice_heap : heap :=
  mkHeap
    (fun n => match n with
              | 0 => mkNode "Alice" "`Person`"
              | _ => mkNode "" "Person"
              end)
    (fun _ => mkRel 0 1 "KNOWS")
    (fun _ => mkGraphDoc [0; 1] [0] (mkDocument "" ∅)).

(** A store in which a relationship shares its source with the node list:
    node 0 has a type made of one backtick, node 1 is ordinary. *)
Definition shared_heap : heap :=
  mkHeap
    (fun n => match n with
              | 0 => mkNode "a" "`"
              | _ => mkNode "b" "T"
              end)
    (fun _ => mkRel 0 1 "R")
    (fun _ => mkGraphDoc [0; 1] [0] (mkDocument "" ∅)).

(** Each node of [h] is as it was in [h0], or has lost its backticks. *)
Definition node_tracks (h0 h : ref -> Node) : Prop :=
  forall n, h n = h0 n \/ node_cleaned h0 h n.

Definition rel_tracks (h0 h : ref -> Relationship) : Prop :=
  forall r, h r = h0 r \/ rel_cleaned h0 h r.

(** The tests of the cleaning, taken on the store [h0]. *)
Definition keeps_node (h0 : heap) (n : ref) : bool :=
  node_kept (h_nodes h0 n).

Definition keeps_relationship (h0 : heap) (r : ref) : bool :=
  relationship_kept (h_nodes h0) (h_rels h0 r).

(** The graph document behind [d] holds the nodes and relationships of
    [h0] that pass the tests, in their order, and each of them, with the
    end points of the relationships, has lost its backticks. *)
Definition doc_cleaned (h0 h : heap) (d : ref) : Prop :=
  h_docs h d
  = mkGraphDoc (List.filter (keeps_node h0) (gd_nodes (h_docs h0 d)))
      (List.filter (keeps_relationship h0) (gd_relationships (h_docs h0 d)))
      (gd_source (h_docs h0 d))
  /\ (forall n, n ∈ gd_nodes (h_docs h d) ->
        node_cleaned (h_nodes h0) (h_nodes h) n)
  /\ (forall r, r ∈ gd_relationships (h_docs h d) ->
        rel_cleaned (h_rels h0) (h_rels h) r
        /\ node_cleaned (h_nodes h0) (h_nodes h) (rel_source (h_rels h0 r))
        /\ node_cleaned (h_nodes h0) (h_nodes h) (rel_target (h_rels h0 r))).

(** The state of the cleaning after the documents [done]. *)
Definition tracks (h0 h : heap) (done : list ref) : Prop :=
  node_tracks (h_nodes h0) (h_nodes h)
  /\ rel_tracks (h_rels h0) (h_rels h)
  /\ (forall d, d ∉ done -> h_docs h d = h_docs h0 d)
  /\ (forall d, d ∈ done -> doc_cleaned h0 h d).

(** The demand of the cleaning on one relationship: its type and the types
    of its end points are stable. *)
Definition stable_relationship (n0 : ref -> Node) (r0 : ref -> Relationship)
    (r : ref) : Prop :=
  stable (rel_type (r0 r))
  /\ stable (node_type (n0 (rel_source (r0 r))))
  /\ stable (node_type (n0 (rel_target (r0 r)))).

(** Scripts for the scenarios of the statements. *)

(** Ten stored chunks, the stored position is 7. *)
Definition resume_script : script :=
  {| sc_environ := sc_environ quiet;
     sc_chunks := Ok ten_rows;
     sc_position := fun q =>
       match q with
       | QUERY_TO_GET_LAST_PROCESSED_CHUNK_POSITION => Ok [mkPositionRow 7]
       | _ => Ok []
       end;
     sc_status := Ok [];
     sc_save := Ok tt;
     sc_extract := Ok [];
     sc_records := Ok [] |}.

(** Ten stored chunks, the stored position is 10 and the last processed
    chunk without an entity is the ninth. *)
Definition tail_script : script :=
  {| sc_environ := sc_environ quiet;
     sc_chunks := Ok ten_rows;
     sc_position := fun q =>
       match q with
       | QUERY_TO_GET_LAST_PROCESSED_CHUNK_POSITION => Ok [mkPositionRow 10]
       | QUERY_TO_GET_LAST_PROCESSED_CHUNK_WITHOUT_ENTITY =>
           Ok [mkPositionRow 9]
       | _ => Ok []
       end;
     sc_status := Ok [];
     sc_save := Ok tt;
     sc_extract := Ok [];
     sc_records := Ok [] |}.

(** Every merge and every chunk query meets a deadlock. *)
Definition deadlock_script : script :=
  {| sc_environ := sc_environ quiet;
     sc_chunks := Raise deadlock;
     sc_position := fun _ => Ok [];
     sc_status := Ok [];
     sc_save := Raise deadlock;
     sc_extract := Ok [];
     sc_records := Ok [] |}.

(** The document is being processed. *)
Definition processing_script : script :=
  {| sc_environ := sc_environ quiet;
     sc_chunks := Ok [];
     sc_position := fun _ => Ok [];
     sc_status := Ok [mkStatusRow "Processing" (CInt 0) (CInt 0) 0 false];
     sc_save := Ok tt;
     sc_extract := Ok [];
     sc_records := Ok [] |}.

(** The three relationship records of the schema example. *)
Definition schema_script : script :=
  {| sc_environ := sc_environ quiet;
     sc_chunks := Ok [];
     sc_position := fun _ => Ok [];
     sc_status := Ok [];
     sc_save := Ok tt;
     sc_extract := Ok [];
     sc_records :=
       Ok [mkTriple ["Chunk"] "PART_OF" ["Document"];
           mkTriple ["Chunk"] "HAS_ENTITY" ["Person"];
           mkTriple ["Person"] "WORKS_AT" ["Company"]] |}.

(** Seven chunks, with ids ["c1"] to ["c7"] and texts ["t1"] to ["t7"]. *)
Definition seven_chunks : list chunk_entry :=
  map (fun i => mkChunk ("c" ++ pretty i) (mkDocument ("t" ++ pretty i) ∅))
      (seq 1 7).

(** Two graph documents: the source of the first carries two combined
    chunk ids, the source of the second was built by
    [get_chunk_id_as_doc_metadata]. *)
Definition two_docs (d : ref) : GraphDocument :=
  match d with
  | 0 => mkGraphDoc [] []
           (mkDocument "ab" {[ "combined_chunk_ids" := MIds ["a"; "b"] ]})
  | _ => mkGraphDoc [] [] (mkDocument "c" {[ "chunk_id" := MIds ["c"] ]})
  end.

(** ** Vocabulary of the further statements *)

(** What a bounded retry loop leaves in the log after [k] deadlocks out
    of [n] allowed attempts: the failed attempts and, when an attempt was
    left, the one that ended the loop. *)
Definition attempts_log {T} (c : call T) (delay n k : nat) : list (call T) :=
  (failed_attempts c delay k ++ (if k <? n then [c] else []))%list.

(** The triples of a list of items, three by three. *)
Fixpoint triples_of (items : list string) : list (string * string * string) :=
  match items with
  | a :: b :: c :: rest => (a, b, c) :: triples_of rest
  | _ => []
  end.

(** The items of [allowedRelationship] can be read as triples whose
    sources and targets are allowed nodes. *)
Definition well_formed (allowed_nodes items : list string) : Prop :=
  length items mod 3 = 0
  /\ forall source relation target,
       (source, relation, target) ∈ triples_of items ->
       source ∈ allowed_nodes /\ target ∈ allowed_nodes.

(** The transformer that [get_graph_document_list] builds. *)
Definition transformer_for {W T} (B : Backend W T) (llm : llm_client)
    (allowed_nodes : list string)
    (allowed_relationships : list (string * string * string))
    (additional_instructions : option string) : transformer :=
  mkTransformer llm false false allowed_nodes allowed_relationships
    (negb (Py.contains "qwen3" (get_llm_model_name llm)
           || Py.contains "deepseek" (get_llm_model_name llm)))
    (ADDITIONAL_INSTRUCTIONS B
     ++ match additional_instructions with
        | Some i => if Py.truthy i then sanitize_additional_instruction i
                    else ""
        | None => ""
        end).

(** Further scripts.  Ten stored chunks with a stored position of 0. *)
Definition zero_position_script : script :=
  {| sc_environ := sc_environ quiet;
     sc_chunks := Ok ten_rows;
     sc_position := fun _ => Ok [mkPositionRow 0];
     sc_status := Ok [];
     sc_save := Ok tt;
     sc_extract := Ok [];
     sc_records := Ok [] |}.

(** Ten stored chunks and no stored position. *)
Definition no_position_script : script :=
  {| sc_environ := sc_environ quiet;
     sc_chunks := Ok ten_rows;
     sc_position := fun _ => Ok [];
     sc_status := Ok [];
     sc_save := Ok tt;
     sc_extract := Ok [];
     sc_records := Ok [] |}.

(** One stored chunk, without text. *)
Definition textless_script : script :=
  {| sc_environ := sc_environ quiet;
     sc_chunks := Ok [mkChunkRow "c1" None 1];
     sc_position := fun _ => Ok [];
     sc_status := Ok [];
     sc_save := Ok tt;
     sc_extract := Ok [];
     sc_records := Ok [] |}.

(** Three graph documents whose sources are the documents combined from
    [seven_chunks] with a window of three. *)
Definition combined_store (d : ref) : GraphDocument :=
  mkGraphDoc [] []
    (nth d
       (match get_combined_chunks seven_chunks 3 with
        | Ok combined => combined
        | Raise _ => []
        end)
       (mkDocument "" ∅)).

(** A page with an apostrophe and a line break. *)
Definition quoted_page : Document :=
  mkDocument ("it's" ++ String newline "here") ∅.

(** No character of [q] matches [c] when letter case is ignored. *)
Fixpoint avoids (q : string) (c : ascii) : bool :=
  match q with
  | EmptyString => true
  | String a q' => negb (Ascii.eqb (Py.lower a) (Py.lower c)) && avoids q' c
  end.

(** [q] matches at no position of [t], whatever follows [t]. *)
Fixpoint never_in (q t : string) : Prop :=
  match t with
  | EmptyString => True
  | String c t' =>
      (forall x, Py.match_ci q (String c t' ++ x) = false) /\ never_in q t'
  end.

(** [q] cannot overlap the token that replaces a blocked pattern. *)
Definition inert (q : string) : Prop :=
  avoids q "[" = true /\ never_in q "[BLOCKED]".

(** No character of [q] is whitespace, also after lower-casing. *)
Fixpoint spaceless (q : string) : bool :=
  match q with
  | EmptyString => true
  | String a q' => negb (Py.isspace (Py.lower a)) && spaceless q'
  end.

(** The whitespace of [s] is made of single spaces: every whitespace
    character is a space and no space follows a space; [after_space] tells
    that the character before [s] was a space. *)
Fixpoint single_spaced (after_space : bool) (s : string) : bool :=
  match s with
  | EmptyString => true
  | String c s' =>
      if Py.isspace c
      then Ascii.eqb c " " && negb after_space && single_spaced true s'
      else single_spaced false s'
  end.

(** [s] does not start with whitespace. *)
Definition starts_solid (s : string) : bool :=
  match s with
  | EmptyString => true
  | String c _ => negb (Py.isspace c)
  end.

(** [s] does not end with whitespace. *)
Fixpoint ends_solid (s : string) : bool :=
  match s with
  | EmptyString => true
  | String c EmptyString => negb (Py.isspace c)
  | String _ s' => ends_solid s'
  end.

(** The whitespace normal form: single spaces between the words and none
    at either end. *)
Definition ws_normal (s : string) : bool :=
  single_spaced false s && starts_solid s && ends_solid s.

(** The blocked patterns that hold no whitespace. *)
Definition solid_patterns : list string :=
  ["os.getenv("; "eval("; "exec("; "subprocess."].

(** A text the sanitiser has nothing to do on: no brace, whitespace in
    normal form, no blocked pattern in any letter case. *)
Definition clean_text (text : string) : bool :=
  negb (has_char "{" text) && negb (has_char "}" text) && ws_normal text
  && forallb (fun p => negb (Py.contains_ci p text)) injection_patterns.

(** The node behind [n] is in order: its type holds no backtick and its id
    is not blank. *)
Definition node_settled (nodes : ref -> Node) (n : ref) : Prop :=
  has_char "`" (node_type (nodes n)) = false
  /\ Py.truthy (Py.strip (node_id (nodes n))) = true.

(** The relationship behind [r] is in order: its type holds no backtick
    and both its end points are in order. *)
Definition rel_settled (rels : ref -> Relationship) (nodes : ref -> Node)
    (r : ref) : Prop :=
  has_char "`" (rel_type (rels r)) = false
  /\ node_settled nodes (rel_source (rels r))
  /\ node_settled nodes (rel_target (rels r)).

(** Everything the graph document behind [d] lists is in order. *)
Definition settled (h : heap) (d : ref) : Prop :=
  (forall n, n ∈ gd_nodes (h_docs h d) -> node_settled (h_nodes h) n)
  /\ (forall r, r ∈ gd_relationships (h_docs h d) ->
        rel_settled (h_rels h) (h_nodes h) r).

(** The graph document behind [d] in [h] lists a part of what it listed in
    [h0], in the same order, and has the same source. *)
Definition doc_shrunk (h0 h : heap) (d : ref) : Prop :=
  gd_nodes (h_docs h d) `sublist_of` gd_nodes (h_docs h0 d)
  /\ gd_relationships (h_docs h d) `sublist_of` gd_relationships (h_docs h0 d)
  /\ gd_source (h_docs h d) = gd_source (h_docs h0 d).

(** The state of the cleaning after the documents [done], whatever the
    type names are. *)
Definition settles (h0 h : heap) (done : list ref) : Prop :=
  node_tracks (h_nodes h0) (h_nodes h)
  /\ rel_tracks (h_rels h0) (h_rels h)
  /\ (forall d, d ∉ done -> h_docs h d = h_docs h0 d)
  /\ (forall d, doc_shrunk h0 h d)
  /\ (forall d, d ∈ done -> settled h d).

(** [lbl] is the first label of [labels] that is not an excluded label. *)
Definition first_allowed (labels : list string) (lbl : string) : Prop :=
  exists before after,
    labels = (before ++ lbl :: after)%list
    /\ (lbl ∉ excluded_labels)
    /\ (forall l, l ∈ before -> l ∈ excluded_labels).

(** The record yields the triplet [t]: both label lists hold a label that
    is not excluded, the first such labels are not empty, the relationship
    type is not excluded, and [t] is written from these three names. *)
Definition yields (record : triple_record) (t : string) : Prop :=
  exists from_label to_label,
    first_allowed (fromLabels record) from_label
    /\ first_allowed (toLabels record) to_label
    /\ from_label <> "" /\ to_label <> ""
    /\ (relType record ∉ excluded_relationships)
    /\ t = triplet from_label (relType record) to_label.

(** Records whose nodes carry more than one label. *)
Definition labelled_script : script :=
  {| sc_environ := sc_environ quiet;
     sc_chunks := Ok [];
     sc_position := fun _ => Ok [];
     sc_status := Ok [];
     sc_save := Ok tt;
     sc_extract := Ok [];
     sc_records :=
       Ok [mkTriple ["Chunk"; "Page"] "HAS_ENTITY" ["__Entity__"; "Person"];
           mkTriple ["Person"] "NEXT" ["Person"]] |}.

(** Every call that [m] adds to the log satisfies [P], whatever the
    backend answers and whether [m] returns or raises. *)
Definition emits {W T A} (P : call T -> Prop) (m : M W T A) : Prop :=
  forall s, exists l,
    st_log (m s).2 = (st_log s ++ l)%list /\ Forall P l.

(** The calls that remove a file. *)
Definition is_deletion {T} (c : call T) : bool :=
  match c with
  | Call_unlink _ | Call_delete_file_from_gcs _ _ => true
  | _ => false
  end.

(** The calls that split a file into chunks or store the chunks. *)
Definition is_chunking {T} (c : call T) : bool :=
  match c with
  | Call_split_file_into_chunks _ _ _
  | Call_create_relation_between_chunks _ _ _ => true
  | _ => false
  end.

(** The calls that read the graph: a query, or the pause before a query
    is tried again. *)
Definition is_read {T} (c : call T) : bool :=
  match c with
  | Call_query _ _ _ | Call_sleep _ => true
  | _ => false
  end.

(** The calls that [m] adds to the log and its outcome satisfy [R],
    whatever the backend answers. *)
Definition logs {W T A} (R : result A -> list (call T) -> Prop)
    (m : M W T A) : Prop :=
  forall s, exists l,
    st_log (m s).2 = (st_log s ++ l)%list /\ R (m s).1 l.

(** The chunk lists handed to [create_chunk_embeddings], in the order of
    the calls. *)
Definition embedded {T} (l : list (call T)) : list (list chunk_entry) :=
  flat_map (fun c =>
              match c with
              | Call_create_chunk_embeddings _ chunks _ => [chunks]
              | _ => []
              end) l.

Definition is_embedding {T} (c : call T) : bool :=
  match c with
  | Call_create_chunk_embeddings _ _ _ => true
  | _ => false
  end.

(** What [processing_source] does at the end for an uploaded file: nothing,
    or one removal, of the object in the bucket or of the local file. *)
Definition cleanup_calls {W T} (B : Backend W T) (uri file_name : string)
    (is_uploaded_from_local : bool) (merged_file_path : option string)
    (calls : list (call T)) : Prop :=
  calls = []
  \/ (is_uploaded_from_local = true
      /\ (calls = [Call_delete_file_from_gcs
                     (create_gcs_bucket_folder_name_hashed B uri file_name)
                     file_name]
          \/ exists path,
               merged_file_path = Some path /\ calls = [Call_unlink path])).

(** A backend as [scripted], in which the batch sizes ["4"], ["0"] and
    ["-1"] can be read and the counters of every file are known. *)
Definition counted (sc : script) : Backend nat nat :=
  let b := scripted sc in
  {| environ_get := environ_get b;
     py_int := fun s =>
       if String.eqb s "4" then Ok 4%Z
       else if String.eqb s "0" then Ok 0%Z
       else if String.eqb s "-1" then Ok (-1)%Z
       else py_int b s;
     sha1_hexdigest := sha1_hexdigest b;
     ADDITIONAL_INSTRUCTIONS := ADDITIONAL_INSTRUCTIONS b;
     BUCKET_UPLOAD := BUCKET_UPLOAD b;
     time_now := time_now b;
     time_sub := time_sub b;
     fmt_2f := fmt_2f b;
     fmt_rate := fmt_rate b;
     Neo4jGraph := Neo4jGraph b;
     driver_closed := driver_closed b;
     create_chunk_vector_index := create_chunk_vector_index b;
     split_file_into_chunks := split_file_into_chunks b;
     create_relation_between_chunks := create_relation_between_chunks b;
     graph_query_chunks := graph_query_chunks b;
     graph_query_position := graph_query_position b;
     add_graph_documents := add_graph_documents b;
     sleep := sleep b;
     get_current_status_document_node := get_current_status_document_node b;
     update_source_node := update_source_node b;
     update_node_relationship_count := fun file_name w =>
       (Ok {[ file_name := (Some (CInt 2), Some (CInt 1)) ]}, S w);
     create_chunk_embeddings := create_chunk_embeddings b;
     aconvert_to_graph_documents := aconvert_to_graph_documents b;
     merge_relationship_between_chunk_and_entites :=
       merge_relationship_between_chunk_and_entites b;
     delete_file_from_gcs := delete_file_from_gcs b;
     path_exists := path_exists b;
     path_unlink := path_unlink b;
     session_run_triples := session_run_triples b |}.

(** Ten stored chunks of a new document, to be processed four at a
    time. *)
Definition batch_script : script :=
  {| sc_environ := fun k =>
       if String.eqb k "UPDATE_GRAPH_CHUNKS_PROCESSED" then Some "4"
       else sc_environ quiet k;
     sc_chunks := Ok ten_rows;
     sc_position := fun _ => Ok [];
     sc_status := Ok [mkStatusRow "New" (CInt 0) (CInt 0) 0 false];
     sc_save := Ok tt;
     sc_extract := Ok [];
     sc_records := Ok [] |}.

(** The same document, with a negative batch size. *)
Definition negative_batch_script : script :=
  {| sc_environ := fun k =>
       if String.eqb k "UPDATE_GRAPH_CHUNKS_PROCESSED" then Some "-1"
       else sc_environ quiet k;
     sc_chunks := Ok ten_rows;
     sc_position := fun _ => Ok [];
     sc_status := Ok [mkStatusRow "New" (CInt 0) (CInt 0) 0 false];
     sc_save := Ok tt;
     sc_extract := Ok [];
     sc_records := Ok [] |}.

(** The source node that [processing_source] writes at the end. *)
Definition final_source_node {T} (file_name job_status : string)
    (processed_time : T) (node_count rel_count : count) : sourceNode T :=
  mkSourceNode (Py.strip file_name) (Some job_status) None None None
    (Some processed_time) (Some node_count) (Some rel_count).

(** The chunk entries made from the ten stored rows. *)
Definition ten_entries : list chunk_entry :=
  map (fun i =>
         mkChunk ("c" ++ pretty i)
           (mkDocument ("text" ++ pretty i)
              {[ "id" := MStr ("c" ++ pretty i);
                 "position" := MInt (Z.of_nat i) ]}))
      (seq 1 10).

(** A text that can be appended to the instructions of the model: no
    brace, whitespace in normal form, and none of the blocked patterns
    that hold no whitespace, in any letter case. *)
Definition harmless (text : string) : Prop :=
  has_char "{" text = false /\ has_char "}" text = false
  /\ ws_normal text = true
  /\ forall p, p ∈ solid_patterns -> Py.contains_ci p text = false.


(** * Properties *)

(** Unfolds the operations of the monad. *)
Ltac monad :=
  unfold bind, ret, raise, lift, try_except, peek, perform, clock in *;
  simpl in *.

(** ** Instruction sanitising *)

(** C6.  The output of [sanitize_additional_instruction] can contain a
    blocked pattern, and the function is not idempotent.  On the
    instruction [import  os], written with two spaces, no pattern matches
    while the patterns are replaced; whitespace is collapsed afterwards, so
    the result is [import os], which is one of the blocked patterns, and a
    second pass turns it into the [BLOCKED] token. *)
Theorem sanitize_additional_instruction_misses_spaced_pattern :
  sanitize_additional_instruction "import  os" = "import os"
  /\ In "import os" injection_patterns
  /\ Py.contains_ci "import os"
       (sanitize_additional_instruction "import  os") = true
  /\ sanitize_additional_instruction
       (sanitize_additional_instruction "import  os") = "[BLOCKED]"
  /\ sanitize_additional_instruction
       (sanitize_additional_instruction "import  os")
     <> sanitize_additional_instruction "import  os".
Proof.
  repeat split; try reflexivity.
  - simpl. tauto.
  - vm_compute. discriminate.
Qed.

(** What does hold of the output: it has no brace.  The braces are
    replaced first and no later step can bring one back. *)

Lemma has_char_app (c : ascii) (a b : string) :
  has_char c (a ++ b) = has_char c a || has_char c b.
Proof.
  induction a as [|x a IH]; [reflexivity|]. simpl.
  now rewrite IH, orb_assoc.
Qed.

Lemma replace_removes (old : ascii) (new s : string) :
  has_char old new = false -> has_char old (Py.replace old new s) = false.
Proof.
  intros Hnew. induction s as [|x s IH]; [reflexivity|]. simpl.
  destruct (Ascii.eqb x old) eqn:E.
  - now rewrite has_char_app, Hnew, IH.
  - simpl. now rewrite E, IH.
Qed.

Lemma replace_keeps_out (c old : ascii) (new s : string) :
  has_char c new = false -> has_char c s = false ->
  has_char c (Py.replace old new s) = false.
Proof.
  intros Hnew. induction s as [|x s IH]; [reflexivity|]. simpl.
  intros H. apply orb_false_elim in H as [Hx Hs].
  destruct (Ascii.eqb x old).
  - now rewrite has_char_app, Hnew, IH.
  - simpl. now rewrite Hx, IH.
Qed.

Lemma sub_ci_keeps_out (c : ascii) (p repl s : string) (skip : nat) :
  has_char c repl = false -> has_char c s = false ->
  has_char c (Py.sub_ci_from skip p repl s) = false.
Proof.
  intros Hrepl. revert skip. induction s as [|x s IH]; [reflexivity|].
  intros skip H. simpl in H. apply orb_false_elim in H as [Hx Hs]. simpl.
  destruct skip as [|k]; [|now apply IH].
  destruct (Py.match_ci p (String x s)).
  - now rewrite has_char_app, Hrepl, IH.
  - simpl. now rewrite Hx, IH.
Qed.

Lemma collapse_ws_keeps_out (c : ascii) (s : string) (in_run : bool) :
  Ascii.eqb " " c = false -> has_char c s = false ->
  has_char c (Py.collapse_ws_from in_run s) = false.
Proof.
  intros Hc. revert in_run. induction s as [|x s IH]; [reflexivity|].
  intros in_run H. simpl in H. apply orb_false_elim in H as [Hx Hs]. simpl.
  destruct (Py.isspace x).
  - destruct in_run; [now apply IH|]. cbn [has_char]. now rewrite Hc, IH.
  - simpl. now rewrite Hx, IH.
Qed.

Lemma lstrip_keeps_out (c : ascii) (s : string) :
  has_char c s = false -> has_char c (Py.lstrip s) = false.
Proof.
  induction s as [|x s IH]; [reflexivity|]. intros H. simpl.
  destruct (Py.isspace x); [|exact H].
  simpl in H. apply orb_false_elim in H as [_ Hs]. now apply IH.
Qed.

Lemma rstrip_keeps_out (c : ascii) (s : string) :
  has_char c s = false -> has_char c (Py.rstrip s) = false.
Proof.
  induction s as [|x s IH]; [reflexivity|]. intros H. simpl.
  simpl in H. apply orb_false_elim in H as [Hx Hs].
  destruct (Py.isspace x && negb (Py.truthy (Py.rstrip s))); [reflexivity|].
  simpl. now rewrite Hx, IH.
Qed.

Lemma patterns_keep_out (c : ascii) (patterns : list string) (s : string) :
  has_char c "[BLOCKED]" = false -> has_char c s = false ->
  has_char c
    (fold_left (fun acc pattern => Py.sub_ci pattern "[BLOCKED]" acc)
               patterns s) = false.
Proof.
  intros Hb. revert s. induction patterns as [|p ps IH]; intros s Hs; simpl.
  - exact Hs.
  - apply IH. now apply sub_ci_keeps_out.
Qed.

Lemma sanitize_additional_instruction_no_braces (instruction : string) :
  has_char "{" (sanitize_additional_instruction instruction) = false
  /\ has_char "}" (sanitize_additional_instruction instruction) = false.
Proof.
  unfold sanitize_additional_instruction, Py.strip, Py.collapse_ws.
  split.
  - apply rstrip_keeps_out, lstrip_keeps_out, collapse_ws_keeps_out;
      [reflexivity|].
    apply patterns_keep_out; [reflexivity|].
    apply replace_keeps_out; [reflexivity|].
    now apply replace_removes.
  - apply rstrip_keeps_out, lstrip_keeps_out, collapse_ws_keeps_out;
      [reflexivity|].
    apply patterns_keep_out; [reflexivity|].
    now apply replace_removes.
Qed.

(** ** The chunk/graph-document mapping *)

Lemma chunk_id_metadata_lacks_combined_ids (chunks : list chunk_entry) (d : Document) :
  d ∈ get_chunk_id_as_doc_metadata chunks ->
  metadata d !! "combined_chunk_ids" = None.
Proof.
  unfold get_chunk_id_as_doc_metadata. intros Hd.
  apply list_elem_of_fmap in Hd as [c [-> _]]. simpl.
  apply lookup_singleton_ne. discriminate.
Qed.

(** C10.  [get_chunk_and_graphDocument] expands, in order, the list under
    [combined_chunk_ids] of each graph document's source into pairs of the
    document and a chunk id; a document without that key contributes
    nothing, and the documents built by [get_chunk_id_as_doc_metadata],
    which carry their id under [chunk_id], all lack it. *)
Theorem get_chunk_and_graphDocument_pairs
    (docs : ref -> GraphDocument) (graph_document_list : list ref) :
  (forall d v, d ∈ graph_document_list ->
     metadata (gd_source (docs d)) !! "combined_chunk_ids" = Some v ->
     exists ids, v = MIds ids) ->
  get_chunk_and_graphDocument docs graph_document_list
  = Ok (flat_map (pairs_of docs) graph_document_list)
  /\ (forall d, d ∈ graph_document_list ->
        metadata (gd_source (docs d)) !! "combined_chunk_ids" = None ->
        pairs_of docs d = [])
  /\ (forall chunks,
        (forall d, d ∈ graph_document_list ->
           gd_source (docs d) ∈ get_chunk_id_as_doc_metadata chunks) ->
        get_chunk_and_graphDocument docs graph_document_list = Ok []).
Proof.
  intros Hlists.
  assert (Hmain : get_chunk_and_graphDocument docs graph_document_list
                  = Ok (flat_map (pairs_of docs) graph_document_list)).
  { induction graph_document_list as [|d rest IH]; [reflexivity|].
    simpl. rewrite IH by (intros; eapply Hlists; [right|]; eauto).
    unfold pairs_of.
    destruct (metadata (gd_source (docs d)) !! "combined_chunk_ids") as [v|] eqn:E;
      [|reflexivity].
    destruct (Hlists d v) as [ids ->]; [left|exact E|reflexivity]. }
  split; [exact Hmain|]. split.
  - intros d _ E. unfold pairs_of. now rewrite E.
  - intros chunks Hsrc. rewrite Hmain. f_equal.
    clear Hmain Hlists.
    induction graph_document_list as [|d rest IH]; [reflexivity|].
    simpl. rewrite IH by (intros; apply Hsrc; now right).
    unfold pairs_of.
    rewrite (chunk_id_metadata_lacks_combined_ids chunks); [reflexivity|].
    apply Hsrc. left.
Qed.

(** ** Chunk combination *)

Lemma div_up_succ (x k : nat) :
  0 < k -> 0 < x -> (x + k - 1) / k = S ((x - k + k - 1) / k).
Proof.
  intros Hk Hx.
  replace (x + k - 1) with ((x - 1) + 1 * k) by lia.
  rewrite Nat.div_add by lia.
  destruct (Nat.le_gt_cases k x).
  - replace (x - k + k - 1) with (x - 1) by lia. lia.
  - replace (x - k + k - 1) with (k - 1) by lia.
    rewrite !Nat.div_small by lia. lia.
Qed.

Lemma div_up_covers (n k : nat) : 0 < k -> n <= (n + k - 1) / k * k.
Proof.
  intros Hk.
  pose proof (Nat.div_mod_eq (n + k - 1) k) as E.
  pose proof (Nat.mod_upper_bound (n + k - 1) k) as U.
  nia.
Qed.

Lemma range_from_closed (fuel i stop step : nat) :
  0 < step -> stop - i <= fuel ->
  Py.range_from fuel i stop step
  = map (fun j => i + j * step) (seq 0 ((stop - i + step - 1) / step)).
Proof.
  intros Hstep. revert i.
  induction fuel as [|fuel IH]; intros i Hfuel; simpl.
  - replace (stop - i) with 0 by lia.
    rewrite Nat.div_small by lia. reflexivity.
  - destruct (Nat.ltb_spec i stop) as [Hlt|Hge].
    + rewrite IH by lia.
      rewrite (div_up_succ (stop - i) step) by lia.
      replace (stop - (i + step)) with (stop - i - step) by lia.
      rewrite <- cons_seq, <- seq_shift, map_cons, map_map.
      f_equal; [lia|]. apply map_ext. intros j. lia.
    + replace (stop - i) with 0 by lia.
      rewrite Nat.div_small by lia. reflexivity.
Qed.

Lemma range_closed (stop step : nat) :
  0 < step ->
  Py.range stop step
  = map (fun j => j * step) (seq 0 ((stop + step - 1) / step)).
Proof.
  intros Hstep. unfold Py.range.
  rewrite range_from_closed by lia.
  now rewrite Nat.sub_0_r.
Qed.

(** The documents returned for a positive window size, in closed form. *)
Lemma get_combined_chunks_closed (l : list chunk_entry) (K : Z) :
  (0 < K)%Z ->
  get_combined_chunks l K
  = Ok (map (fun j => combined_document (window (Z.to_nat K) j l))
            (seq 0 ((length l + Z.to_nat K - 1) / Z.to_nat K))).
Proof.
  intros HK. unfold get_combined_chunks.
  destruct (Z.eqb_spec K 0) as [->|_]; [lia|].
  destruct (Z.ltb_spec K 0) as [?|_]; [lia|].
  set (k := Z.to_nat K). assert (Hk : 0 < k) by (unfold k; lia).
  rewrite range_closed by exact Hk.
  set (c := (length l + k - 1) / k).
  rewrite !length_map, length_seq. f_equal.
  apply map_ext_in. intros j Hj. apply in_seq in Hj.
  unfold combined_document, window, Py.slice.
  rewrite !map_map.
  set (f := fun x : nat => String.concat "" _).
  set (g := fun x : nat => map chunk_id _).
  rewrite (nth_indep _ "" (f 0)) by (rewrite length_map, length_seq; lia).
  rewrite (nth_indep _ [] (g 0)) by (rewrite length_map, length_seq; lia).
  rewrite !map_nth, seq_nth by lia. reflexivity.
Qed.

Lemma windows_cover {A} (k : nat) (l : list A) (c : nat) :
  length l <= c * k ->
  concat (map (fun j => window k j l) (seq 0 c)) = l.
Proof.
  revert l. induction c as [|c IH]; intros l Hlen; simpl.
  - destruct l; [reflexivity | simpl in Hlen; lia].
  - unfold window at 1. simpl. rewrite drop_0.
    rewrite <- seq_shift, map_map.
    rewrite (map_ext _ (fun j => window k j (drop k l))).
    + rewrite IH by (rewrite length_drop; lia). apply take_drop.
    + intros j. unfold window. rewrite drop_drop. f_equal; f_equal; lia.
Qed.

(** C5.  For a window size [K > 0], [get_combined_chunks] returns
    [ceil(n/K)] documents; the [j]-th one is built from the [j]-th window of
    [K] consecutive chunks (the last window holds the remainder): its text is
    the concatenation of the window's texts and its [combined_chunk_ids] are
    the window's ids, in order; the windows together are the input list.
    Seven chunks and [K = 3] give three documents with 3, 3 and 1 ids. *)
Theorem get_combined_chunks_partition (l : list chunk_entry) (K : Z) :
  (0 < K)%Z ->
  let k := Z.to_nat K in
  let n := length l in
  exists docs,
    get_combined_chunks l K = Ok docs
    /\ length docs = (n + k - 1) / k
    /\ (forall j, j < length docs ->
          docs !! j = Some (combined_document (window k j l))
          /\ length (window k j l) = Nat.min k (n - j * k)
          /\ 0 < length (window k j l))
    /\ (forall j d, docs !! j = Some d ->
          page_content d
          = String.concat ""
              (map (fun c => page_content (chunk_doc c)) (window k j l))
          /\ metadata d !! "combined_chunk_ids"
             = Some (MIds (map chunk_id (window k j l))))
    /\ concat (map (fun j => window k j l) (seq 0 (length docs))) = l
    /\ (n = 7 -> K = 3%Z ->
        length docs = 3
        /\ map (fun d => length (combined_chunk_ids d)) docs = [3; 3; 1]).
Proof.
  intros HK k n.
  assert (Hk : 0 < k) by (unfold k; lia).
  eexists. split; [apply get_combined_chunks_closed; exact HK|].
  fold k. fold n. set (c := (n + k - 1) / k).
  assert (Hlen : length (map (fun j => combined_document (window k j l))
                             (seq 0 c)) = c)
    by now rewrite length_map, length_seq.
  assert (Hget : forall j, j < c ->
            map (fun j => combined_document (window k j l)) (seq 0 c) !! j
            = Some (combined_document (window k j l))).
  { intros j Hj. rewrite list_lookup_fmap.
    rewrite lookup_seq_lt by exact Hj. reflexivity. }
  rewrite Hlen. split; [reflexivity|]. split; [|split; [|split]].
  - intros j Hj. split; [now apply Hget|].
    assert (Hsize : length (window k j l) = Nat.min k (n - j * k)).
    { unfold window. rewrite length_take, length_drop. reflexivity. }
    split; [exact Hsize|]. rewrite Hsize.
    assert (j * k < n); [|lia].
    pose proof (Nat.div_mod_eq (n + k - 1) k) as E.
    pose proof (Nat.mod_upper_bound (n + k - 1) k) as U. fold c in E.
    nia.
  - intros j d Hd.
    assert (Hj : j < c) by (apply lookup_lt_Some in Hd; lia).
    rewrite Hget in Hd by exact Hj. injection Hd as <-.
    split; [reflexivity|]. simpl. apply lookup_singleton_eq.
  - apply windows_cover. apply div_up_covers. exact Hk.
  - intros Hn HK3. subst c. rewrite Hn.
    assert (k = 3) as -> by (unfold k; lia).
    split; [reflexivity|].
    unfold n in Hn.
    do 8 (destruct l as [|? l]; try discriminate Hn).
    reflexivity.
Qed.

(** ** The deadlock-retry wrappers *)

Section Retry.

Context {W T : Type}.
Variable B : Backend W T.

Lemma query_loop_always_deadlock {A} (c : call T) (q : W -> result A * W)
    (delay n : nat) (s : state W T) :
  (forall w, raises_deadlock (q w).1) ->
  exists s',
    query_loop B n c q delay s
    = (Raise (RuntimeError
                "Query execution failed after multiple retries due to deadlock."),
       s')
    /\ st_log s' = (st_log s ++ failed_attempts c delay n)%list
    /\ st_heap s' = st_heap s.
Proof.
  intros Hq. revert s. induction n as [|n IH]; intros s; simpl.
  - exists s. monad. now rewrite app_nil_r.
  - monad. destruct (Hq (st_world s)) as [msg [E Hmsg]].
    destruct (q (st_world s)) as [r w] eqn:Eq. simpl in E. subst r.
    simpl. rewrite Hmsg.
    edestruct IH as [s' [-> [Hlog Hheap]]].
    eexists. split; [reflexivity|]. split; [|exact Hheap].
    rewrite Hlog. simpl. now rewrite <- !app_assoc.
Qed.

Lemma save_loop_always_deadlock (graph : graph_handle) (docs : list ref)
    (delay n : nat) (s : state W T) :
  (forall h w, raises_deadlock (add_graph_documents B graph docs h w).1) ->
  exists s',
    save_loop B n graph docs delay s
    = (Raise (RuntimeError
                "Failed to save graph documents after multiple retries due to deadlock."),
       s')
    /\ st_log s'
       = (st_log s
          ++ failed_attempts (Call_add_graph_documents graph docs) delay n)%list
    /\ st_heap s' = st_heap s.
Proof.
  intros Hq. revert s. induction n as [|n IH]; intros s; simpl.
  - exists s. monad. now rewrite app_nil_r.
  - monad. destruct (Hq (st_heap s) (st_world s)) as [msg [E Hmsg]].
    destruct (add_graph_documents B graph docs (st_heap s) (st_world s))
      as [r w] eqn:Eq. simpl in E. subst r.
    simpl. rewrite Hmsg.
    edestruct IH as [s' [-> [Hlog Hheap]]].
    eexists. split; [reflexivity|]. split; [|exact Hheap].
    rewrite Hlog. simpl. now rewrite <- !app_assoc.
Qed.

(** C8.  When the merge always answers with the deadlock error,
    [save_graphDocuments_in_neo4j] with its default arguments makes exactly
    three attempts, pauses one second after each, and raises
    [RuntimeError]; under the same condition [execute_graph_query] makes
    exactly three attempts with pauses of two seconds and raises
    [RuntimeError].  An error that is not a deadlock leaves either function
    at once: one attempt, no pause, the same error. *)
Theorem deadlock_retry_bound {A} (graph : graph_handle) (docs : list ref)
    (c : call T) (q : W -> result A * W) (s : state W T) :
  (forall h w, raises_deadlock (add_graph_documents B graph docs h w).1) ->
  (forall w, raises_deadlock (q w).1) ->
  (exists s',
     save_graphDocuments_in_neo4j B graph docs
       DEFAULT_MAX_RETRIES DEFAULT_RETRY_DELAY s
     = (Raise (RuntimeError
                 "Failed to save graph documents after multiple retries due to deadlock."),
        s')
     /\ st_log s'
        = (st_log s
           ++ [Call_add_graph_documents graph docs; Call_sleep 1;
               Call_add_graph_documents graph docs; Call_sleep 1;
               Call_add_graph_documents graph docs; Call_sleep 1])%list)
  /\ (exists s',
        execute_graph_query B c q
          DEFAULT_MAX_RETRIES DEFAULT_QUERY_RETRY_DELAY s
        = (Raise (RuntimeError
                    "Query execution failed after multiple retries due to deadlock."),
           s')
        /\ st_log s'
           = (st_log s
              ++ [c; Call_sleep 2; c; Call_sleep 2; c; Call_sleep 2])%list)
  /\ (forall graph' docs' (s0 : state W T) e w' n delay,
        add_graph_documents B graph' docs' (st_heap s0) (st_world s0)
        = (Raise e, w') ->
        is_deadlock e = false ->
        save_graphDocuments_in_neo4j B graph' docs' (S n) delay s0
        = (Raise e,
           mkState w' (st_heap s0)
             (st_log s0 ++ [Call_add_graph_documents graph' docs'])))
  /\ (forall (c' : call T) (q' : W -> result A * W) (s0 : state W T)
             e w' n delay,
        q' (st_world s0) = (Raise e, w') ->
        is_deadlock e = false ->
        execute_graph_query B c' q' (S n) delay s0
        = (Raise e, mkState w' (st_heap s0) (st_log s0 ++ [c']))).
Proof.
  intros Hsave Hquery. repeat split.
  - destruct (save_loop_always_deadlock graph docs DEFAULT_RETRY_DELAY
                DEFAULT_MAX_RETRIES s Hsave) as [s' [E [Hlog _]]].
    exists s'. split; [exact E | exact Hlog].
  - destruct (query_loop_always_deadlock c q DEFAULT_QUERY_RETRY_DELAY
                DEFAULT_MAX_RETRIES s Hquery) as [s' [E [Hlog _]]].
    exists s'. split; [exact E | exact Hlog].
  - intros graph' docs' s0 e w' n delay E He.
    unfold save_graphDocuments_in_neo4j. simpl. monad.
    rewrite E, He. reflexivity.
  - intros c' q' s0 e w' n delay E He.
    unfold execute_graph_query. simpl. monad.
    rewrite E, He. reflexivity.
Qed.

End Retry.

(** ** Chunk selection on a retry *)

Lemma bind_ok {W T A C} (m : M W T A) (k : A -> M W T C) s a s1 :
  m s = (Ok a, s1) -> bind m k s = k a s1.
Proof. intros E. unfold bind. now rewrite E. Qed.

Lemma bind_raise {W T A C} (m : M W T A) (k : A -> M W T C) s e s1 :
  m s = (Raise e, s1) -> bind m k s = (Raise e, s1).
Proof. intros E. unfold bind. now rewrite E. Qed.

Lemma chunk_entries_acc (rows : list chunk_row) (acc entries : list chunk_entry) :
  chunk_entries rows acc = Ok entries ->
  exists made,
    entries = (acc ++ made)%list
    /\ map chunk_id made = map row_id rows
    /\ map (fun c => Some (page_content (chunk_doc c))) made
       = map row_text rows.
Proof.
  revert acc entries. induction rows as [|r rows IH]; intros acc entries; simpl.
  - intros [= <-]. exists []. now rewrite app_nil_r.
  - destruct (row_text r) as [text|] eqn:Et; [|discriminate].
    intros E. apply IH in E as [made [-> [Hid Htext]]].
    eexists (_ :: made). split; [now rewrite <- app_assoc|].
    rewrite !map_cons. cbn [chunk_id chunk_doc page_content].
    now rewrite Hid, Htext.
Qed.

Lemma chunk_entries_rows (rows : list chunk_row) (entries : list chunk_entry) :
  chunk_entries rows [] = Ok entries ->
  length entries = length rows
  /\ map chunk_id entries = map row_id rows
  /\ map (fun c => Some (page_content (chunk_doc c))) entries
     = map row_text rows.
Proof.
  intros E. apply chunk_entries_acc in E as [made [-> [Hid Htext]]].
  simpl. split; [|now split].
  now rewrite <- (length_map chunk_id), Hid, length_map.
Qed.

Section Resume.

Context {W T : Type}.
Variable B : Backend W T.
Variables (graph : graph_handle) (file_name : string).
Variables (pages : list Document) (token_chunk_size chunk_overlap : Z).

Local Abbreviation stored_chunks := (stored_chunks B graph file_name).
Local Abbreviation stored_position := (stored_position B graph file_name).

(** C3.  On a retry, when the query for the stored chunks returns no rows,
    [get_chunkId_chunkDoc_list] raises [IndexError]: the test reads
    [chunks[0]] before it looks at [not chunks].  The error is therefore
    not the domain error [LLMGraphBuilderException]. *)
Theorem get_chunkId_chunkDoc_list_without_rows
    (retry_condition : option string) (s s1 : state W T) :
  opt_truthy retry_condition = true ->
  stored_chunks s = (Ok [], s1) ->
  get_chunkId_chunkDoc_list B graph file_name pages token_chunk_size
    chunk_overlap retry_condition s
  = (Raise (IndexError "list index out of range"), s1)
  /\ forall msg,
       (get_chunkId_chunkDoc_list B graph file_name pages token_chunk_size
          chunk_overlap retry_condition s).1
       <> Raise (LLMGraphBuilderException msg).
Proof.
  intros Hretry Hrows.
  assert (E : get_chunkId_chunkDoc_list B graph file_name pages
                token_chunk_size chunk_overlap retry_condition s
              = (Raise (IndexError "list index out of range"), s1)).
  { unfold get_chunkId_chunkDoc_list. rewrite Hretry.
    change (negb true) with false. cbv iota.
    erewrite bind_ok by exact Hrows. reflexivity. }
  split; [exact E|]. intros msg. rewrite E. discriminate.
Qed.

(** The common part of a resume: the rows are read, the first one has a
    text, and the entries are built. *)
Lemma resume_reaches_position_query (rows : list chunk_row)
    (first : chunk_row) (text : string) (entries : list chunk_entry)
    (s s1 : state W T) :
  stored_chunks s = (Ok rows, s1) ->
  head rows = Some first -> row_text first = Some text -> text <> "" ->
  chunk_entries rows [] = Ok entries ->
  get_chunkId_chunkDoc_list B graph file_name pages token_chunk_size
    chunk_overlap (Some START_FROM_LAST_PROCESSED_POSITION) s
  = bind (stored_position QUERY_TO_GET_LAST_PROCESSED_CHUNK_POSITION)
      (fun starting_chunk =>
         match starting_chunk with
         | row :: _ =>
             let n := Z.of_nat (length entries) in
             if (position row <? n)%Z then
               ret (length rows, Py.slice_from (position row - 1) entries)
             else if (position row =? n)%Z then
               bind
                 (stored_position
                    QUERY_TO_GET_LAST_PROCESSED_CHUNK_WITHOUT_ENTITY)
                 (fun starting_chunk =>
                    match starting_chunk with
                    | row' :: _ =>
                        ret (length rows,
                             Py.slice_from (position row' - 1) entries)
                    | [] => raise (IndexError "list index out of range")
                    end)
             else
               raise (LLMGraphBuilderException
                        ("All chunks of file " ++ file_name
                         ++ " are already processed. If you want to re-process, Please start from begnning"))
         | [] =>
             raise (LLMGraphBuilderException
                      ("All chunks of file " ++ file_name
                       ++ " are already processed. If you want to re-process, Please start from begnning"))
         end) s1.
Proof.
  intros Hrows Hhead Htext Hne Hent.
  unfold get_chunkId_chunkDoc_list.
  change (opt_truthy (Some START_FROM_LAST_PROCESSED_POSITION)) with true.
  change (negb true) with false. cbv iota.
  erewrite bind_ok by exact Hrows.
  destruct rows as [|r rest]; [discriminate|].
  injection Hhead as ->. rewrite Htext.
  destruct text as [|ch text]; [congruence|].
  change (negb (Py.truthy (String ch text))) with false. cbv iota.
  erewrite bind_ok by (unfold lift; rewrite Hent; reflexivity).
  reflexivity.
Qed.

(** C2.  With ten stored chunks and a stored position of 7, a retry in the
    mode [start_from_last_processed_position] returns the count 10 and the
    chunks at the positions 7 to 10 (counted from 1), in their order.  When
    the stored position equals the number of chunks, the position comes
    from the query for the last processed chunk without an entity. *)
Theorem resume_from_last_processed_position (rows : list chunk_row)
    (first : chunk_row) (text : string) (entries : list chunk_entry)
    (s s1 : state W T) :
  stored_chunks s = (Ok rows, s1) ->
  head rows = Some first -> row_text first = Some text -> text <> "" ->
  chunk_entries rows [] = Ok entries ->
  (length rows = 10 ->
   forall more s2,
     stored_position QUERY_TO_GET_LAST_PROCESSED_CHUNK_POSITION s1
     = (Ok (mkPositionRow 7 :: more), s2) ->
     get_chunkId_chunkDoc_list B graph file_name pages token_chunk_size
       chunk_overlap (Some START_FROM_LAST_PROCESSED_POSITION) s
     = (Ok (10, drop 6 entries), s2)
     /\ length (drop 6 entries) = 4
     /\ map chunk_id (drop 6 entries) = map row_id (drop 6 rows)
     /\ forall j, j < 4 -> drop 6 entries !! j = entries !! (6 + j))
  /\ (forall more s2 p more' s3,
        stored_position QUERY_TO_GET_LAST_PROCESSED_CHUNK_POSITION s1
        = (Ok (mkPositionRow (Z.of_nat (length rows)) :: more), s2) ->
        stored_position QUERY_TO_GET_LAST_PROCESSED_CHUNK_WITHOUT_ENTITY s2
        = (Ok (mkPositionRow p :: more'), s3) ->
        get_chunkId_chunkDoc_list B graph file_name pages token_chunk_size
          chunk_overlap (Some START_FROM_LAST_PROCESSED_POSITION) s
        = (Ok (length rows, Py.slice_from (p - 1) entries), s3)).
Proof.
  intros Hrows Hhead Htext Hne Hent.
  pose proof (chunk_entries_rows rows entries Hent) as [Hlen [Hid _]].
  rewrite (resume_reaches_position_query rows first text entries s s1)
    by assumption.
  split.
  - intros Hten more s2 Hpos.
    erewrite bind_ok by exact Hpos. simpl position.
    rewrite Hlen, Hten. simpl.
    split; [|split; [|split]].
    + unfold ret, Py.slice_from. rewrite Hlen, Hten. reflexivity.
    + rewrite length_drop. lia.
    + change (map chunk_id (drop 6 entries))
        with (chunk_id <$> drop 6 entries).
      change (map row_id (drop 6 rows)) with (row_id <$> drop 6 rows).
      rewrite !fmap_drop. f_equal. exact Hid.
    + intros j _. apply lookup_drop.
  - intros more s2 p more' s3 Hpos Hpos'.
    erewrite bind_ok by exact Hpos. cbv beta iota zeta. cbn [position].
    rewrite Hlen, Z.ltb_irrefl, Z.eqb_refl.
    erewrite bind_ok by exact Hpos'. reflexivity.
Qed.

End Resume.

(** ** Schema introspection *)

Lemma mem_spec (x : string) (l : list string) : Py.mem x l = true <-> x ∈ l.
Proof.
  unfold Py.mem. rewrite existsb_exists. split.
  - intros [y [Hy E]]. apply String.eqb_eq in E as ->.
    now apply list_elem_of_In.
  - intros Hx. exists x. split; [now apply list_elem_of_In|].
    apply String.eqb_refl.
Qed.

Lemma mem_false (x : string) (l : list string) : Py.mem x l = false <-> x ∉ l.
Proof.
  rewrite <- mem_spec. destruct (Py.mem x l); split; congruence.
Qed.

Lemma first_label_outside (labels : list string) (lbl : string) :
  first_label labels = Some lbl -> lbl ∈ labels /\ (lbl ∉ excluded_labels).
Proof.
  unfold first_label. intros H. apply find_some in H as [Hin Hout].
  split; [now apply list_elem_of_In|].
  apply mem_false. now destruct (Py.mem lbl excluded_labels).
Qed.

Lemma record_triplet_outside (record : triple_record) (t : string) :
  record_triplet record = Some t ->
  exists from_label to_label,
    t = triplet from_label (relType record) to_label
    /\ from_label ∈ fromLabels record /\ to_label ∈ toLabels record
    /\ (from_label ∉ excluded_labels) /\ (to_label ∉ excluded_labels)
    /\ (relType record ∉ excluded_relationships).
Proof.
  unfold record_triplet.
  destruct (first_label (fromLabels record)) as [f|] eqn:Ef; [|discriminate].
  destruct (first_label (toLabels record)) as [g|] eqn:Eg; [|discriminate].
  apply first_label_outside in Ef as [Hf Hf'].
  apply first_label_outside in Eg as [Hg Hg'].
  destruct (negb (Py.truthy f) || negb (Py.truthy g)); [discriminate|].
  intros H. exists f, g.
  assert (Hrel : (relType record ∉ excluded_relationships)
                 /\ t = triplet f (relType record) g);
    [|destruct Hrel; repeat split; assumption].
  destruct (String.eqb (relType record) "PART_OF") eqn:E.
  { apply String.eqb_eq in E. split; [rewrite E; now apply mem_false|].
    destruct (String.eqb f "Chunk" && String.eqb g "Document"); congruence. }
  clear E. destruct (String.eqb (relType record) "HAS_ENTITY") eqn:E.
  { apply String.eqb_eq in E. split; [rewrite E; now apply mem_false|].
    destruct (String.eqb f "Chunk"); congruence. }
  destruct (Py.mem f excluded_labels || Py.mem g excluded_labels) eqn:E1;
    [discriminate|].
  destruct (Py.mem (relType record) excluded_relationships) eqn:E2;
    [discriminate|].
  simpl in H. split; [now apply mem_false | congruence].
Qed.

Lemma elem_of_collect (records : list triple_record) (acc : gset string)
    (t : string) :
  t ∈ fold_left (fun triples record =>
                   match record_triplet record with
                   | Some t => {[ t ]} ∪ triples
                   | None => triples
                   end) records acc
  <-> t ∈ acc \/ exists record, record ∈ records /\ record_triplet record = Some t.
Proof.
  revert acc. induction records as [|r records IH]; intros acc; simpl.
  - split; [now left|]. intros [H|[r [Hr _]]]; [exact H|].
    now apply not_elem_of_nil in Hr.
  - rewrite IH. split.
    + intros [H|[r' [Hr' E]]].
      * destruct (record_triplet r) as [t'|] eqn:Er; [|now left].
        apply elem_of_union in H as [H|H]; [|now left].
        apply elem_of_singleton in H as ->. right. exists r.
        split; [left | exact Er].
      * right. exists r'. split; [now right | exact E].
    + intros [H|[r' [Hr' E]]].
      * left. destruct (record_triplet r); [|exact H].
        apply elem_of_union. now right.
      * apply elem_of_cons in Hr' as [->|Hr'].
        -- left. rewrite E. apply elem_of_union. left.
           now apply elem_of_singleton.
        -- right. exists r'. now split.
Qed.

(** C9.  [get_labels_and_relationtypes] returns, without repetition, the
    triplets of the records that its loop does not pass over; the from-label
    and the to-label of a returned triplet are not excluded labels and its
    relationship type is not an excluded relationship.  For the three
    records Chunk-PART_OF->Document, Chunk-HAS_ENTITY->Person and
    Person-WORKS_AT->Company the answer is the one triplet
    [Person-WORKS_AT->Company], also when the entity nodes carry the base
    label [__Entity__]. *)
Theorem get_labels_and_relationtypes_excludes {W T} (B : Backend W T)
    (uri userName password database : string)
    (records : list triple_record) (s : state W T) (w' : W) :
  session_run_triples B uri userName password database (st_world s)
  = (Ok records, w') ->
  exists triplets,
    get_labels_and_relationtypes B uri userName password database s
    = (Ok triplets,
       mkState w' (st_heap s) (st_log s ++ [Call_session_run uri database]))
    /\ NoDup triplets
    /\ (forall t, t ∈ triplets <->
          exists record, record ∈ records /\ record_triplet record = Some t)
    /\ (forall t, t ∈ triplets ->
          exists from_label rel_type to_label,
            t = triplet from_label rel_type to_label
            /\ (from_label ∉ excluded_labels)
            /\ (to_label ∉ excluded_labels)
            /\ (rel_type ∉ excluded_relationships))
    /\ (records = [mkTriple ["Chunk"] "PART_OF" ["Document"];
                   mkTriple ["Chunk"] "HAS_ENTITY" ["Person"];
                   mkTriple ["Person"] "WORKS_AT" ["Company"]] ->
        triplets = ["Person-WORKS_AT->Company"])
    /\ (records = [mkTriple ["Chunk"] "PART_OF" ["Document"];
                   mkTriple ["Chunk"] "HAS_ENTITY" ["Person"; "__Entity__"];
                   mkTriple ["__Entity__"; "Person"] "WORKS_AT"
                            ["Company"; "__Entity__"]] ->
        triplets = ["Person-WORKS_AT->Company"]).
Proof.
  intros Hrun. exists (elements (collect_triples records)).
  assert (Hin : forall t, t ∈ elements (collect_triples records) <->
            exists record, record ∈ records /\ record_triplet record = Some t).
  { intros t. rewrite elem_of_elements. unfold collect_triples.
    rewrite elem_of_collect. split; [|now right].
    intros [H|H]; [|exact H]. now apply not_elem_of_empty in H. }
  split; [|split; [|split; [|split; [|split]]]].
  - unfold get_labels_and_relationtypes. monad. now rewrite Hrun.
  - apply NoDup_elements.
  - exact Hin.
  - intros t Ht. apply Hin in Ht as [r [_ Hr]].
    apply record_triplet_outside in Hr
      as [f [g [-> [_ [_ [Hf [Hg Hrel]]]]]]].
    now exists f, (relType r), g.
  - intros ->. vm_compute. reflexivity.
  - intros ->. vm_compute. reflexivity.
Qed.

(** ** Validation of the allowed relationships *)

Section Validation.

Context {W T : Type}.
Variable B : Backend W T.

(** Resolving the model reads the environment and nothing else. *)
Lemma get_llm_keeps_state (model : string) (s : state W T) :
  exists r, get_llm B model s = (r, s).
Proof.
  unfold get_llm. monad.
  destruct (environ_get B _ (st_world s)) as [v|]; [|eauto].
  destruct (Py.truthy v); [|eauto].
  destruct (Py.split "," v) as [|a [|b [|c l]]]; simpl; eauto.
Qed.

Lemma stripped_items_nil : stripped_items "" = [].
Proof. reflexivity. Qed.

Lemma slice_triple (items : list string) (j : nat) (a b c : string) :
  items !! (3 * j) = Some a -> items !! (3 * j + 1) = Some b ->
  items !! (3 * j + 2) = Some c ->
  Py.slice (3 * j) 3 items = [a; b; c].
Proof.
  intros Ha Hb Hc. unfold Py.slice.
  rewrite <- (Nat.add_0_r (3 * j)) in Ha.
  rewrite <- lookup_drop in Ha, Hb, Hc.
  destruct (drop (3 * j) items) as [|x [|y [|z l]]]; try discriminate.
  simpl in *. rewrite take_0. congruence.
Qed.

(** A triple whose source or target is not allowed stops the loop with the
    domain error, wherever it stands among complete triples. *)
Lemma check_triples_rejects (allowed_nodes items : list string)
    (starts : list nat) (acc : list (string * string * string)) :
  (forall i, i ∈ starts -> i + 3 <= length items) ->
  (exists i a b c,
     i ∈ starts /\ Py.slice i 3 items = [a; b; c]
     /\ ((a ∉ allowed_nodes) \/ (c ∉ allowed_nodes))) ->
  exists msg,
    check_triples allowed_nodes items starts acc
    = Raise (LLMGraphBuilderException msg).
Proof.
  revert acc. induction starts as [|i starts IH]; intros acc Hfull Hbad.
  - destruct Hbad as [i [? [? [? [Hi _]]]]]. now apply not_elem_of_nil in Hi.
  - simpl.
    assert (Hlen : length (Py.slice i 3 items) = 3).
    { unfold Py.slice. rewrite length_take, length_drop.
      specialize (Hfull i (list_elem_of_here _ _)). lia. }
    destruct (Py.slice i 3 items) as [|x [|y [|z [|? ?]]]] eqn:Es;
      try discriminate Hlen.
    destruct (negb (Py.mem x allowed_nodes) || negb (Py.mem z allowed_nodes))
      eqn:Etest; [eauto|].
    apply IH.
    + intros i' Hi'. apply Hfull. now right.
    + destruct Hbad as [i' [a [b [c [Hi' [Es' Hout]]]]]].
      apply elem_of_cons in Hi' as [->|Hi']; [|now exists i', a, b, c].
      exfalso. rewrite Es in Es'. injection Es' as -> -> ->.
      apply orb_false_elim in Etest as [Ea Ec].
      apply negb_false_iff in Ea, Ec. apply mem_spec in Ea, Ec.
      tauto.
Qed.


Lemma range_of_triples (n : nat) :
  n mod 3 = 0 ->
  forall i, i ∈ Py.range n 3 <-> exists j, i = 3 * j /\ i + 3 <= n.
Proof.
  intros Hmod i. rewrite range_closed by lia.
  pose proof (Nat.div_mod_eq n 3) as En.
  pose proof (Nat.div_mod_eq (n + 3 - 1) 3) as Eq.
  pose proof (Nat.mod_upper_bound (n + 3 - 1) 3) as U.
  rewrite list_elem_of_fmap. split.
  - intros [j [-> Hj]]. apply elem_of_seq in Hj. exists j. lia.
  - intros [j [-> Hj]]. exists j. split; [lia|]. apply elem_of_seq. lia.
Qed.

(** The body of the [try] of [get_graph_from_llm] raises before the model
    is called, and leaves the state as it found it. *)
Lemma get_graph_from_llm_stops (model : string) (chunks : list chunk_entry)
    (allowedNodes allowedRelationship : string) (K : Z)
    (instr : option string) (s : state W T) :
  malformed (stripped_items allowedNodes) (stripped_items allowedRelationship) ->
  exists msg,
    get_graph_from_llm B model chunks allowedNodes allowedRelationship K
      instr s
    = (Raise (LLMGraphBuilderException msg), s).
Proof.
  intros Hbad. unfold get_graph_from_llm, try_except.
  match goal with
  | |- exists msg, (let (_, _) := ?body s in _) = _ =>
      assert (Hbody : exists e, body s = (Raise e, s));
      [|destruct Hbody as [e ->]; unfold raise; eauto]
  end.
  destruct (get_llm_keeps_state model s) as [r Er].
  unfold bind at 1. rewrite Er.
  destruct r as [[llm model_name]|e]; [|eauto].
  unfold bind at 1, lift at 1.
  destruct (get_combined_chunks chunks K) as [docs|e]; [|eauto].
  destruct allowedRelationship as [|ch rel].
  { exfalso. rewrite stripped_items_nil in Hbad.
    destruct Hbad as [H|[j [? [? [? [H _]]]]]]; [now apply H | discriminate]. }
  change (Py.truthy (String ch rel)) with true. cbv iota.
  set (items := stripped_items (String ch rel)) in *.
  destruct (Nat.eqb_spec (length items mod 3) 0) as [Hmod|Hmod]; simpl negb;
    cbv iota.
  2:{ eexists. apply bind_raise. reflexivity. }
  destruct Hbad as [H|[j [a [b [c [Ha [Hb [Hc Hout]]]]]]]]; [contradiction|].
  destruct (check_triples_rejects (stripped_items allowedNodes) items
              (Py.range (length items) 3) []) as [msg Emsg].
  - intros i Hi. apply (range_of_triples _ Hmod) in Hi as [j' [_ H]]. exact H.
  - exists (3 * j), a, b, c. split; [|split].
    + apply (range_of_triples _ Hmod). exists j. split; [reflexivity|].
      apply lookup_lt_Some in Hc. lia.
    + now apply slice_triple.
    + exact Hout.
  - eexists. apply bind_raise. unfold lift. rewrite Emsg. reflexivity.
Qed.

(** C1.  When the items of [allowedRelationship] are not a multiple of
    three in number, or a triple names a source or a target that is not
    among the items of [allowedNodes], [get_graph_from_llm] raises
    [LLMGraphBuilderException] and ends in the state it started from: no
    call was logged, so the model was not called.  The nodes
    [Person,Company] with the relationship [Person,WORKS_AT,Org] are such a
    case. *)
Theorem get_graph_from_llm_rejects_malformed_relationships
    (model : string) (chunks : list chunk_entry) (K : Z)
    (instr : option string) (s : state W T) :
  (forall allowedNodes allowedRelationship,
     malformed (stripped_items allowedNodes)
               (stripped_items allowedRelationship) ->
     exists msg,
       get_graph_from_llm B model chunks allowedNodes allowedRelationship K
         instr s
       = (Raise (LLMGraphBuilderException msg), s))
  /\ malformed (stripped_items "Person,Company")
               (stripped_items "Person,WORKS_AT,Org")
  /\ exists msg,
       get_graph_from_llm B model chunks "Person,Company"
         "Person,WORKS_AT,Org" K instr s
       = (Raise (LLMGraphBuilderException msg), s).
Proof.
  assert (Hex : malformed (stripped_items "Person,Company")
                          (stripped_items "Person,WORKS_AT,Org")).
  { right. exists 0, "Person", "WORKS_AT", "Org".
    repeat split; try reflexivity.
    right. apply mem_false. reflexivity. }
  split; [|split; [exact Hex|]].
  - intros. now apply get_graph_from_llm_stops.
  - now apply get_graph_from_llm_stops.
Qed.

End Validation.

(** ** The guard against a second run *)

Section Guard.

Context {W T : Type}.
Variable B : Backend W T.

(** Reading the status logs one call, the read itself. *)
Lemma _get_document_status_log (file_name : string) (s s' : state W T) r :
  _get_document_status B file_name s = (r, s') ->
  st_log s' = (st_log s ++ [Call_get_current_status_document_node file_name])%list
  /\ st_heap s' = st_heap s.
Proof.
  unfold _get_document_status, timed. monad.
  destruct (time_now B (st_world s)) as [t0 w0]. simpl.
  destruct (get_current_status_document_node B file_name w0) as [[rows|e] w1];
    simpl.
  - destruct (time_now B w1) as [t1 w2]. simpl. intros [= <- <-]. now split.
  - intros [= <- <-]. now split.
Qed.

(** C7.  When the status that [processing_source] reads is [Processing],
    it returns the latency map gathered so far with an empty response and
    stops in the state that the status read left: the read is the last
    call in the log, so no source node is updated, no batch is processed
    and no counter is refreshed after it. *)
Theorem processing_source_already_processing
    (uri userName password database model file_name : string)
    (pages : list Document) (allowedNodes allowedRelationship : string)
    (token_chunk_size chunk_overlap chunks_to_combine : Z)
    (is_uploaded_from_local : bool) (merged_file_path : option string)
    (retry_condition additional_instructions : option string)
    (s s1 s2 s3 : state W T)
    (graph : graph_handle) (start_time processing_start_time : T)
    (uri_latency chunk_latency_info : gmap string lat_val)
    (total_chunks : nat) (chunkId_chunkDoc_list : list chunk_entry)
    (row : status_row) (rows : list status_row) (elapsed : string) :
  _initialize_processing B uri userName password database s
  = (Ok (graph, start_time, processing_start_time, uri_latency), s1) ->
  _get_chunks_and_initialize_processing B graph file_name pages
    token_chunk_size chunk_overlap retry_condition s1
  = (Ok (total_chunks, chunkId_chunkDoc_list, chunk_latency_info), s2) ->
  _get_document_status B file_name s2 = (Ok (row :: rows, elapsed), s3) ->
  Status row = "Processing" ->
  processing_source B uri userName password database model file_name pages
    allowedNodes allowedRelationship token_chunk_size chunk_overlap
    chunks_to_combine is_uploaded_from_local merged_file_path
    retry_condition additional_instructions s
  = (Ok (<[ "get_status_document_node" := LStr elapsed ]>
           (chunk_latency_info ∪ uri_latency),
         ∅),
     s3)
  /\ st_log s3
     = (st_log s2 ++ [Call_get_current_status_document_node file_name])%list
  /\ st_heap s3 = st_heap s2.
Proof.
  intros Hinit Hchunks Hstatus Hproc.
  split; [|eapply _get_document_status_log; exact Hstatus].
  unfold processing_source.
  erewrite bind_ok by exact Hinit. cbv beta iota zeta.
  erewrite bind_ok by exact Hchunks. cbv beta iota zeta.
  erewrite bind_ok by exact Hstatus. cbv beta iota zeta.
  rewrite Hproc. reflexivity.
Qed.

End Guard.

(** ** Cleaning of graph documents *)

Lemma strip_backticks_idem (s : string) :
  strip_backticks (strip_backticks s) = strip_backticks s.
Proof.
  unfold strip_backticks. induction s as [|c s IH]; [reflexivity|].
  simpl. destruct (Ascii.eqb c "`") eqn:E; simpl; [exact IH|].
  now rewrite E, IH.
Qed.

Lemma strip_backticks_clean (s : string) :
  has_char "`" (strip_backticks s) = false.
Proof.
  unfold strip_backticks. induction s as [|c s IH]; [reflexivity|].
  simpl. destruct (Ascii.eqb c "`") eqn:E; simpl; [exact IH|].
  now rewrite E, IH.
Qed.

Lemma filter_twice {A} (f : A -> bool) (l : list A) :
  List.filter f (List.filter f l) = List.filter f l.
Proof.
  induction l as [|x l IH]; [reflexivity|]. simpl.
  destruct (f x) eqn:E; [|exact IH]. simpl. now rewrite E, IH.
Qed.

Lemma elem_of_filter_bool {A} (f : A -> bool) (l : list A) (x : A) :
  x ∈ List.filter f l <-> x ∈ l /\ f x = true.
Proof. rewrite !list_elem_of_In. apply filter_In. Qed.

Section Cleaning.

Variables (n0 : ref -> Node) (r0 : ref -> Relationship).

Lemma node_tracks_id (h : ref -> Node) (n : ref) :
  node_tracks n0 h -> node_id (h n) = node_id (n0 n).
Proof. intros Hh. destruct (Hh n) as [->| ->]; reflexivity. Qed.

Lemma node_tracks_truthy (h : ref -> Node) (n : ref) :
  node_tracks n0 h -> stable (node_type (n0 n)) ->
  Py.truthy (Py.strip (node_type (h n)))
  = Py.truthy (Py.strip (node_type (n0 n))).
Proof.
  intros Hh Hst. destruct (Hh n) as [->| ->]; [reflexivity | exact Hst].
Qed.

Lemma node_kept_tracks (h : ref -> Node) (n : ref) :
  node_tracks n0 h -> stable (node_type (n0 n)) ->
  node_kept (h n) = node_kept (n0 n).
Proof.
  intros Hh Hst. unfold node_kept.
  now rewrite node_tracks_truthy, node_tracks_id.
Qed.

Lemma retype_node_cleans (h : ref -> Node) (n : ref) :
  node_tracks n0 h -> node_cleaned n0 (retype_node h n) n.
Proof.
  intros Hh. unfold node_cleaned, retype_node. rewrite fn_lookup_insert.
  destruct (Hh n) as [->| ->]; simpl; [reflexivity|].
  now rewrite strip_backticks_idem.
Qed.

Lemma retype_node_keeps_cleaned (h : ref -> Node) (n m : ref) :
  node_tracks n0 h -> node_cleaned n0 h m ->
  node_cleaned n0 (retype_node h n) m.
Proof.
  intros Hh Hm. destruct (decide (n = m)) as [->|Hne].
  - now apply retype_node_cleans.
  - unfold node_cleaned, retype_node. now rewrite fn_lookup_insert_ne.
Qed.

Lemma retype_node_tracks (h : ref -> Node) (n : ref) :
  node_tracks n0 h -> node_tracks n0 (retype_node h n).
Proof.
  intros Hh m. destruct (decide (n = m)) as [->|Hne].
  - right. now apply retype_node_cleans.
  - unfold node_cleaned, retype_node. rewrite fn_lookup_insert_ne by exact Hne.
    apply Hh.
Qed.

(** The loop over the nodes keeps those that pass the test in [n0]. *)
Lemma clean_nodes_spec (todo : list ref) :
  forall (h : ref -> Node) (acc : list ref),
    node_tracks n0 h ->
    (forall n, n ∈ todo -> stable (node_type (n0 n))) ->
    exists h',
      clean_nodes h todo acc
      = (h', (acc ++ List.filter (fun n => node_kept (n0 n)) todo)%list)
      /\ node_tracks n0 h'
      /\ (forall m, node_cleaned n0 h m -> node_cleaned n0 h' m)
      /\ (forall n, n ∈ List.filter (fun n => node_kept (n0 n)) todo ->
            node_cleaned n0 h' n).
Proof.
  induction todo as [|n todo IH]; intros h acc Hh Hst; simpl.
  - exists h. rewrite app_nil_r. repeat split; [exact Hh | auto |].
    intros n Hn. now apply not_elem_of_nil in Hn.
  - rewrite (node_kept_tracks h n Hh) by (apply Hst; left).
    assert (Hst' : forall m, m ∈ todo -> stable (node_type (n0 m)))
      by (intros; apply Hst; now right).
    destruct (node_kept (n0 n)) eqn:Ek.
    + destruct (IH (retype_node h n) (acc ++ [n])%list
                  (retype_node_tracks h n Hh) Hst')
        as [h' [E [Hh' [Hmono Hnew]]]].
      exists h'. rewrite E, <- app_assoc. simpl.
      repeat split; [exact Hh' | |].
      * intros m Hm. apply Hmono. now apply retype_node_keeps_cleaned.
      * intros m Hm. apply elem_of_cons in Hm as [->|Hm]; [|now apply Hnew].
        apply Hmono. now apply retype_node_cleans.
    + destruct (IH h acc Hh Hst') as [h' [E [Hh' [Hmono Hnew]]]].
      exists h'. rewrite E. repeat split; assumption.
Qed.

Lemma rel_tracks_ends (h : ref -> Relationship) (r : ref) :
  rel_tracks r0 h ->
  rel_source (h r) = rel_source (r0 r) /\ rel_target (h r) = rel_target (r0 r).
Proof. intros Hh. destruct (Hh r) as [->| ->]; now split. Qed.

Lemma rel_tracks_truthy (h : ref -> Relationship) (r : ref) :
  rel_tracks r0 h -> stable (rel_type (r0 r)) ->
  Py.truthy (Py.strip (rel_type (h r)))
  = Py.truthy (Py.strip (rel_type (r0 r))).
Proof.
  intros Hh Hst. destruct (Hh r) as [->| ->]; [reflexivity | exact Hst].
Qed.

Lemma relationship_kept_tracks (hr : ref -> Relationship) (hn : ref -> Node)
    (r : ref) :
  rel_tracks r0 hr -> node_tracks n0 hn -> stable_relationship n0 r0 r ->
  relationship_kept hn (hr r) = relationship_kept n0 (r0 r).
Proof.
  intros Hr Hn [Ht [Hs Hg]]. unfold relationship_kept.
  destruct (rel_tracks_ends hr r Hr) as [-> ->].
  rewrite rel_tracks_truthy by assumption.
  rewrite (node_tracks_truthy hn (rel_source (r0 r))) by assumption.
  rewrite (node_tracks_truthy hn (rel_target (r0 r))) by assumption.
  rewrite (node_tracks_id hn (rel_source (r0 r))) by assumption.
  rewrite (node_tracks_id hn (rel_target (r0 r))) by assumption.
  reflexivity.
Qed.

Lemma retype_rel_cleans (h : ref -> Relationship) (r : ref) :
  rel_tracks r0 h ->
  rel_cleaned r0
    (<[ r := mkRel (rel_source (h r)) (rel_target (h r))
                   (strip_backticks (rel_type (h r))) ]> h) r.
Proof.
  intros Hh. unfold rel_cleaned. rewrite fn_lookup_insert.
  destruct (Hh r) as [->| ->]; simpl; [reflexivity|].
  now rewrite strip_backticks_idem.
Qed.

Lemma retype_rel_keeps_cleaned (h : ref -> Relationship) (r m : ref) :
  rel_tracks r0 h -> rel_cleaned r0 h m ->
  rel_cleaned r0
    (<[ r := mkRel (rel_source (h r)) (rel_target (h r))
                   (strip_backticks (rel_type (h r))) ]> h) m.
Proof.
  intros Hh Hm. destruct (decide (r = m)) as [->|Hne].
  - now apply retype_rel_cleans.
  - unfold rel_cleaned. now rewrite fn_lookup_insert_ne.
Qed.

Lemma retype_rel_tracks (h : ref -> Relationship) (r : ref) :
  rel_tracks r0 h ->
  rel_tracks r0
    (<[ r := mkRel (rel_source (h r)) (rel_target (h r))
                   (strip_backticks (rel_type (h r))) ]> h).
Proof.
  intros Hh m. destruct (decide (r = m)) as [->|Hne].
  - right. now apply retype_rel_cleans.
  - unfold rel_cleaned. rewrite fn_lookup_insert_ne by exact Hne. apply Hh.
Qed.

(** The loop over the relationships keeps those that pass the test in the
    stores [n0] and [r0]. *)
Lemma clean_relationships_spec (todo : list ref) :
  forall (hr : ref -> Relationship) (hn : ref -> Node) (acc : list ref),
    rel_tracks r0 hr -> node_tracks n0 hn ->
    (forall r, r ∈ todo -> stable_relationship n0 r0 r) ->
    exists hr' hn',
      clean_relationships hr hn todo acc
      = (hr', hn',
         (acc ++ List.filter (fun r => relationship_kept n0 (r0 r)) todo)%list)
      /\ rel_tracks r0 hr' /\ node_tracks n0 hn'
      /\ (forall m, node_cleaned n0 hn m -> node_cleaned n0 hn' m)
      /\ (forall m, rel_cleaned r0 hr m -> rel_cleaned r0 hr' m)
      /\ (forall r,
            r ∈ List.filter (fun r => relationship_kept n0 (r0 r)) todo ->
            rel_cleaned r0 hr' r
            /\ node_cleaned n0 hn' (rel_source (r0 r))
            /\ node_cleaned n0 hn' (rel_target (r0 r))).
Proof.
  induction todo as [|r todo IH]; intros hr hn acc Hr Hn Hst; simpl.
  - exists hr, hn. rewrite app_nil_r. repeat split; auto;
      now apply not_elem_of_nil in H.
  - rewrite (relationship_kept_tracks hr hn r Hr Hn) by (apply Hst; left).
    assert (Hst' : forall m, m ∈ todo -> stable_relationship n0 r0 m)
      by (intros; apply Hst; now right).
    destruct (relationship_kept n0 (r0 r)) eqn:Ek.
    + destruct (rel_tracks_ends hr r Hr) as [Es Eg].
      set (hr1 := <[ r := mkRel (rel_source (hr r)) (rel_target (hr r))
                              (strip_backticks (rel_type (hr r))) ]> hr).
      set (hn1 := retype_node hn (rel_source (hr r))).
      set (hn2 := retype_node hn1 (rel_target (hr r))).
      assert (Hr1 : rel_tracks r0 hr1) by now apply retype_rel_tracks.
      assert (Hn1 : node_tracks n0 hn1) by now apply retype_node_tracks.
      assert (Hn2 : node_tracks n0 hn2) by now apply retype_node_tracks.
      destruct (IH hr1 hn2 (acc ++ [r])%list Hr1 Hn2 Hst')
        as [hr' [hn' [E [Hr' [Hn' [Hmn [Hmr Hnew]]]]]]].
      exists hr', hn'. rewrite E, <- app_assoc. simpl.
      split; [reflexivity|]. split; [exact Hr'|]. split; [exact Hn'|].
      split; [|split].
      * intros m Hm. apply Hmn.
        now apply retype_node_keeps_cleaned, retype_node_keeps_cleaned.
      * intros m Hm. apply Hmr. now apply retype_rel_keeps_cleaned.
      * intros m Hm. apply elem_of_cons in Hm as [->|Hm]; [|now apply Hnew].
        split; [|split].
        -- apply Hmr. now apply retype_rel_cleans.
        -- apply Hmn. rewrite <- Es.
           apply retype_node_keeps_cleaned; [exact Hn1|].
           now apply retype_node_cleans.
        -- apply Hmn. rewrite <- Eg. now apply retype_node_cleans.
    + destruct (IH hr hn acc Hr Hn Hst')
        as [hr' [hn' [E [Hr' [Hn' [Hmn [Hmr Hnew]]]]]]].
      exists hr', hn'. rewrite E. repeat split; try assumption;
        now apply Hnew.
Qed.

End Cleaning.

Lemma tracks_initial (h0 : heap) : tracks h0 h0 [].
Proof.
  repeat split; try (intros ?; now left); try reflexivity;
    now apply not_elem_of_nil in H.
Qed.

(** One round of the outer loop. *)
Lemma clean_graph_document_tracks (h0 h : heap) (done : list ref) (d : ref) :
  tracks h0 h done ->
  (forall n, n ∈ reached_nodes h0 d -> stable (node_type (h_nodes h0 n))) ->
  (forall r, r ∈ gd_relationships (h_docs h0 d) ->
     stable (rel_type (h_rels h0 r))) ->
  tracks h0 (clean_graph_document h d) (d :: done).
Proof.
  intros [Hn [Hr [Hout Hin]]] Hsn Hsr.
  set (N0 := gd_nodes (h_docs h0 d)).
  set (R0 := gd_relationships (h_docs h0 d)).
  assert (Hdoc :
    (forall n, n ∈ gd_nodes (h_docs h d) -> n ∈ N0)
    /\ (forall r, r ∈ gd_relationships (h_docs h d) -> r ∈ R0)
    /\ List.filter (keeps_node h0) (gd_nodes (h_docs h d))
       = List.filter (keeps_node h0) N0
    /\ List.filter (keeps_relationship h0) (gd_relationships (h_docs h d))
       = List.filter (keeps_relationship h0) R0
    /\ gd_source (h_docs h d) = gd_source (h_docs h0 d)).
  { destruct (decide (d ∈ done)) as [Hd|Hd].
    - destruct (Hin d Hd) as [-> _]. simpl.
      repeat split; try apply filter_twice.
      + intros n Hn'. now apply elem_of_filter_bool in Hn' as [Hn' _].
      + intros r Hr'. now apply elem_of_filter_bool in Hr' as [Hr' _].
    - rewrite (Hout d Hd). now repeat split. }
  destruct Hdoc as [HN [HR [EN [ER ES]]]].
  unfold clean_graph_document.
  destruct (clean_nodes_spec (h_nodes h0) (gd_nodes (h_docs h d))
              (h_nodes h) [] Hn) as [hn1 [E1 [Hn1 [Hmn1 Hnew1]]]].
  { intros n Hn'. apply Hsn. unfold reached_nodes.
    apply elem_of_app. left. now apply HN. }
  rewrite E1.
  destruct (clean_relationships_spec (h_nodes h0) (h_rels h0)
              (gd_relationships (h_docs h d)) (h_rels h) hn1 [] Hr Hn1)
    as [hr2 [hn2 [E2 [Hr2 [Hn2 [Hmn2 [Hmr2 Hnew2]]]]]]].
  { intros r Hr'. apply HR in Hr'.
    repeat split; [now apply Hsr| |]; apply Hsn; unfold reached_nodes;
      apply elem_of_app; right; apply list_elem_of_In, in_flat_map;
      exists r; (split; [now apply list_elem_of_In | simpl; tauto]). }
  rewrite E2. simpl app.
  change (fun n => node_kept (h_nodes h0 n)) with (keeps_node h0) in *.
  change (fun r => relationship_kept (h_nodes h0) (h_rels h0 r))
    with (keeps_relationship h0) in *.
  rewrite EN, ER, ES in *.
  split; [exact Hn2|]. split; [exact Hr2|]. simpl h_docs. split.
  - intros d' Hd'. apply not_elem_of_cons in Hd' as [Hne Hd'].
    rewrite fn_lookup_insert_ne by congruence. now apply Hout.
  - intros d' Hd'. unfold doc_cleaned. simpl.
    destruct (decide (d = d')) as [<-|Hne].
    + rewrite fn_lookup_insert. simpl.
      split; [reflexivity|]. split.
      * intros n Hn'. now apply Hmn2, Hnew1.
      * intros r Hr'. now apply Hnew2.
    + rewrite fn_lookup_insert_ne by exact Hne.
      apply elem_of_cons in Hd' as [->|Hd']; [congruence|].
      destruct (Hin d' Hd') as [Ed [Hdn Hdr]].
      split; [exact Ed|]. split.
      * intros n Hn'. now apply Hmn2, Hmn1, Hdn.
      * intros r Hr'. destruct (Hdr r Hr') as [H1 [H2 H3]].
        split; [now apply Hmr2|].
        split; now apply Hmn2, Hmn1.
Qed.

(** The outer loop. *)
Lemma handle_backticks_tracks (h0 : heap) (todo : list ref) :
  forall (h : heap) (done : list ref),
    tracks h0 h done ->
    stable_types h0 todo ->
    tracks h0 (fold_left clean_graph_document todo h) (rev todo ++ done).
Proof.
  induction todo as [|d todo IH]; intros h done Htr Hst; simpl.
  - exact Htr.
  - rewrite <- app_assoc. simpl. apply IH.
    + destruct (Hst d (list_elem_of_here _ _)) as [Hsn Hsr].
      now apply clean_graph_document_tracks.
    + intros d' Hd'. apply Hst. now right.
Qed.

(** C4, as amended.  Let no type name reached from the listed graph
    documents consist of backticks and whitespace only.  Then
    [handle_backticks_nodes_relationship_id_type] returns the list it was
    given, and in each listed document it leaves exactly the nodes whose
    type and id are not blank and exactly the relationships whose type and
    whose end points' types and ids are not blank, in their order, all
    judged on the values before the call; every node and relationship left,
    and every end point of such a relationship, has its type without
    backticks.  In the example of the claim one node, Alice of type Person,
    and no relationship remain. *)
Theorem handle_backticks_cleans (h : heap) (graph_document_list : list ref) :
  stable_types h graph_document_list ->
  let h' :=
    (handle_backticks_nodes_relationship_id_type h graph_document_list).1 in
  (handle_backticks_nodes_relationship_id_type h graph_document_list).2
  = graph_document_list
  /\ (forall d, d ∈ graph_document_list ->
        gd_nodes (h_docs h' d)
        = List.filter (keeps_node h) (gd_nodes (h_docs h d))
        /\ gd_relationships (h_docs h' d)
           = List.filter (keeps_relationship h)
               (gd_relationships (h_docs h d))
        /\ gd_source (h_docs h' d) = gd_source (h_docs h d)
        /\ (forall n, n ∈ gd_nodes (h_docs h' d) ->
              node_id (h_nodes h' n) = node_id (h_nodes h n)
              /\ node_type (h_nodes h' n)
                 = strip_backticks (node_type (h_nodes h n))
              /\ has_char "`" (node_type (h_nodes h' n)) = false)
        /\ (forall r, r ∈ gd_relationships (h_docs h' d) ->
              h_rels h' r
              = mkRel (rel_source (h_rels h r)) (rel_target (h_rels h r))
                      (strip_backticks (rel_type (h_rels h r)))
              /\ has_char "`" (rel_type (h_rels h' r)) = false
              /\ node_type (h_nodes h' (rel_source (h_rels h' r)))
                 = strip_backticks
                     (node_type (h_nodes h (rel_source (h_rels h r))))
              /\ node_type (h_nodes h' (rel_target (h_rels h' r)))
                 = strip_backticks
                     (node_type (h_nodes h (rel_target (h_rels h r))))))
  /\ (h = alice_heap -> graph_document_list = [0] ->
      gd_nodes (h_docs h' 0) = [0]
      /\ h_nodes h' 0 = mkNode "Alice" "Person"
      /\ gd_relationships (h_docs h' 0) = []).
Proof.
  intros Hst h'. split; [reflexivity|]. split.
  - assert (Eh : h' = fold_left clean_graph_document graph_document_list h)
      by reflexivity.
    clearbody h'. subst h'.
    pose proof (handle_backticks_tracks h graph_document_list h []
                  (tracks_initial h) Hst) as [_ [_ [_ Hin]]].
    intros d Hd.
    destruct (Hin d) as [Ed [Hdn Hdr]].
    { rewrite app_nil_r. apply list_elem_of_In. apply -> in_rev.
      now apply list_elem_of_In. }
    split; [now rewrite Ed|]. split; [now rewrite Ed|].
    split; [now rewrite Ed|]. split.
    + intros n Hn. rewrite (Hdn n Hn). simpl.
      repeat split. apply strip_backticks_clean.
    + intros r Hr. destruct (Hdr r Hr) as [Er [Hs Hg]].
      rewrite Er. simpl. rewrite Hs, Hg. simpl.
      repeat split. apply strip_backticks_clean.
  - intros -> ->. subst h'. vm_compute. repeat split.
Qed.

(** C4, as stated, fails when a relationship shares its source with the
    node list and that node's type is a single backtick.  The relationship
    passes the test on the values before the call, but the loop over the
    nodes has emptied the type when the relationship is examined, and the
    relationship is dropped. *)
Lemma handle_backticks_shared_node_drops_relationship :
  let h' := (handle_backticks_nodes_relationship_id_type shared_heap [0]).1 in
  keeps_relationship shared_heap 0 = true
  /\ gd_relationships (h_docs shared_heap 0) = [0]
  /\ gd_relationships (h_docs h' 0) = []
  /\ gd_relationships (h_docs h' 0)
     <> List.filter (keeps_relationship shared_heap)
          (gd_relationships (h_docs shared_heap 0))
  /\ gd_nodes (h_docs h' 0) = [0; 1]
  /\ node_type (h_nodes h' 0) = "".
Proof.
  vm_compute. repeat split. discriminate.
Qed.

(** * The statements on concrete inputs *)

Lemma get_chunk_and_graphDocument_pairs_witness :
  (forall d v, d ∈ [0; 1] ->
     metadata (gd_source (two_docs d)) !! "combined_chunk_ids" = Some v ->
     exists ids, v = MIds ids)
  /\ get_chunk_and_graphDocument two_docs [0; 1] = Ok [(0, "a"); (0, "b")].
Proof.
  assert (H : forall d v, d ∈ [0; 1] ->
     metadata (gd_source (two_docs d)) !! "combined_chunk_ids" = Some v ->
     exists ids, v = MIds ids).
  { intros d v Hd E.
    apply elem_of_cons in Hd as [->|Hd];
      [|apply elem_of_cons in Hd as [->|Hd]].
    - vm_compute in E. injection E as <-. eauto.
    - vm_compute in E. discriminate.
    - now apply not_elem_of_nil in Hd. }
  split; [exact H|].
  destruct (get_chunk_and_graphDocument_pairs two_docs [0; 1] H) as [E _].
  rewrite E. reflexivity.
Defined.

Lemma get_combined_chunks_partition_witness :
  (0 < 3)%Z
  /\ exists docs,
       get_combined_chunks seven_chunks 3 = Ok docs
       /\ map combined_chunk_ids docs
          = [["c1"; "c2"; "c3"]; ["c4"; "c5"; "c6"]; ["c7"]]
       /\ map page_content docs = ["t1t2t3"; "t4t5t6"; "t7"].
Proof.
  split; [lia|].
  destruct (get_combined_chunks_partition seven_chunks 3 ltac:(lia))
    as [docs [E _]].
  exists docs. split; [exact E|].
  vm_compute in E. injection E as <-. vm_compute. split; reflexivity.
Defined.

Lemma deadlock_retry_bound_witness :
  (forall h w,
     raises_deadlock
       (add_graph_documents (scripted deadlock_script) 0 [] h w).1)
  /\ (forall w,
        raises_deadlock
          (graph_query_chunks (scripted deadlock_script) 0 "f" w).1)
  /\ exists s',
       save_graphDocuments_in_neo4j (scripted deadlock_script) 0 []
         DEFAULT_MAX_RETRIES DEFAULT_RETRY_DELAY (start 0)
       = (Raise (RuntimeError
                   "Failed to save graph documents after multiple retries due to deadlock."),
          s')
       /\ st_log s'
          = [Call_add_graph_documents 0 []; Call_sleep 1;
             Call_add_graph_documents 0 []; Call_sleep 1;
             Call_add_graph_documents 0 []; Call_sleep 1].
Proof.
  assert (H1 : forall h w,
     raises_deadlock
       (add_graph_documents (scripted deadlock_script) 0 [] h w).1).
  { intros h w. eexists. split; reflexivity. }
  assert (H2 : forall w,
     raises_deadlock
       (graph_query_chunks (scripted deadlock_script) 0 "f" w).1).
  { intros w. eexists. split; reflexivity. }
  split; [exact H1|]. split; [exact H2|].
  destruct (deadlock_retry_bound (scripted deadlock_script) 0 []
              (Call_query 0 QUERY_TO_GET_CHUNKS "f")
              (graph_query_chunks (scripted deadlock_script) 0 "f")
              (start 0) H1 H2) as [Hsave _].
  exact Hsave.
Defined.

Lemma get_chunkId_chunkDoc_list_without_rows_witness :
  opt_truthy (Some "start_from_beginning") = true
  /\ (get_chunkId_chunkDoc_list (scripted quiet) 0 "f" [] 0 0
        (Some "start_from_beginning") (start 0)).1
     = Raise (IndexError "list index out of range").
Proof.
  split; [reflexivity|].
  destruct (get_chunkId_chunkDoc_list_without_rows (scripted quiet) 0 "f" []
              0%Z 0%Z (Some "start_from_beginning") (start 0)
              (mkState 1 empty_heap [Call_query 0 QUERY_TO_GET_CHUNKS "f"])
              eq_refl eq_refl) as [E _].
  rewrite E. reflexivity.
Defined.

Lemma resume_from_last_processed_position_witness :
  (exists n l,
     (get_chunkId_chunkDoc_list (scripted resume_script) 0 "f" [] 0 0
        (Some START_FROM_LAST_PROCESSED_POSITION) (start 0)).1
     = Ok (n, l)
     /\ n = 10 /\ map chunk_id l = ["c7"; "c8"; "c9"; "c10"])
  /\ (exists n l,
        (get_chunkId_chunkDoc_list (scripted tail_script) 0 "f" [] 0 0
           (Some START_FROM_LAST_PROCESSED_POSITION) (start 0)).1
        = Ok (n, l)
        /\ n = 10 /\ map chunk_id l = ["c9"; "c10"]).
Proof.
  split.
  - destruct (chunk_entries ten_rows []) as [entries|e] eqn:Hent;
      [|vm_compute in Hent; discriminate].
    destruct (resume_from_last_processed_position (scripted resume_script)
                0 "f" [] 0%Z 0%Z ten_rows
                (mkChunkRow "c1" (Some "text1") 1) "text1" entries
                (start 0)
                (mkState 1 empty_heap [Call_query 0 QUERY_TO_GET_CHUNKS "f"])
                eq_refl eq_refl eq_refl ltac:(discriminate) Hent)
      as [Hseven _].
    destruct (Hseven eq_refl []
                (mkState 2 empty_heap
                   [Call_query 0 QUERY_TO_GET_CHUNKS "f";
                    Call_query 0 QUERY_TO_GET_LAST_PROCESSED_CHUNK_POSITION
                      "f"])
                eq_refl) as [E _].
    rewrite E. exists 10, (drop 6 entries). split; [reflexivity|].
    split; [reflexivity|].
    vm_compute in Hent. injection Hent as <-. reflexivity.
  - destruct (chunk_entries ten_rows []) as [entries|e] eqn:Hent;
      [|vm_compute in Hent; discriminate].
    destruct (resume_from_last_processed_position (scripted tail_script)
                0 "f" [] 0%Z 0%Z ten_rows
                (mkChunkRow "c1" (Some "text1") 1) "text1" entries
                (start 0)
                (mkState 1 empty_heap [Call_query 0 QUERY_TO_GET_CHUNKS "f"])
                eq_refl eq_refl eq_refl ltac:(discriminate) Hent)
      as [_ Htail].
    rewrite (Htail []
               (mkState 2 empty_heap
                  [Call_query 0 QUERY_TO_GET_CHUNKS "f";
                   Call_query 0 QUERY_TO_GET_LAST_PROCESSED_CHUNK_POSITION
                     "f"])
               9%Z []
               (mkState 3 empty_heap
                  [Call_query 0 QUERY_TO_GET_CHUNKS "f";
                   Call_query 0 QUERY_TO_GET_LAST_PROCESSED_CHUNK_POSITION
                     "f";
                   Call_query 0
                     QUERY_TO_GET_LAST_PROCESSED_CHUNK_WITHOUT_ENTITY "f"])
               eq_refl eq_refl).
    exists 10, (Py.slice_from (9 - 1) entries). split; [reflexivity|].
    split; [reflexivity|].
    vm_compute in Hent. injection Hent as <-. reflexivity.
Defined.

Lemma get_labels_and_relationtypes_excludes_witness :
  session_run_triples (scripted schema_script) "uri" "user" "pw" "db" 0
  = (Ok [mkTriple ["Chunk"] "PART_OF" ["Document"];
         mkTriple ["Chunk"] "HAS_ENTITY" ["Person"];
         mkTriple ["Person"] "WORKS_AT" ["Company"]], 1)
  /\ (get_labels_and_relationtypes (scripted schema_script)
        "uri" "user" "pw" "db" (start 0)).1
     = Ok ["Person-WORKS_AT->Company"].
Proof.
  split; [reflexivity|].
  destruct (get_labels_and_relationtypes_excludes (scripted schema_script)
              "uri" "user" "pw" "db" _ (start 0) 1 eq_refl)
    as [triplets [E [_ [_ [_ [Hthree _]]]]]].
  rewrite E. simpl. f_equal. now apply Hthree.
Defined.

Lemma get_graph_from_llm_rejects_malformed_relationships_witness :
  malformed (stripped_items "Person,Company") (stripped_items "Person,Org")
  /\ exists msg,
       get_graph_from_llm (scripted quiet) "m" [] "Person,Company"
         "Person,Org" 3 None (start 0)
       = (Raise (LLMGraphBuilderException msg), start 0).
Proof.
  assert (H : malformed (stripped_items "Person,Company")
                        (stripped_items "Person,Org")).
  { left. vm_compute. discriminate. }
  split; [exact H|].
  destruct (get_graph_from_llm_rejects_malformed_relationships
              (scripted quiet) "m" [] 3%Z None (start 0)) as [Hall _].
  exact (Hall "Person,Company" "Person,Org" H).
Defined.

Lemma processing_source_already_processing_witness :
  exists uri_latency s3,
    processing_source (scripted processing_script) "uri" "user" "pw" "db"
      "m" "f" [] "" "" 0 0 0 false None None None (start 0)
    = (Ok (uri_latency, ∅), s3)
    /\ st_log s3
       = [Call_Neo4jGraph (mkParams "uri" "db" "user" "pw" false true None);
          Call_create_chunk_vector_index 0;
          Call_split_file_into_chunks [] 0 0;
          Call_create_relation_between_chunks 0 "f" [];
          Call_get_current_status_document_node "f"].
Proof.
  pose (B := scripted processing_script).
  pose (log1 := [Call_Neo4jGraph
                   (mkParams "uri" "db" "user" "pw" false true None);
                 Call_create_chunk_vector_index 0] : list (call nat)).
  pose (log2 := (log1 ++ [Call_split_file_into_chunks [] 0 0;
                          Call_create_relation_between_chunks 0 "f" []])%list).
  pose (log3 := (log2 ++ [Call_get_current_status_document_node "f"])%list).
  assert (H1 : _initialize_processing B "uri" "user" "pw" "db" (start 0)
               = (Ok (0, 0, 1, {[ "create_connection" := LStr "0.00" ]}),
                  mkState 6 empty_heap log1))
    by (vm_compute; reflexivity).
  assert (H2 : _get_chunks_and_initialize_processing B 0 "f" [] 0 0 None
                 (mkState 6 empty_heap log1)
               = (Ok (0, [],
                      {[ "create_list_chunk_and_document" := LStr "0.00";
                         "total_chunks" := LNat 0 ]}),
                  mkState 10 empty_heap log2))
    by (vm_compute; reflexivity).
  assert (H3 : _get_document_status B "f" (mkState 10 empty_heap log2)
               = (Ok ([mkStatusRow "Processing" (CInt 0) (CInt 0) 0 false],
                      "0.00"),
                  mkState 13 empty_heap log3))
    by (vm_compute; reflexivity).
  destruct (processing_source_already_processing B "uri" "user" "pw" "db"
              "m" "f" [] "" "" 0%Z 0%Z 0%Z false None None None
              _ _ _ _ _ _ _ _ _ _ _ _ _ _ H1 H2 H3 eq_refl)
    as [E _].
  eexists _, _. split; [exact E|]. reflexivity.
Defined.

Lemma handle_backticks_cleans_witness :
  stable_types alice_heap [0]
  /\ let h' :=
       (handle_backticks_nodes_relationship_id_type alice_heap [0]).1 in
     gd_nodes (h_docs h' 0) = [0]
     /\ h_nodes h' 0 = mkNode "Alice" "Person"
     /\ gd_relationships (h_docs h' 0) = [].
Proof.
  assert (H : stable_types alice_heap [0]).
  { intros d Hd. apply list_elem_of_singleton in Hd as ->. split.
    - intros n Hn. vm_compute in Hn.
      repeat (apply elem_of_cons in Hn as [->|Hn]; [reflexivity|]).
      now apply not_elem_of_nil in Hn.
    - intros r Hr. reflexivity. }
  split; [exact H|].
  destruct (handle_backticks_cleans alice_heap [0] H) as [_ [_ Hex]].
  exact (Hex eq_refl eq_refl).
Defined.

(** * Further properties *)

(** ** The retry wrappers under any backend *)

Section RetryBound.

Context {W T : Type}.
Variable B : Backend W T.

Lemma query_loop_bounded {A} (c : call T) (q : W -> result A * W)
    (delay n : nat) (s : state W T) :
  exists k,
    k <= n
    /\ st_log (query_loop B n c q delay s).2
       = (st_log s ++ attempts_log c delay n k)%list
    /\ st_heap (query_loop B n c q delay s).2 = st_heap s
    /\ (k = n ->
        (query_loop B n c q delay s).1
        = Raise (RuntimeError
                   "Query execution failed after multiple retries due to deadlock."))
    /\ (k < n ->
        forall e, (query_loop B n c q delay s).1 = Raise e ->
                  is_deadlock e = false).
Proof.
  revert s. induction n as [|n IH]; intros s.
  - exists 0. simpl. unfold attempts_log. simpl. rewrite app_nil_r.
    repeat split; try lia.
  - simpl. unfold try_except, perform.
    destruct (q (st_world s)) as [[a|e] w] eqn:Eq.
    + exists 0. unfold attempts_log. simpl.
      repeat split; try lia. intros _ e. discriminate.
    + destruct (is_deadlock e) eqn:Ed.
      * unfold bind. simpl.
        set (s1 := mkState (sleep B delay w) (st_heap s)
                     ((st_log s ++ [c]) ++ [Call_sleep delay])%list).
        destruct (IH s1) as [k [Hk [Hlog [Hheap [Hall Hlast]]]]].
        exists (S k). split; [lia|]. split; [|split; [exact Hheap|split]].
        -- rewrite Hlog. unfold s1, attempts_log. simpl st_log.
           change (S k <? S n) with (k <? n).
           change (failed_attempts c delay (S k))
             with (c :: Call_sleep delay :: failed_attempts c delay k).
           rewrite <- !app_assoc. reflexivity.
        -- intros E. apply Hall. lia.
        -- intros Hlt. apply Hlast. lia.
      * exists 0. unfold raise, attempts_log. simpl.
        repeat split; try lia.
        intros _ e' He. simpl in He. injection He as <-. exact Ed.
Qed.

Lemma save_loop_bounded (graph : graph_handle) (docs : list ref)
    (delay n : nat) (s : state W T) :
  exists k,
    k <= n
    /\ st_log (save_loop B n graph docs delay s).2
       = (st_log s
          ++ attempts_log (Call_add_graph_documents graph docs) delay n k)%list
    /\ st_heap (save_loop B n graph docs delay s).2 = st_heap s
    /\ (k = n ->
        (save_loop B n graph docs delay s).1
        = Raise (RuntimeError
                   "Failed to save graph documents after multiple retries due to deadlock."))
    /\ (k < n ->
        forall e, (save_loop B n graph docs delay s).1 = Raise e ->
                  is_deadlock e = false).
Proof.
  revert s. induction n as [|n IH]; intros s.
  - exists 0. simpl. unfold attempts_log. simpl. rewrite app_nil_r.
    repeat split; try lia.
  - simpl. unfold try_except, perform.
    destruct (add_graph_documents B graph docs (st_heap s) (st_world s))
      as [[a|e] w] eqn:Eq.
    + exists 0. unfold attempts_log. simpl.
      repeat split; try lia. intros _ e. discriminate.
    + destruct (is_deadlock e) eqn:Ed.
      * unfold bind. simpl.
        set (s1 := mkState (sleep B delay w) (st_heap s)
                     ((st_log s ++ [Call_add_graph_documents graph docs])
                      ++ [Call_sleep delay])%list).
        destruct (IH s1) as [k [Hk [Hlog [Hheap [Hall Hlast]]]]].
        exists (S k). split; [lia|]. split; [|split; [exact Hheap|split]].
        -- rewrite Hlog. unfold s1, attempts_log. simpl st_log.
           change (S k <? S n) with (k <? n).
           change (failed_attempts (Call_add_graph_documents graph docs)
                     delay (S k))
             with (Call_add_graph_documents graph docs :: Call_sleep delay
                   :: failed_attempts (@Call_add_graph_documents T graph docs)
                        delay k).
           rewrite <- !app_assoc. reflexivity.
        -- intros E. apply Hall. lia.
        -- intros Hlt. apply Hlast. lia.
      * exists 0. unfold raise, attempts_log. simpl.
        repeat split; try lia.
        intros _ e' He. simpl in He. injection He as <-. exact Ed.
Qed.

(** X1.  Whatever the backend answers, [execute_graph_query] and
    [save_graphDocuments_in_neo4j] make at most [max_retries] attempts.
    The log grows by [k] attempts that each met a deadlock and were each
    followed by a pause, and, when [k < max_retries], by the one attempt
    that ended the loop; the store of objects is left alone.  With
    [k = max_retries] the outcome is [RuntimeError], otherwise it is never
    a deadlock error.  For [max_retries = 0] no attempt is made at all. *)
Theorem retry_attempts_bounded {A} (graph : graph_handle) (docs : list ref)
    (c : call T) (q : W -> result A * W) (max_retries delay : nat)
    (s : state W T) :
  (exists k,
     k <= max_retries
     /\ st_log (execute_graph_query B c q max_retries delay s).2
        = (st_log s ++ attempts_log c delay max_retries k)%list
     /\ st_heap (execute_graph_query B c q max_retries delay s).2 = st_heap s
     /\ (k = max_retries ->
         (execute_graph_query B c q max_retries delay s).1
         = Raise (RuntimeError
                    "Query execution failed after multiple retries due to deadlock."))
     /\ (k < max_retries ->
         forall e, (execute_graph_query B c q max_retries delay s).1 = Raise e ->
                   is_deadlock e = false))
  /\ (exists k,
        k <= max_retries
        /\ st_log (save_graphDocuments_in_neo4j B graph docs max_retries
                     delay s).2
           = (st_log s
              ++ attempts_log (Call_add_graph_documents graph docs) delay
                   max_retries k)%list
        /\ st_heap (save_graphDocuments_in_neo4j B graph docs max_retries
                      delay s).2 = st_heap s
        /\ (k = max_retries ->
            (save_graphDocuments_in_neo4j B graph docs max_retries delay s).1
            = Raise (RuntimeError
                       "Failed to save graph documents after multiple retries due to deadlock."))
        /\ (k < max_retries ->
            forall e,
              (save_graphDocuments_in_neo4j B graph docs max_retries delay s).1
              = Raise e ->
              is_deadlock e = false)).
Proof.
  split.
  - apply query_loop_bounded.
  - apply save_loop_bounded.
Qed.

End RetryBound.

(** ** More on the chunk selection *)

Lemma clean_page_text_clean (text : string) :
  has_char double_quote (clean_page_text text) = false
  /\ has_char newline (clean_page_text text) = false
  /\ has_char "'" (clean_page_text text) = false.
Proof.
  unfold clean_page_text. repeat split.
  - apply replace_keeps_out; [reflexivity|].
    apply replace_keeps_out; [reflexivity|].
    now apply replace_removes.
  - apply replace_keeps_out; [reflexivity|].
    now apply replace_removes.
  - now apply replace_removes.
Qed.

Section Selection.

Context {W T : Type}.
Variable B : Backend W T.
Variables (graph : graph_handle) (file_name : string).
Variables (pages : list Document) (token_chunk_size chunk_overlap : Z).

Local Abbreviation read_chunks := (stored_chunks B graph file_name).
Local Abbreviation read_position := (stored_position B graph file_name).
Local Abbreviation select :=
  (get_chunkId_chunkDoc_list B graph file_name pages token_chunk_size
     chunk_overlap).

(** X2.  On a resume with a stored position [p] between 1 and the number
    of stored chunks, the last one left out, the chunks returned are those
    from position [p] on: [n - p + 1] of them, with the ids of the rows
    from the [p]-th on, in order, and the count returned is [n]. *)
Theorem resume_from_inner_position (rows : list chunk_row)
    (first : chunk_row) (text : string) (entries : list chunk_entry)
    (p : Z) (more : list position_row) (s s1 s2 : state W T) :
  read_chunks s = (Ok rows, s1) ->
  head rows = Some first -> row_text first = Some text -> text <> "" ->
  chunk_entries rows [] = Ok entries ->
  read_position QUERY_TO_GET_LAST_PROCESSED_CHUNK_POSITION s1
  = (Ok (mkPositionRow p :: more), s2) ->
  (1 <= p < Z.of_nat (length rows))%Z ->
  select (Some START_FROM_LAST_PROCESSED_POSITION) s
  = (Ok (length rows, drop (Z.to_nat p - 1) entries), s2)
  /\ length (drop (Z.to_nat p - 1) entries) = length rows - Z.to_nat p + 1
  /\ map chunk_id (drop (Z.to_nat p - 1) entries)
     = map row_id (drop (Z.to_nat p - 1) rows).
Proof.
  intros Hrows Hhead Htext Hne Hent Hpos Hp.
  pose proof (chunk_entries_rows rows entries Hent) as [Hlen [Hid _]].
  rewrite (resume_reaches_position_query B graph file_name pages
             token_chunk_size chunk_overlap rows first text entries s s1)
    by assumption.
  erewrite bind_ok by exact Hpos. cbv beta iota zeta. cbn [position].
  rewrite Hlen.
  destruct (Z.ltb_spec p (Z.of_nat (length rows))) as [_|?]; [|lia].
  split; [|split].
  - unfold ret, Py.slice_from. rewrite Hlen.
    destruct (Z.ltb_spec (p - 1) 0) as [?|_]; [lia|].
    do 3 f_equal. f_equal. lia.
  - rewrite length_drop. lia.
  - change (map chunk_id (drop (Z.to_nat p - 1) entries))
      with (chunk_id <$> drop (Z.to_nat p - 1) entries).
    change (map row_id (drop (Z.to_nat p - 1) rows))
      with (row_id <$> drop (Z.to_nat p - 1) rows).
    rewrite !fmap_drop. f_equal. exact Hid.
Qed.

(** X3.  On a resume with a stored position of 0 the slice starts at
    index [-1]: only the last stored chunk is returned, not all of them. *)
Theorem resume_from_position_zero (rows : list chunk_row)
    (first : chunk_row) (text : string) (entries : list chunk_entry)
    (more : list position_row) (s s1 s2 : state W T) :
  read_chunks s = (Ok rows, s1) ->
  head rows = Some first -> row_text first = Some text -> text <> "" ->
  chunk_entries rows [] = Ok entries ->
  read_position QUERY_TO_GET_LAST_PROCESSED_CHUNK_POSITION s1
  = (Ok (mkPositionRow 0 :: more), s2) ->
  exists e,
    last entries = Some e
    /\ select (Some START_FROM_LAST_PROCESSED_POSITION) s
       = (Ok (length rows, [e]), s2).
Proof.
  intros Hrows Hhead Htext Hne Hent Hpos.
  pose proof (chunk_entries_rows rows entries Hent) as [Hlen _].
  assert (Hn : 0 < length entries)
    by (rewrite Hlen; destruct rows; [discriminate | simpl; lia]).
  destruct (last entries) as [e|] eqn:El.
  2:{ apply last_None in El. subst entries. simpl in Hn. lia. }
  exists e. split; [reflexivity|].
  rewrite (resume_reaches_position_query B graph file_name pages
             token_chunk_size chunk_overlap rows first text entries s s1)
    by assumption.
  erewrite bind_ok by exact Hpos. cbv beta iota zeta. cbn [position].
  destruct (Z.ltb_spec 0 (Z.of_nat (length entries))) as [_|?]; [|lia].
  unfold ret, Py.slice_from. do 3 f_equal.
  change (0 - 1 <? 0)%Z with true. cbv iota.
  apply last_Some in El as [l' ->].
  rewrite length_app. simpl length.
  replace (Z.to_nat (Z.max (Z.of_nat (length l' + 1) + (0 - 1)) 0))
    with (length l') by lia.
  now rewrite drop_app_length.
Qed.

(** X4.  A resume for which the position query returns no row, or a
    position beyond the number of stored chunks, fails with the domain
    error that tells the chunks are all processed; the query for a chunk
    without entity is not sent. *)
Theorem resume_nothing_left (rows : list chunk_row)
    (first : chunk_row) (text : string) (entries : list chunk_entry)
    (answer : list position_row) (s s1 s2 : state W T) :
  read_chunks s = (Ok rows, s1) ->
  head rows = Some first -> row_text first = Some text -> text <> "" ->
  chunk_entries rows [] = Ok entries ->
  read_position QUERY_TO_GET_LAST_PROCESSED_CHUNK_POSITION s1
  = (Ok answer, s2) ->
  (answer = []
   \/ exists row, head answer = Some row
                  /\ (Z.of_nat (length rows) < position row)%Z) ->
  select (Some START_FROM_LAST_PROCESSED_POSITION) s
  = (Raise (LLMGraphBuilderException
              ("All chunks of file " ++ file_name
               ++ " are already processed. If you want to re-process, Please start from begnning")),
     s2).
Proof.
  intros Hrows Hhead Htext Hne Hent Hpos Hcase.
  pose proof (chunk_entries_rows rows entries Hent) as [Hlen _].
  rewrite (resume_reaches_position_query B graph file_name pages
             token_chunk_size chunk_overlap rows first text entries s s1)
    by assumption.
  erewrite bind_ok by exact Hpos.
  destruct Hcase as [->|[row [Hrow Hbig]]]; [reflexivity|].
  destruct answer as [|row' more]; [discriminate|].
  injection Hrow as ->. cbv beta iota zeta. rewrite Hlen.
  destruct (Z.ltb_spec (position row) (Z.of_nat (length rows))); [lia|].
  destruct (Z.eqb_spec (position row) (Z.of_nat (length rows))); [lia|].
  reflexivity.
Qed.

(** X5.  On any retry, when the first stored row has no text or an empty
    one, the function fails with the domain error that tells the chunks are
    not created, after the one query. *)
Theorem retry_first_chunk_without_text (retry_condition : option string)
    (first : chunk_row) (rest : list chunk_row) (s s1 : state W T) :
  opt_truthy retry_condition = true ->
  read_chunks s = (Ok (first :: rest), s1) ->
  (row_text first = None \/ row_text first = Some "") ->
  select retry_condition s
  = (Raise (LLMGraphBuilderException
              ("Chunks are not created for " ++ file_name
               ++ ". Please re-upload file and try again.")),
     s1).
Proof.
  intros Hretry Hrows Htext.
  unfold get_chunkId_chunkDoc_list. rewrite Hretry.
  change (negb true) with false. cbv iota.
  erewrite bind_ok by exact Hrows.
  destruct Htext as [-> | ->]; reflexivity.
Qed.

(** X6.  A retry in a mode other than the resume returns every stored
    chunk, in the order of the rows, with the number of rows as the count;
    one query is sent. *)
Theorem retry_from_beginning_returns_all (retry_condition : option string)
    (rows : list chunk_row) (first : chunk_row) (text : string)
    (entries : list chunk_entry) (s s1 : state W T) :
  opt_truthy retry_condition = true ->
  opt_eqb retry_condition START_FROM_LAST_PROCESSED_POSITION = false ->
  read_chunks s = (Ok rows, s1) ->
  head rows = Some first -> row_text first = Some text -> text <> "" ->
  chunk_entries rows [] = Ok entries ->
  select retry_condition s = (Ok (length rows, entries), s1)
  /\ length entries = length rows
  /\ map chunk_id entries = map row_id rows
  /\ map (fun c => Some (page_content (chunk_doc c))) entries
     = map row_text rows.
Proof.
  intros Hretry Hmode Hrows Hhead Htext Hne Hent.
  split; [|now apply chunk_entries_rows].
  unfold get_chunkId_chunkDoc_list. rewrite Hretry.
  change (negb true) with false. cbv iota.
  erewrite bind_ok by exact Hrows.
  destruct rows as [|r rest]; [discriminate|].
  injection Hhead as ->. rewrite Htext.
  destruct text as [|ch text]; [congruence|].
  change (negb (Py.truthy (String ch text))) with false. cbv iota.
  erewrite bind_ok by (unfold lift; rewrite Hent; reflexivity).
  rewrite Hmode. reflexivity.
Qed.

(** X7.  On a first run the pages go to the splitter with every double
    quote and single quote removed and every newline turned into a space,
    their metadata untouched; the count returned is the number of chunks
    the splitter made, and the two calls are the splitter and the
    persistence of the chunks. *)
Theorem first_run_cleans_pages (retry_condition : option string)
    (chunks : list Document) (made : list chunk_entry)
    (s : state W T) (w1 w2 : W) :
  opt_truthy retry_condition = false ->
  let cleaned :=
    map (fun page =>
           mkDocument (clean_page_text (page_content page)) (metadata page))
        pages in
  split_file_into_chunks B cleaned token_chunk_size chunk_overlap (st_world s)
  = (Ok chunks, w1) ->
  create_relation_between_chunks B graph file_name chunks w1 = (Ok made, w2) ->
  select retry_condition s
  = (Ok (length chunks, made),
     mkState w2 (st_heap s)
       (st_log s
        ++ [Call_split_file_into_chunks cleaned token_chunk_size chunk_overlap;
            Call_create_relation_between_chunks graph file_name chunks]))
  /\ map metadata cleaned = map metadata pages
  /\ forall page, page ∈ cleaned ->
       has_char double_quote (page_content page) = false
       /\ has_char newline (page_content page) = false
       /\ has_char "'" (page_content page) = false.
Proof.
  intros Hretry cleaned Hsplit Hsave. split; [|split].
  - unfold get_chunkId_chunkDoc_list. rewrite Hretry.
    change (negb false) with true. cbv iota. fold cleaned.
    unfold bind, perform, ret. rewrite Hsplit. simpl. rewrite Hsave.
    simpl. now rewrite <- app_assoc.
  - unfold cleaned. rewrite map_map. reflexivity.
  - intros page Hpage. unfold cleaned in Hpage.
    apply list_elem_of_fmap in Hpage as [p [-> _]]. simpl.
    apply clean_page_text_clean.
Qed.

End Selection.

(** ** Model resolution and the accepted relationships *)

Lemma split_not_nil (sep : ascii) (s : string) : Py.split sep s <> [].
Proof.
  destruct s as [|c s]; simpl; [discriminate|].
  destruct (Ascii.eqb c sep); [discriminate|].
  destruct (Py.split sep s); discriminate.
Qed.

Lemma split_join (sep : ascii) (s : string) :
  String.concat (String sep "") (Py.split sep s) = s.
Proof.
  induction s as [|c s IH]; [reflexivity|]. simpl.
  pose proof (split_not_nil sep s) as Hnil.
  destruct (Py.split sep s) as [|w ws]; [congruence|].
  destruct (Ascii.eqb_spec c sep) as [->|Hne].
  - change (String.concat (String sep "") ("" :: w :: ws))
      with (String sep (String.concat (String sep "") (w :: ws))).
    now rewrite IH.
  - destruct ws as [|w' ws]; simpl in *; now rewrite <- IH.
Qed.

Lemma split_parts_clean (sep : ascii) (s x : string) :
  x ∈ Py.split sep s -> has_char sep x = false.
Proof.
  revert x. induction s as [|c s IH]; intros x; simpl.
  - intros Hx. apply list_elem_of_singleton in Hx as ->. reflexivity.
  - destruct (Ascii.eqb c sep) eqn:Ec.
    + intros Hx. apply elem_of_cons in Hx as [->|Hx]; [reflexivity|].
      now apply IH.
    + destruct (Py.split sep s) as [|w ws] eqn:E.
      * intros Hx. apply list_elem_of_singleton in Hx as ->. simpl.
        now rewrite Ec.
      * intros Hx. apply elem_of_cons in Hx as [->|Hx].
        -- simpl. rewrite Ec. apply IH. left.
        -- apply IH. now right.
Qed.

Lemma split_two (sep : ascii) (a b : string) :
  has_char sep a = false -> has_char sep b = false ->
  Py.split sep (a ++ String sep b) = [a; b].
Proof.
  intros Ha Hb. induction a as [|c a IH]; simpl.
  - rewrite Ascii.eqb_refl. f_equal.
    clear Ha. induction b as [|c b IHb]; [reflexivity|]. simpl in *.
    apply orb_false_elim in Hb as [Hc Hb]. rewrite Hc, (IHb Hb). reflexivity.
  - simpl in Ha. apply orb_false_elim in Ha as [Hc Ha].
    rewrite Hc, (IH Ha). reflexivity.
Qed.

Section Resolution.

Context {W T : Type}.
Variable B : Backend W T.

(** X8.  [get_llm] succeeds exactly when the environment variable named
    after the trimmed, lower-cased model holds [name,url] with a single
    comma, and then returns the client for [url] and [name] together with
    [name]; in every case the state is left as it was. *)
Theorem get_llm_succeeds_iff (model : string) (s : state W T)
    (llm : llm_client) (model_name : string) :
  let env_key := "LLM_MODEL_CONFIG_" ++ Py.strip (Py.str_lower model) in
  get_llm B model s = (Ok (llm, model_name), s)
  <-> exists base_url,
        environ_get B env_key (st_world s)
        = Some (model_name ++ String "," base_url)
        /\ has_char "," model_name = false
        /\ has_char "," base_url = false
        /\ llm = ChatOllama base_url model_name.
Proof.
  intros env_key. unfold get_llm. fold env_key. monad. split.
  - destruct (environ_get B env_key (st_world s)) as [v|] eqn:Ev;
      [|discriminate].
    destruct (Py.truthy v) eqn:Et; [|discriminate].
    pose proof (split_join "," v) as Hjoin.
    pose proof (split_parts_clean "," v) as Hclean.
    destruct (Py.split "," v) as [|a [|b [|c l]]]; simpl; try discriminate.
    intros [= <- <-]. exists b. simpl in Hjoin.
    repeat split; try (apply Hclean; set_solver).
    now rewrite <- Hjoin.
  - intros [base_url [-> [Hn [Hu ->]]]].
    assert (Py.truthy (model_name ++ String "," base_url) = true) as ->
      by (destruct model_name; reflexivity).
    rewrite split_two by assumption. reflexivity.
Qed.

End Resolution.

Lemma truthy_or_empty (x : string) : (if Py.truthy x then x else "") = x.
Proof. now destruct x. Qed.

(** Triples that are all allowed pass the loop of the validation. *)
Lemma check_triples_accepts (allowed_nodes items : list string) (m : nat) :
  forall (k : nat) (acc : list (string * string * string)),
    length (drop (k * 3) items) = m * 3 ->
    (forall a b c, (a, b, c) ∈ triples_of (drop (k * 3) items) ->
       a ∈ allowed_nodes /\ c ∈ allowed_nodes) ->
    check_triples allowed_nodes items (map (fun j => j * 3) (seq k m)) acc
    = Ok (acc ++ triples_of (drop (k * 3) items))%list.
Proof.
  induction m as [|m IH]; intros k acc Hlen Hok.
  - simpl. destruct (drop (k * 3) items); [|discriminate Hlen].
    simpl. now rewrite app_nil_r.
  - rewrite <- cons_seq, map_cons.
    cbn [check_triples]. unfold Py.slice.
    destruct (drop (k * 3) items) as [|a [|b [|c rest]]] eqn:Ed;
      try (simpl in Hlen; lia).
    assert (Hrest : drop (S k * 3) items = rest).
    { replace (S k * 3) with (k * 3 + 3) by lia.
      rewrite <- drop_drop, Ed. reflexivity. }
    change (take 3 (a :: b :: c :: rest)) with (a :: b :: c :: take 0 rest).
    rewrite take_0.
    destruct (Hok a b c) as [Ha Hc]; [left|].
    apply mem_spec in Ha, Hc. rewrite Ha, Hc. simpl negb. simpl orb.
    cbv iota.
    rewrite IH.
    + rewrite Hrest, <- app_assoc. reflexivity.
    + rewrite Hrest. simpl in Hlen. lia.
    + rewrite Hrest. intros x y z Hin. apply (Hok x y z). simpl.
      now right.
Qed.

Section Acceptance.

Context {W T : Type}.
Variable B : Backend W T.

(** X9.  When the model is resolved, the window size is not zero and the
    allowed relationships can be read as triples over the allowed nodes,
    [get_graph_from_llm] calls the transformer once and only it: with the
    trimmed node names, the triples in their order, the combined documents,
    and the fixed instructions followed by the sanitised additional ones.
    The answer of the transformer is returned as it is; an error of the
    transformer comes back as the domain error with the same message after
    a fixed prefix. *)
Theorem get_graph_from_llm_accepts_well_formed (model : string)
    (chunks : list chunk_entry) (allowedNodes allowedRelationship : string)
    (K : Z) (instr : option string) (s : state W T)
    (llm : llm_client) (model_name : string) (docs : list Document) :
  get_llm B model s = (Ok (llm, model_name), s) ->
  get_combined_chunks chunks K = Ok docs ->
  well_formed (stripped_items allowedNodes)
              (stripped_items allowedRelationship) ->
  let tr :=
    transformer_for B llm (stripped_items allowedNodes)
      (triples_of (stripped_items allowedRelationship)) instr in
  let answer :=
    aconvert_to_graph_documents B tr docs (st_heap s) (st_world s) in
  get_graph_from_llm B model chunks allowedNodes allowedRelationship K instr s
  = (match answer.1.1 with
     | Ok graph_documents => Ok graph_documents
     | Raise e =>
         Raise (LLMGraphBuilderException
                  ("Error in getting graph from llm: " ++ exn_str e))
     end,
     mkState answer.2 answer.1.2
       (st_log s ++ [Call_aconvert_to_graph_documents tr docs])).
Proof.
  intros Hllm Hdocs [Hmod Hok] tr answer.
  assert (Hrels :
    (if Py.truthy allowedRelationship
     then
       let items := stripped_items allowedRelationship in
       if negb (length items mod 3 =? 0)%nat
       then raise (LLMGraphBuilderException
                     "allowedRelationship must be a multiple of 3 (source, relationship, target)")
       else lift (check_triples (stripped_items allowedNodes) items
                    (Py.range (length items) 3) [])
     else ret []) s
    = (Ok (triples_of (stripped_items allowedRelationship)), s)).
  { destruct (Py.truthy allowedRelationship) eqn:Et.
    - cbv zeta. rewrite Hmod. simpl negb. cbv iota.
      rewrite range_closed by lia.
      pose proof (Nat.div_mod_eq (length (stripped_items allowedRelationship)) 3)
        as En.
      pose proof (Nat.div_mod_eq
                    (length (stripped_items allowedRelationship) + 3 - 1) 3)
        as Eq.
      pose proof (Nat.mod_upper_bound
                    (length (stripped_items allowedRelationship) + 3 - 1) 3)
        as U.
      unfold lift.
      rewrite (check_triples_accepts _ _
                 ((length (stripped_items allowedRelationship) + 3 - 1) / 3)
                 0 []).
      + reflexivity.
      + change (0 * 3) with 0. rewrite drop_0. lia.
      + change (0 * 3) with 0. rewrite drop_0. exact Hok.
    - destruct allowedRelationship; [reflexivity | discriminate]. }
  unfold get_graph_from_llm, try_except.
  erewrite bind_ok by exact Hllm. cbv beta iota zeta.
  erewrite bind_ok by (unfold lift; rewrite Hdocs; reflexivity).
  erewrite bind_ok by exact Hrels.
  unfold get_graph_document_list.
  assert (Etr :
    mkTransformer llm false false (stripped_items allowedNodes)
      (triples_of (stripped_items allowedRelationship))
      (negb (existsb (fun pattern =>
                        Py.contains pattern (get_llm_model_name llm))
                     ["qwen3"; "deepseek"]))
      (ADDITIONAL_INSTRUCTIONS B ++
       match
         match instr with
         | Some i => if Py.truthy i
                     then Some (sanitize_additional_instruction i)
                     else Some i
         | None => None
         end
       with
       | Some i => if Py.truthy i then i else ""
       | None => ""
       end)
    = tr).
  { unfold tr, transformer_for. simpl existsb. rewrite orb_false_r.
    f_equal. f_equal.
    destruct instr as [i|]; [|reflexivity].
    destruct (Py.truthy i) eqn:Ei; [apply truthy_or_empty|].
    now rewrite Ei. }
  cbv zeta. rewrite Etr. fold answer.
  destruct answer as [[[gds|e] h] w]; reflexivity.
Qed.

End Acceptance.

(** ** Bounds of the chunk combination and its use in the mapping *)

Lemma combined_chunk_ids_of_group (group : list chunk_entry) :
  combined_chunk_ids (combined_document group) = map chunk_id group.
Proof.
  unfold combined_chunk_ids, combined_document. simpl.
  now rewrite lookup_singleton_eq.
Qed.

(** X10.  At the bounds of the window size: zero raises [ValueError], a
    negative size returns no document at all, whatever the chunks, and a
    size of at least the number of chunks returns one document made of all
    of them. *)
Theorem get_combined_chunks_bounds (l : list chunk_entry) (K : Z) :
  (K = 0%Z ->
   get_combined_chunks l K
   = Raise (ValueError "range() arg 3 must not be zero"))
  /\ ((K < 0)%Z -> get_combined_chunks l K = Ok [])
  /\ (l <> [] -> (Z.of_nat (length l) <= K)%Z ->
      get_combined_chunks l K = Ok [combined_document l])
  /\ (l = [] -> K <> 0%Z -> get_combined_chunks l K = Ok []).
Proof.
  split; [|split; [|split]].
  - intros ->. reflexivity.
  - intros HK. unfold get_combined_chunks.
    destruct (Z.eqb_spec K 0); [lia|].
    destruct (Z.ltb_spec K 0); [reflexivity | lia].
  - intros Hl HK.
    assert (Hn : 0 < length l) by (destruct l; [congruence | simpl; lia]).
    rewrite get_combined_chunks_closed by lia.
    rewrite (div_up_succ (length l) (Z.to_nat K)) by lia.
    replace (length l - Z.to_nat K + Z.to_nat K - 1) with (Z.to_nat K - 1)
      by lia.
    rewrite Nat.div_small by lia. simpl. unfold window. simpl.
    rewrite drop_0, take_ge by lia. reflexivity.
  - intros -> HK. unfold get_combined_chunks.
    destruct (Z.eqb_spec K 0); [lia|].
    destruct (Z.ltb_spec K 0); reflexivity.
Qed.

Lemma mapping_of_lists (docs : ref -> GraphDocument) (gdl : list ref) :
  (forall d, d ∈ gdl ->
     exists ids,
       metadata (gd_source (docs d)) !! "combined_chunk_ids"
       = Some (MIds ids)) ->
  get_chunk_and_graphDocument docs gdl = Ok (flat_map (pairs_of docs) gdl).
Proof.
  induction gdl as [|d gdl IH]; intros Hids; [reflexivity|].
  simpl. rewrite IH by (intros; apply Hids; now right).
  unfold pairs_of. destruct (Hids d) as [ids ->]; [left|reflexivity].
Qed.

Lemma pairs_of_ids (docs : ref -> GraphDocument) (d : ref) :
  map snd (pairs_of docs d) = combined_chunk_ids (gd_source (docs d)).
Proof.
  unfold pairs_of, combined_chunk_ids.
  destruct (metadata (gd_source (docs d)) !! "combined_chunk_ids")
    as [[?|?|ids]|]; try reflexivity.
  rewrite map_map. simpl. apply map_id.
Qed.

(** X11.  Combining and mapping compose: when the sources of the graph
    documents are, in order, the documents that [get_combined_chunks]
    returned for a positive window size, [get_chunk_and_graphDocument]
    yields the id of every chunk exactly once and in the order of the
    chunks, each paired with a graph document of the list whose source
    carries that id. *)
Theorem mapping_covers_combined_chunks (l : list chunk_entry) (K : Z)
    (combined : list Document) (docs : ref -> GraphDocument)
    (gdl : list ref) :
  (0 < K)%Z ->
  get_combined_chunks l K = Ok combined ->
  map (fun d => gd_source (docs d)) gdl = combined ->
  exists pairs,
    get_chunk_and_graphDocument docs gdl = Ok pairs
    /\ map snd pairs = map chunk_id l
    /\ forall d id, (d, id) ∈ pairs ->
         d ∈ gdl /\ id ∈ combined_chunk_ids (gd_source (docs d)).
Proof.
  intros HK Hcomb Hsrc.
  rewrite get_combined_chunks_closed in Hcomb by exact HK.
  injection Hcomb as Hcomb.
  set (k := Z.to_nat K) in *.
  set (c := (length l + k - 1) / k) in *.
  assert (Hk : 0 < k) by (unfold k; lia).
  assert (Hids : forall d, d ∈ gdl ->
            exists ids,
              metadata (gd_source (docs d)) !! "combined_chunk_ids"
              = Some (MIds ids)).
  { intros d Hd.
    assert (Hin : gd_source (docs d) ∈ combined).
    { rewrite <- Hsrc. apply list_elem_of_fmap. now exists d. }
    rewrite <- Hcomb in Hin. apply list_elem_of_fmap in Hin as [j [-> _]].
    eexists. apply lookup_singleton_eq. }
  exists (flat_map (pairs_of docs) gdl).
  split; [now apply mapping_of_lists|]. split.
  - rewrite flat_map_concat_map, concat_map, map_map.
    rewrite (map_ext _ (fun d => combined_chunk_ids (gd_source (docs d))))
      by (intros; apply pairs_of_ids).
    rewrite <- (map_map (fun d => gd_source (docs d)) combined_chunk_ids).
    rewrite Hsrc, <- Hcomb, map_map.
    rewrite (map_ext _ (fun j => map chunk_id (window k j l)))
      by (intros; apply combined_chunk_ids_of_group).
    rewrite <- (map_map (fun j => window k j l) (map chunk_id)).
    rewrite <- concat_map. f_equal.
    apply windows_cover. apply div_up_covers. exact Hk.
  - intros d id Hin. apply list_elem_of_In, in_flat_map in Hin as [d' [Hd' Hp]].
    assert (d' = d /\ id ∈ combined_chunk_ids (gd_source (docs d')))
      as [-> Hid].
    { unfold pairs_of, combined_chunk_ids in *.
      destruct (metadata (gd_source (docs d')) !! "combined_chunk_ids")
        as [[?|?|ids]|]; try contradiction.
      apply in_map_iff in Hp as [x [[= <- <-] Hx]].
      split; [reflexivity | now apply list_elem_of_In]. }
    split; [now apply list_elem_of_In | exact Hid].
Qed.

(** X12.  With a window of one chunk the combined documents are the
    chunks one by one: the same texts, in order, as the documents of
    [get_chunk_id_as_doc_metadata], each with the list of its one id,
    filed under [combined_chunk_ids] by the one function and under
    [chunk_id] by the other. *)
Theorem window_of_one_matches_chunk_documents (l : list chunk_entry) :
  exists combined,
    get_combined_chunks l 1 = Ok combined
    /\ map page_content combined
       = map page_content (get_chunk_id_as_doc_metadata l)
    /\ map (fun d => metadata d !! "combined_chunk_ids") combined
       = map (fun d => metadata d !! "chunk_id")
             (get_chunk_id_as_doc_metadata l)
    /\ map combined_chunk_ids combined = map (fun c => [chunk_id c]) l.
Proof.
  eexists. split; [apply get_combined_chunks_closed; lia|].
  change (Z.to_nat 1) with 1.
  replace ((length l + 1 - 1) / 1) with (length l)
    by (rewrite Nat.div_1_r; lia).
  assert (E : map (fun j => combined_document (window 1 j l))
                  (seq 0 (length l))
              = map (fun c => combined_document [c]) l).
  { induction l as [|x l IH]; [reflexivity|].
    simpl length. rewrite <- cons_seq, map_cons, <- seq_shift, map_map.
    rewrite map_cons. f_equal. rewrite <- IH. apply map_ext. intros j.
    unfold window. reflexivity. }
  rewrite E. unfold get_chunk_id_as_doc_metadata. rewrite !map_map.
  split; [|split].
  - apply map_ext. intros c. reflexivity.
  - apply map_ext. intros c. simpl.
    now rewrite !lookup_singleton_eq.
  - apply map_ext. intros c. apply combined_chunk_ids_of_group.
Qed.

(** ** What the sanitiser does guarantee *)

Lemma match_ci_nil_r (q : string) :
  Py.match_ci q "" = true -> q = "".
Proof. destruct q; [reflexivity | discriminate]. Qed.

Lemma contains_ci_nonempty (q s : string) :
  Py.contains_ci q s = false -> q <> "".
Proof. intros H ->. destruct s; discriminate. Qed.

Lemma append_cons (c : ascii) (a b : string) :
  String c a ++ b = String c (a ++ b).
Proof. reflexivity. Qed.

Lemma contains_ci_cons (q : string) (c : ascii) (s : string) :
  Py.contains_ci q (String c s)
  = Py.match_ci q (String c s) || Py.contains_ci q s.
Proof. reflexivity. Qed.

Section Replacement.

Variables (p repl' : string) (r0 : ascii).

Local Abbreviation repl := (String r0 repl').

(** A match in the output that starts in copied text lies in the input. *)
Lemma match_ci_through_sub (q : string) :
  avoids q r0 = true ->
  forall s, Py.match_ci q (Py.sub_ci_from 0 p repl s) = true ->
            Py.match_ci q s = true.
Proof.
  induction q as [|a q IH]; intros Hav s; [reflexivity|].
  simpl in Hav. apply andb_prop in Hav as [Ha Hav].
  destruct s as [|c s]; [discriminate|].
  cbn [Py.sub_ci_from].
  destruct (Py.match_ci p (String c s)).
  - rewrite append_cons. cbn [Py.match_ci].
    apply negb_true_iff in Ha. rewrite Ha. discriminate.
  - cbn [Py.match_ci]. intros H. apply andb_prop in H as [Hc Hrest].
    rewrite Hc. now apply IH.
Qed.

Lemma match_ci_through_sub_cons (q : string) (c : ascii) (s : string) :
  avoids q r0 = true ->
  Py.match_ci q (String c (Py.sub_ci_from 0 p repl s)) = true ->
  Py.match_ci q (String c s) = true.
Proof.
  destruct q as [|a q]; [reflexivity|]. intros Hav.
  simpl in Hav. apply andb_prop in Hav as [_ Hav].
  cbn [Py.match_ci]. intros H. apply andb_prop in H as [Hc Hrest].
  rewrite Hc. now apply match_ci_through_sub.
Qed.

Lemma contains_ci_after_token (q t rest : string) :
  never_in q t -> Py.contains_ci q rest = false ->
  Py.contains_ci q (t ++ rest) = false.
Proof.
  induction t as [|c t IH]; intros Hnever Hrest; [exact Hrest|].
  destruct Hnever as [Hhere Hnever].
  change (String c t ++ rest) with (String c (t ++ rest)).
  rewrite contains_ci_cons.
  change (String c (t ++ rest)) with (String c t ++ rest).
  rewrite Hhere. now apply IH.
Qed.

(** Replacing [p] brings no occurrence of [q] that was not there. *)
Lemma sub_ci_keeps_absent (q : string) :
  avoids q r0 = true -> never_in q repl ->
  forall s skip,
    Py.contains_ci q s = false ->
    Py.contains_ci q (Py.sub_ci_from skip p repl s) = false.
Proof.
  intros Hav Hnever. induction s as [|c s IH]; intros skip Hs.
  - exact Hs.
  - rewrite contains_ci_cons in Hs.
    apply orb_false_elim in Hs as [Hhere Hs].
    cbn [Py.sub_ci_from]. destruct skip as [|k]; [|now apply IH].
    destruct (Py.match_ci p (String c s)).
    + apply contains_ci_after_token; [exact Hnever | now apply IH].
    + rewrite contains_ci_cons, (IH 0 Hs), orb_false_r.
      destruct (Py.match_ci q (String c (Py.sub_ci_from 0 p repl s))) eqn:E;
        [|reflexivity].
      apply match_ci_through_sub_cons in E; [congruence | exact Hav].
Qed.

(** Replacing [p] leaves no occurrence of [p]. *)
Lemma sub_ci_removes :
  p <> "" -> avoids p r0 = true -> never_in p repl ->
  forall s skip, Py.contains_ci p (Py.sub_ci_from skip p repl s) = false.
Proof.
  intros Hne Hav Hnever. induction s as [|c s IH]; intros skip.
  - simpl. destruct p; [congruence | reflexivity].
  - cbn [Py.sub_ci_from]. destruct skip as [|k]; [|now apply IH].
    destruct (Py.match_ci p (String c s)) eqn:Em.
    + apply contains_ci_after_token; [exact Hnever | now apply IH].
    + rewrite contains_ci_cons, (IH 0), orb_false_r.
      destruct (Py.match_ci p (String c (Py.sub_ci_from 0 p repl s))) eqn:E;
        [|reflexivity].
      apply match_ci_through_sub_cons in E; [congruence | exact Hav].
Qed.

End Replacement.

(** After the patterns are replaced in turn, an inert string that is one of
    them, or that did not occur before, does not occur. *)
Lemma patterns_absent (q : string) (patterns : list string) :
  inert q -> q <> "" ->
  forall s,
    (q ∈ patterns \/ Py.contains_ci q s = false) ->
    Py.contains_ci q
      (fold_left (fun acc pattern => Py.sub_ci pattern "[BLOCKED]" acc)
                 patterns s) = false.
Proof.
  intros [Hav Hnever] Hq.
  induction patterns as [|p ps IH]; intros s Hcase; simpl.
  - destruct Hcase as [Hin|H]; [|exact H]. now apply not_elem_of_nil in Hin.
  - apply IH. destruct Hcase as [Hin|H].
    + apply elem_of_cons in Hin as [->|Hin]; [|now left]. right.
      unfold Py.sub_ci. now apply sub_ci_removes.
    + right. unfold Py.sub_ci. now apply sub_ci_keeps_absent.
Qed.

Lemma isspace_lower (b : ascii) : Py.isspace (Py.lower b) = Py.isspace b.
Proof. destruct b as [[] [] [] [] [] [] [] []]; reflexivity. Qed.

Lemma spaceless_mismatch (a b : ascii) :
  Py.isspace (Py.lower a) = false -> Py.isspace b = true ->
  Ascii.eqb (Py.lower a) (Py.lower b) = false.
Proof.
  intros Ha Hb. destruct (Ascii.eqb_spec (Py.lower a) (Py.lower b)) as [E|];
    [|reflexivity].
  rewrite E, isspace_lower in Ha. congruence.
Qed.

(** A match of a spaceless string in collapsed text lies in the text. *)
Lemma match_ci_through_collapse (q : string) :
  spaceless q = true ->
  forall s, Py.match_ci q (Py.collapse_ws_from false s) = true ->
            Py.match_ci q s = true.
Proof.
  induction q as [|a q IH]; intros Hq s; [reflexivity|].
  simpl in Hq. apply andb_prop in Hq as [Ha Hq].
  apply negb_true_iff in Ha.
  destruct s as [|c s]; [discriminate|].
  cbn [Py.collapse_ws_from]. destruct (Py.isspace c) eqn:Ec.
  - cbn [Py.match_ci].
    rewrite (spaceless_mismatch a " " Ha eq_refl). discriminate.
  - cbn [Py.match_ci]. intros H. apply andb_prop in H as [Hc Hrest].
    rewrite Hc. now apply IH.
Qed.

Lemma collapse_keeps_absent (q : string) :
  spaceless q = true ->
  forall s in_run,
    Py.contains_ci q s = false ->
    Py.contains_ci q (Py.collapse_ws_from in_run s) = false.
Proof.
  intros Hq. induction s as [|c s IH]; intros in_run Hs; [exact Hs|].
  pose proof (contains_ci_nonempty _ _ Hs) as Hne.
  rewrite contains_ci_cons in Hs. apply orb_false_elim in Hs as [Hhere Hs].
  destruct q as [|a q]; [congruence|].
  pose proof Hq as Hq'. simpl in Hq'. apply andb_prop in Hq' as [Ha Hq'].
  apply negb_true_iff in Ha.
  cbn [Py.collapse_ws_from]. destruct (Py.isspace c) eqn:Ec.
  - destruct in_run; [now apply IH|].
    rewrite contains_ci_cons, (IH true Hs), orb_false_r.
    cbn [Py.match_ci]. now rewrite (spaceless_mismatch a " " Ha eq_refl).
  - rewrite contains_ci_cons, (IH false Hs), orb_false_r.
    cbn [Py.match_ci] in *.
    destruct (Ascii.eqb (Py.lower a) (Py.lower c)); [|reflexivity].
    simpl in Hhere |- *.
    destruct (Py.match_ci q (Py.collapse_ws_from false s)) eqn:E;
      [|reflexivity].
    apply match_ci_through_collapse in E; [congruence | exact Hq'].
Qed.

Lemma lstrip_keeps_absent (q s : string) :
  Py.contains_ci q s = false -> Py.contains_ci q (Py.lstrip s) = false.
Proof.
  induction s as [|c s IH]; intros Hs; [exact Hs|].
  cbn [Py.lstrip]. destruct (Py.isspace c); [|exact Hs].
  rewrite contains_ci_cons in Hs. apply orb_false_elim in Hs as [_ Hs].
  now apply IH.
Qed.

Lemma match_ci_through_rstrip (q : string) :
  forall s, Py.match_ci q (Py.rstrip s) = true -> Py.match_ci q s = true.
Proof.
  induction q as [|a q IH]; intros s; [reflexivity|].
  destruct s as [|c s]; [discriminate|].
  cbn [Py.rstrip].
  destruct (Py.isspace c && negb (Py.truthy (Py.rstrip s))); [discriminate|].
  cbn [Py.match_ci]. intros H. apply andb_prop in H as [Hc Hrest].
  rewrite Hc. now apply IH.
Qed.

Lemma rstrip_keeps_absent (q s : string) :
  Py.contains_ci q s = false -> Py.contains_ci q (Py.rstrip s) = false.
Proof.
  induction s as [|c s IH]; intros Hs; [exact Hs|].
  pose proof (contains_ci_nonempty _ _ Hs) as Hne.
  rewrite contains_ci_cons in Hs. apply orb_false_elim in Hs as [Hhere Hs].
  cbn [Py.rstrip].
  destruct (Py.isspace c && negb (Py.truthy (Py.rstrip s))).
  - destruct q; [congruence | reflexivity].
  - rewrite contains_ci_cons, (IH Hs), orb_false_r.
    destruct (Py.match_ci q (String c (Py.rstrip s))) eqn:E; [|reflexivity].
    change (String c (Py.rstrip s))
      with (if false then "" else String c (Py.rstrip s)) in E.
    destruct q as [|a q]; [congruence|].
    cbn [Py.match_ci] in E, Hhere.
    apply andb_prop in E as [Hc Hrest]. rewrite Hc in Hhere.
    apply match_ci_through_rstrip in Hrest. simpl in Hhere. congruence.
Qed.

Lemma solid_pattern_facts (p : string) :
  p ∈ solid_patterns ->
  inert p /\ p <> "" /\ spaceless p = true /\ p ∈ injection_patterns.
Proof.
  intros Hp. unfold solid_patterns in Hp.
  repeat (apply elem_of_cons in Hp as [->|Hp]);
    [| | | |now apply not_elem_of_nil in Hp];
    (split; [split; [reflexivity|]; simpl; repeat split; intros x;
             reflexivity|]);
    (split; [discriminate|]); (split; [reflexivity|]);
    unfold injection_patterns; set_solver.
Qed.

(** X13.  The output of [sanitize_additional_instruction] never contains
    [os.getenv(], [eval(], [exec(] or [subprocess.], in any letter case,
    whatever the input. *)
Theorem sanitize_additional_instruction_blocks_solid_patterns
    (instruction p : string) :
  p ∈ solid_patterns ->
  Py.contains_ci p (sanitize_additional_instruction instruction) = false.
Proof.
  intros Hp.
  destruct (solid_pattern_facts p Hp) as [Hinert [Hne [Hsolid Hin]]].
  unfold sanitize_additional_instruction, Py.strip, Py.collapse_ws.
  apply rstrip_keeps_absent, lstrip_keeps_absent, collapse_keeps_absent;
    [exact Hsolid|].
  apply patterns_absent; [exact Hinert | exact Hne | now left].
Qed.

Lemma collapse_single_spaced (s : string) (b : bool) :
  single_spaced b (Py.collapse_ws_from b s) = true.
Proof.
  revert b. induction s as [|c s IH]; intros b; [reflexivity|].
  cbn [Py.collapse_ws_from]. destruct (Py.isspace c) eqn:Ec.
  - destruct b; [apply IH|]. cbn [single_spaced].
    change (Py.isspace " ") with true. cbv iota. simpl. apply IH.
  - cbn [single_spaced]. rewrite Ec. apply IH.
Qed.

Lemma single_spaced_weaken (s : string) :
  single_spaced true s = true -> single_spaced false s = true.
Proof.
  destruct s as [|c s]; [reflexivity|]. cbn [single_spaced].
  destruct (Py.isspace c); [|trivial].
  rewrite andb_false_r. discriminate.
Qed.

Lemma lstrip_single_spaced (s : string) (b : bool) :
  single_spaced b s = true -> single_spaced false (Py.lstrip s) = true.
Proof.
  revert b. induction s as [|c s IH]; intros b; [reflexivity|].
  cbn [single_spaced Py.lstrip]. destruct (Py.isspace c) eqn:Ec.
  - intros H. apply andb_prop in H as [_ H]. now apply (IH true).
  - intros H. cbn [single_spaced]. now rewrite Ec.
Qed.

Lemma lstrip_starts_solid (s : string) : starts_solid (Py.lstrip s) = true.
Proof.
  induction s as [|c s IH]; [reflexivity|]. cbn [Py.lstrip].
  destruct (Py.isspace c) eqn:Ec; [exact IH|]. simpl. now rewrite Ec.
Qed.

Lemma rstrip_single_spaced (s : string) (b : bool) :
  single_spaced b s = true -> single_spaced b (Py.rstrip s) = true.
Proof.
  revert b. induction s as [|c s IH]; intros b; [reflexivity|].
  cbn [single_spaced Py.rstrip].
  destruct (Py.isspace c && negb (Py.truthy (Py.rstrip s))); [reflexivity|].
  cbn [single_spaced]. destruct (Py.isspace c).
  - intros H. apply andb_prop in H as [H1 H2]. rewrite H1. now apply IH.
  - apply IH.
Qed.

Lemma rstrip_starts_solid (s : string) :
  starts_solid s = true -> starts_solid (Py.rstrip s) = true.
Proof.
  destruct s as [|c s]; [reflexivity|]. simpl. intros Hc.
  apply negb_true_iff in Hc. rewrite Hc. simpl. now rewrite Hc.
Qed.

Lemma rstrip_ends_solid (s : string) : ends_solid (Py.rstrip s) = true.
Proof.
  induction s as [|c s IH]; [reflexivity|]. cbn [Py.rstrip].
  destruct (Py.rstrip s) as [|d r] eqn:Er.
  - simpl. rewrite andb_true_r.
    destruct (Py.isspace c) eqn:Ec; [reflexivity|]. simpl. now rewrite Ec.
  - simpl. rewrite andb_false_r. exact IH.
Qed.

Lemma strip_collapse_ws_normal (t : string) :
  ws_normal (Py.strip (Py.collapse_ws t)) = true.
Proof.
  unfold Py.strip, Py.collapse_ws, ws_normal.
  rewrite rstrip_ends_solid, andb_true_r.
  rewrite rstrip_starts_solid by apply lstrip_starts_solid.
  rewrite andb_true_r.
  apply rstrip_single_spaced, (lstrip_single_spaced _ false).
  apply collapse_single_spaced.
Qed.

(** X14.  The output of [sanitize_additional_instruction] is in whitespace
    normal form: its only whitespace characters are single spaces between
    other characters; it neither starts nor ends with whitespace. *)
Theorem sanitize_additional_instruction_ws_normal (instruction : string) :
  ws_normal (sanitize_additional_instruction instruction) = true.
Proof.
  unfold sanitize_additional_instruction. apply strip_collapse_ws_normal.
Qed.

Lemma replace_absent (old : ascii) (new s : string) :
  has_char old s = false -> Py.replace old new s = s.
Proof.
  induction s as [|c s IH]; [reflexivity|]. simpl. intros H.
  apply orb_false_elim in H as [Hc Hs]. now rewrite Hc, IH.
Qed.

Lemma sub_ci_absent (p repl s : string) :
  Py.contains_ci p s = false -> Py.sub_ci p repl s = s.
Proof.
  unfold Py.sub_ci. induction s as [|c s IH]; [reflexivity|].
  rewrite contains_ci_cons. intros H. apply orb_false_elim in H as [Hc Hs].
  cbn [Py.sub_ci_from]. now rewrite Hc, IH.
Qed.

Lemma patterns_all_absent (patterns : list string) (s : string) :
  (forall p, p ∈ patterns -> Py.contains_ci p s = false) ->
  fold_left (fun acc pattern => Py.sub_ci pattern "[BLOCKED]" acc) patterns s
  = s.
Proof.
  induction patterns as [|p ps IH]; intros H; [reflexivity|]. simpl.
  rewrite sub_ci_absent by (apply H; left).
  apply IH. intros q Hq. apply H. now right.
Qed.

Lemma collapse_single_spaced_id (s : string) (b : bool) :
  single_spaced b s = true -> Py.collapse_ws_from b s = s.
Proof.
  revert b. induction s as [|c s IH]; intros b; [reflexivity|].
  cbn [single_spaced Py.collapse_ws_from]. destruct (Py.isspace c).
  - intros H. apply andb_prop in H as [H Hs]. apply andb_prop in H as [Hc Hb].
    apply negb_true_iff in Hb. subst b.
    apply Ascii.eqb_eq in Hc. subst c. now rewrite IH.
  - intros H. now rewrite IH.
Qed.

Lemma lstrip_solid_id (s : string) :
  starts_solid s = true -> Py.lstrip s = s.
Proof.
  destruct s as [|c s]; [reflexivity|]. simpl. intros Hc.
  apply negb_true_iff in Hc. now rewrite Hc.
Qed.

Lemma rstrip_solid_id (s : string) : ends_solid s = true -> Py.rstrip s = s.
Proof.
  induction s as [|c s IH]; [reflexivity|]. cbn [Py.rstrip].
  destruct s as [|d s].
  - simpl. intros Hc. apply negb_true_iff in Hc. now rewrite Hc.
  - intros H. change (ends_solid (String d s) = true) in H.
    rewrite (IH H). simpl. now rewrite andb_false_r.
Qed.

Lemma clean_text_fixed (text : string) :
  clean_text text = true -> sanitize_additional_instruction text = text.
Proof.
  unfold clean_text, ws_normal. intros H.
  apply andb_prop in H as [H Hpat]. apply andb_prop in H as [H Hws].
  apply andb_prop in H as [Ho Hc].
  apply andb_prop in Hws as [Hws Hend]. apply andb_prop in Hws as [Hsp Hst].
  apply negb_true_iff in Ho, Hc.
  unfold sanitize_additional_instruction, Py.strip, Py.collapse_ws.
  rewrite (replace_absent "{") by exact Ho.
  rewrite (replace_absent "}") by exact Hc.
  rewrite patterns_all_absent.
  - rewrite collapse_single_spaced_id by exact Hsp.
    rewrite lstrip_solid_id by exact Hst.
    now apply rstrip_solid_id.
  - intros p Hp. rewrite forallb_forall in Hpat.
    apply negb_true_iff, Hpat, list_elem_of_In, Hp.
Qed.

(** X15.  A text without brace, in whitespace normal form, in which no
    blocked pattern occurs in any letter case passes
    [sanitize_additional_instruction] unchanged. *)
Theorem sanitize_additional_instruction_fixes_clean_text (text : string) :
  clean_text text = true -> sanitize_additional_instruction text = text.
Proof.
  apply clean_text_fixed.
Qed.

(** X16.  Sanitising twice gives the same as sanitising once whenever the
    first output holds neither [import os] nor [import subprocess]; these
    two patterns are the only ones a first pass can leave behind. *)
Theorem sanitize_additional_instruction_idempotent_unless_import
    (instruction : string) :
  Py.contains_ci "import os"
    (sanitize_additional_instruction instruction) = false ->
  Py.contains_ci "import subprocess"
    (sanitize_additional_instruction instruction) = false ->
  sanitize_additional_instruction
    (sanitize_additional_instruction instruction)
  = sanitize_additional_instruction instruction.
Proof.
  intros Hos Hsub.
  destruct (sanitize_additional_instruction_no_braces instruction) as [Ho Hc].
  assert (Hsolid : forall p, p ∈ solid_patterns ->
            Py.contains_ci p (sanitize_additional_instruction instruction)
            = false).
  { intros p Hp.
    destruct (solid_pattern_facts p Hp) as [Hinert [Hne [Hsp Hin]]].
    unfold sanitize_additional_instruction, Py.strip, Py.collapse_ws.
    apply rstrip_keeps_absent, lstrip_keeps_absent, collapse_keeps_absent;
      [exact Hsp|].
    apply patterns_absent; [exact Hinert | exact Hne | now left]. }
  apply clean_text_fixed. unfold clean_text.
  rewrite Ho, Hc. cbn [negb andb].
  replace (ws_normal _) with true
    by (symmetry; unfold sanitize_additional_instruction;
        apply strip_collapse_ws_normal).
  cbn [andb]. apply forallb_forall. intros p Hp.
  apply list_elem_of_In in Hp. apply negb_true_iff.
  unfold injection_patterns in Hp.
  repeat (apply elem_of_cons in Hp as [->|Hp]);
    try assumption;
    try (apply Hsolid; unfold solid_patterns; set_solver).
Qed.

Lemma node_tracks_refl (a : ref -> Node) : node_tracks a a.
Proof. intros n. now left. Qed.

Lemma node_tracks_trans (a b c : ref -> Node) :
  node_tracks a b -> node_tracks b c -> node_tracks a c.
Proof.
  intros Hab Hbc n. unfold node_cleaned.
  destruct (Hbc n) as [->|Ec]; [apply Hab|].
  right. rewrite Ec. destruct (Hab n) as [->|Eb]; [reflexivity|].
  rewrite Eb. simpl. now rewrite strip_backticks_idem.
Qed.

Lemma rel_tracks_refl (a : ref -> Relationship) : rel_tracks a a.
Proof. intros r. now left. Qed.

Lemma rel_tracks_trans (a b c : ref -> Relationship) :
  rel_tracks a b -> rel_tracks b c -> rel_tracks a c.
Proof.
  intros Hab Hbc r. unfold rel_cleaned.
  destruct (Hbc r) as [->|Ec]; [apply Hab|].
  right. rewrite Ec. destruct (Hab r) as [->|Eb]; [reflexivity|].
  rewrite Eb. simpl. now rewrite strip_backticks_idem.
Qed.

Lemma node_tracks_settled (a b : ref -> Node) (n : ref) :
  node_tracks a b -> node_settled a n -> node_settled b n.
Proof.
  intros Hab [Ht Hi]. unfold node_settled.
  destruct (Hab n) as [->|E]; [now split|].
  rewrite E. simpl. split; [apply strip_backticks_clean | exact Hi].
Qed.

Lemma rel_tracks_settled (a b : ref -> Relationship) (na nb : ref -> Node)
    (r : ref) :
  rel_tracks a b -> node_tracks na nb ->
  rel_settled a na r -> rel_settled b nb r.
Proof.
  intros Hab Hn [Ht [Hs Hg]]. unfold rel_settled.
  destruct (rel_tracks_ends a b r Hab) as [-> ->].
  split; [|split; now apply (node_tracks_settled na)].
  destruct (Hab r) as [->|E]; [exact Ht|].
  rewrite E. simpl. apply strip_backticks_clean.
Qed.

Lemma retype_node_settles (nodes : ref -> Node) (n : ref) :
  Py.truthy (Py.strip (node_id (nodes n))) = true ->
  node_settled (retype_node nodes n) n.
Proof.
  intros Hi. unfold node_settled, retype_node. rewrite fn_lookup_insert.
  simpl. split; [apply strip_backticks_clean | exact Hi].
Qed.

(** The loop over the nodes, whatever the type names are. *)
Lemma clean_nodes_settles (todo : list ref) :
  forall (nodes : ref -> Node) (acc : list ref),
    exists nodes' kept,
      clean_nodes nodes todo acc = (nodes', (acc ++ kept)%list)
      /\ kept `sublist_of` todo
      /\ node_tracks nodes nodes'
      /\ (forall n, n ∈ kept -> node_settled nodes' n).
Proof.
  induction todo as [|n todo IH]; intros nodes acc; simpl.
  - exists nodes, []. rewrite app_nil_r.
    split; [reflexivity|]. split; [constructor|].
    split; [apply node_tracks_refl|].
    intros n Hn. now apply not_elem_of_nil in Hn.
  - destruct (node_kept (nodes n)) eqn:Ek.
    + destruct (IH (retype_node nodes n) (acc ++ [n])%list)
        as [nodes' [kept [E [Hs [Ht Hk]]]]].
      exists nodes', (n :: kept). rewrite E, <- app_assoc. simpl.
      split; [reflexivity|]. split; [now constructor|]. split.
      * eapply node_tracks_trans; [|exact Ht].
        apply retype_node_tracks, node_tracks_refl.
      * intros m Hm. apply elem_of_cons in Hm as [->|Hm]; [|now apply Hk].
        apply (node_tracks_settled (retype_node nodes n)); [exact Ht|].
        apply retype_node_settles. unfold node_kept in Ek.
        now apply andb_prop in Ek as [_ Ek].
    + destruct (IH nodes acc) as [nodes' [kept [E [Hs [Ht Hk]]]]].
      exists nodes', kept. rewrite E.
      repeat split; try assumption; try now apply Hk.
      now constructor.
Qed.

(** The loop over the relationships, whatever the type names are. *)
Lemma clean_relationships_settles (todo : list ref) :
  forall (rels : ref -> Relationship) (nodes : ref -> Node) (acc : list ref),
    exists rels' nodes' kept,
      clean_relationships rels nodes todo acc
      = (rels', nodes', (acc ++ kept)%list)
      /\ kept `sublist_of` todo
      /\ rel_tracks rels rels'
      /\ node_tracks nodes nodes'
      /\ (forall r, r ∈ kept -> rel_settled rels' nodes' r).
Proof.
  induction todo as [|r todo IH]; intros rels nodes acc; simpl.
  - exists rels, nodes, []. rewrite app_nil_r.
    split; [reflexivity|]. split; [constructor|].
    split; [apply rel_tracks_refl|]. split; [apply node_tracks_refl|].
    intros r Hr. now apply not_elem_of_nil in Hr.
  - destruct (relationship_kept nodes (rels r)) eqn:Ek.
    + set (rels1 := <[ r := mkRel (rel_source (rels r)) (rel_target (rels r))
                               (strip_backticks (rel_type (rels r))) ]> rels).
      set (nodes1 := retype_node nodes (rel_source (rels r))).
      set (nodes2 := retype_node nodes1 (rel_target (rels r))).
      assert (Hr1 : rel_tracks rels rels1)
        by apply retype_rel_tracks, rel_tracks_refl.
      assert (Hn1 : node_tracks nodes nodes1)
        by apply retype_node_tracks, node_tracks_refl.
      assert (Hn12 : node_tracks nodes1 nodes2)
        by apply retype_node_tracks, node_tracks_refl.
      destruct (IH rels1 nodes2 (acc ++ [r])%list)
        as [rels' [nodes' [kept [E [Hs [Hr [Hn Hk]]]]]]].
      exists rels', nodes', (r :: kept). rewrite E, <- app_assoc. simpl.
      split; [reflexivity|]. split; [now constructor|].
      split; [now apply (rel_tracks_trans _ rels1)|].
      split; [apply (node_tracks_trans _ nodes1); [exact Hn1|];
              now apply (node_tracks_trans _ nodes2)|].
      intros m Hm. apply elem_of_cons in Hm as [->|Hm]; [|now apply Hk].
      apply (rel_tracks_settled rels1 rels' nodes2 nodes'); [exact Hr|exact Hn|].
      unfold relationship_kept in Ek.
      apply andb_prop in Ek as [Ek Hgt]. apply andb_prop in Ek as [Ek Hgi].
      apply andb_prop in Ek as [Ek Hst]. apply andb_prop in Ek as [Ht Hsi].
      unfold rel_settled, rels1. rewrite fn_lookup_insert. simpl.
      split; [apply strip_backticks_clean|]. split.
      * apply (node_tracks_settled nodes1); [exact Hn12|].
        now apply retype_node_settles.
      * apply retype_node_settles.
        now rewrite (node_tracks_id nodes nodes1 _ Hn1).
    + destruct (IH rels nodes acc)
        as [rels' [nodes' [kept [E [Hs [Hr [Hn Hk]]]]]]].
      exists rels', nodes', kept. rewrite E.
      repeat split; try assumption; try now apply Hk.
      now constructor.
Qed.

Lemma settles_initial (h0 : heap) : settles h0 h0 [].
Proof.
  split; [apply node_tracks_refl|]. split; [apply rel_tracks_refl|].
  split; [reflexivity|]. split; [now repeat split|].
  intros d Hd. now apply not_elem_of_nil in Hd.
Qed.

(** One round of the outer loop, whatever the type names are. *)
Lemma clean_graph_document_settles (h0 h : heap) (done : list ref) (d : ref) :
  settles h0 h done -> settles h0 (clean_graph_document h d) (d :: done).
Proof.
  intros [Hn [Hr [Hout [Hsh Hin]]]].
  unfold clean_graph_document.
  destruct (clean_nodes_settles (gd_nodes (h_docs h d)) (h_nodes h) [])
    as [nodes1 [keptn [E1 [Hs1 [Hn1 Hk1]]]]].
  rewrite E1.
  destruct (clean_relationships_settles (gd_relationships (h_docs h d))
              (h_rels h) nodes1 [])
    as [rels2 [nodes2 [keptr [E2 [Hs2 [Hr2 [Hn2 Hk2]]]]]]].
  rewrite E2. simpl app.
  assert (Hn02 : node_tracks (h_nodes h) nodes2)
    by now apply (node_tracks_trans _ nodes1).
  split; [now apply (node_tracks_trans _ (h_nodes h))|].
  split; [now apply (rel_tracks_trans _ (h_rels h))|].
  simpl h_docs. split; [|split].
  - intros d' Hd'. apply not_elem_of_cons in Hd' as [Hne Hd'].
    rewrite fn_lookup_insert_ne by congruence. now apply Hout.
  - intros d'. unfold doc_shrunk. cbn [h_docs].
    destruct (Hsh d') as [Sn [Sr Ss]].
    destruct (decide (d = d')) as [<-|Hne].
    + rewrite fn_lookup_insert. simpl.
      split; [now transitivity (gd_nodes (h_docs h d))|].
      split; [now transitivity (gd_relationships (h_docs h d))|exact Ss].
    + rewrite fn_lookup_insert_ne by exact Hne. now repeat split.
  - intros d' Hd'. unfold settled. cbn [h_docs h_nodes h_rels].
    destruct (decide (d = d')) as [<-|Hne].
    + rewrite fn_lookup_insert. simpl. split.
      * intros n Hn'. apply (node_tracks_settled nodes1); [exact Hn2|].
        now apply Hk1.
      * intros r Hr'. now apply Hk2.
    + rewrite fn_lookup_insert_ne by exact Hne.
      apply elem_of_cons in Hd' as [->|Hd']; [congruence|].
      destruct (Hin d' Hd') as [Hdn Hdr]. split.
      * intros n Hn'. apply (node_tracks_settled (h_nodes h)); [exact Hn02|].
        now apply Hdn.
      * intros r Hr'.
        apply (rel_tracks_settled (h_rels h) rels2 (h_nodes h) nodes2);
          [exact Hr2 | exact Hn02 | now apply Hdr].
Qed.

Lemma handle_backticks_settles (h0 : heap) (todo : list ref) :
  forall (h : heap) (done : list ref),
    settles h0 h done ->
    settles h0 (fold_left clean_graph_document todo h) (rev todo ++ done).
Proof.
  induction todo as [|d todo IH]; intros h done Hs; simpl.
  - exact Hs.
  - rewrite <- app_assoc. simpl. apply IH.
    now apply clean_graph_document_settles.
Qed.

(** X17.  Whatever the type names are,
    [handle_backticks_nodes_relationship_id_type] adds nothing and leaves
    no backtick: every listed graph document keeps a part of its nodes and
    of its relationships, in their order, and its source; each node it
    keeps has a type without backtick and an id that is not blank, each
    relationship it keeps a type without backtick and two such end points.
    No id and no end point changes, a type changes only by losing its
    backticks, and documents that are not listed stay as they were. *)
Theorem handle_backticks_leaves_no_backtick (h : heap)
    (graph_document_list : list ref) :
  let h' :=
    (handle_backticks_nodes_relationship_id_type h graph_document_list).1 in
  (forall d, d ∈ graph_document_list -> doc_shrunk h h' d /\ settled h' d)
  /\ (forall d, d ∉ graph_document_list -> h_docs h' d = h_docs h d)
  /\ (forall n,
        node_id (h_nodes h' n) = node_id (h_nodes h n)
        /\ (node_type (h_nodes h' n) = node_type (h_nodes h n)
            \/ node_type (h_nodes h' n)
               = strip_backticks (node_type (h_nodes h n))))
  /\ (forall r,
        rel_source (h_rels h' r) = rel_source (h_rels h r)
        /\ rel_target (h_rels h' r) = rel_target (h_rels h r)
        /\ (rel_type (h_rels h' r) = rel_type (h_rels h r)
            \/ rel_type (h_rels h' r)
               = strip_backticks (rel_type (h_rels h r)))).
Proof.
  intros h'.
  assert (Eh : h' = fold_left clean_graph_document graph_document_list h)
    by reflexivity.
  clearbody h'. subst h'.
  pose proof (handle_backticks_settles h graph_document_list h []
                (settles_initial h)) as [Hn [Hr [Hout [Hsh Hin]]]].
  rewrite app_nil_r in Hout, Hin.
  assert (Hrev : forall d, d ∈ rev graph_document_list
                           <-> d ∈ graph_document_list).
  { intros d. rewrite !list_elem_of_In. symmetry. apply in_rev. }
  split; [|split; [|split]].
  - intros d Hd. split; [apply Hsh | now apply Hin, Hrev].
  - intros d Hd. apply Hout. now rewrite Hrev.
  - intros n. destruct (Hn n) as [->| ->]; simpl; auto.
  - intros r. destruct (Hr r) as [->| ->]; simpl; auto.
Qed.

Lemma first_label_spec (labels : list string) (lbl : string) :
  first_label labels = Some lbl <-> first_allowed labels lbl.
Proof.
  unfold first_label, first_allowed.
  induction labels as [|l labels IH].
  - split; [discriminate|]. intros [before [after [E _]]].
    now destruct before.
  - cbn [find]. destruct (Py.mem l excluded_labels) eqn:El; cbn [negb].
    + rewrite IH. split.
      * intros [before [after [-> [Hout Hbefore]]]].
        exists (l :: before), after. repeat split; [exact Hout|].
        intros x Hx. apply elem_of_cons in Hx as [->|Hx];
          [now apply mem_spec | now apply Hbefore].
      * intros [before [after [E [Hout Hbefore]]]].
        destruct before as [|b before]; simpl in E; injection E as <- ->.
        -- apply mem_spec in El. contradiction.
        -- exists before, after. repeat split; [exact Hout|].
           intros x Hx. apply Hbefore. now right.
    + split.
      * intros [= <-]. exists [], labels.
        repeat split; [now apply mem_false|].
        intros x Hx. now apply not_elem_of_nil in Hx.
      * intros [before [after [E [Hout Hbefore]]]].
        destruct before as [|b before]; simpl in E; injection E as <- ->;
          [reflexivity|].
        apply mem_false in El. exfalso. apply El, Hbefore. now left.
Qed.

Lemma truthy_nonempty (s : string) : Py.truthy s = true <-> s <> "".
Proof. destruct s; simpl; split; congruence. Qed.

(** The body of the loop: the tests on PART_OF and HAS_ENTITY never pass
    a record over, since the labels they look for are excluded labels. *)
Lemma record_triplet_yields (record : triple_record) (t : string) :
  record_triplet record = Some t <-> yields record t.
Proof.
  unfold record_triplet, yields.
  destruct (first_label (fromLabels record)) as [f|] eqn:Ef.
  2:{ split; [discriminate|]. intros [f [g [Hf _]]].
      apply first_label_spec in Hf. congruence. }
  destruct (first_label (toLabels record)) as [g|] eqn:Eg.
  2:{ split; [discriminate|]. intros [f' [g [_ [Hg _]]]].
      apply first_label_spec in Hg. congruence. }
  destruct (first_label_outside _ _ Ef) as [_ Hf].
  destruct (first_label_outside _ _ Eg) as [_ Hg].
  assert (Hchunk : String.eqb f "Chunk" = false).
  { apply String.eqb_neq. intros ->. apply Hf. unfold excluded_labels.
    set_solver. }
  assert (Hback : forall f' g' : string,
            first_allowed (fromLabels record) f' ->
            first_allowed (toLabels record) g' -> f' = f /\ g' = g).
  { intros f' g' Hf' Hg'. apply first_label_spec in Hf', Hg'.
    split; congruence. }
  apply first_label_spec in Ef, Eg.
  apply mem_false in Hf, Hg.
  destruct (Py.truthy f) eqn:Tf; cbn [negb orb].
  2:{ split; [discriminate|]. intros [f' [g' [Hf' [Hg' [Hne _]]]]].
      destruct (Hback f' g' Hf' Hg') as [-> _].
      apply truthy_nonempty in Hne. congruence. }
  destruct (Py.truthy g) eqn:Tg; cbn [negb orb].
  2:{ split; [discriminate|]. intros [f' [g' [Hf' [Hg' [_ [Hne _]]]]]].
      destruct (Hback f' g' Hf' Hg') as [_ ->].
      apply truthy_nonempty in Hne. congruence. }
  apply truthy_nonempty in Tf, Tg.
  assert (Hyes : (relType record ∉ excluded_relationships) ->
            (Some (triplet f (relType record) g) = Some t <->
             exists from_label to_label,
               first_allowed (fromLabels record) from_label
               /\ first_allowed (toLabels record) to_label
               /\ from_label <> "" /\ to_label <> ""
               /\ (relType record ∉ excluded_relationships)
               /\ t = triplet from_label (relType record) to_label)).
  { intros Hrel. split.
    - intros [= <-]. exists f, g. now repeat split.
    - intros [f' [g' [Hf' [Hg' [_ [_ [_ ->]]]]]]].
      now destruct (Hback f' g' Hf' Hg') as [-> ->]. }
  destruct (String.eqb (relType record) "PART_OF") eqn:Ep.
  { rewrite Hchunk. cbn [andb]. apply Hyes.
    apply String.eqb_eq in Ep. rewrite Ep. apply mem_false. reflexivity. }
  destruct (String.eqb (relType record) "HAS_ENTITY") eqn:Eh.
  { rewrite Hchunk. apply Hyes.
    apply String.eqb_eq in Eh. rewrite Eh. apply mem_false. reflexivity. }
  rewrite Hf, Hg. cbn [orb].
  destruct (Py.mem (relType record) excluded_relationships) eqn:Er.
  - split; [discriminate|]. intros [f' [g' [_ [_ [_ [_ [Hrel _]]]]]]].
    apply mem_spec in Er. contradiction.
  - apply Hyes. now apply mem_false.
Qed.

(** X18.  [get_labels_and_relationtypes] returns exactly the triplets of
    the records in which both label lists hold a label that is not
    excluded, the first such labels are not empty and the relationship
    type is not excluded; each is written from the first such label on
    either side.  The tests on the types PART_OF and HAS_ENTITY pass no
    record over: a label they look for is never the first label that is
    not excluded. *)
Theorem get_labels_and_relationtypes_yields {W T} (B : Backend W T)
    (uri userName password database : string)
    (records : list triple_record) (s : state W T) (w' : W) :
  session_run_triples B uri userName password database (st_world s)
  = (Ok records, w') ->
  exists triplets,
    get_labels_and_relationtypes B uri userName password database s
    = (Ok triplets,
       mkState w' (st_heap s) (st_log s ++ [Call_session_run uri database]))
    /\ (forall t, t ∈ triplets <->
          exists record, record ∈ records /\ yields record t).
Proof.
  intros Hrun. exists (elements (collect_triples records)). split.
  - unfold get_labels_and_relationtypes. monad. now rewrite Hrun.
  - intros t. rewrite elem_of_elements. unfold collect_triples.
    rewrite elem_of_collect. split.
    + intros [H|[r [Hr Ht]]]; [now apply not_elem_of_empty in H|].
      exists r. split; [exact Hr|]. now apply record_triplet_yields.
    + intros [r [Hr Ht]]. right. exists r. split; [exact Hr|].
      now apply record_triplet_yields.
Qed.

(** ** The calls a function can make *)

Section Emission.

Context {W T : Type}.
Variable B : Backend W T.
Variable P : call T -> Prop.

Lemma emits_silent {A} (m : M W T A) :
  (forall s, st_log (m s).2 = st_log s) -> emits P m.
Proof.
  intros H s. exists []. rewrite app_nil_r. split; [apply H | constructor].
Qed.

Lemma emits_ret {A} (a : A) : emits P (ret a : M W T A).
Proof. now apply emits_silent. Qed.

Lemma emits_raise {A} (e : exn) : emits P (raise e : M W T A).
Proof. now apply emits_silent. Qed.

Lemma emits_lift {A} (r : result A) : emits P (lift r : M W T A).
Proof. now apply emits_silent. Qed.

Lemma emits_peek {A} (f : W -> A) : emits P (peek f : M W T A).
Proof. now apply emits_silent. Qed.

Lemma emits_clock : emits P (clock B).
Proof.
  apply emits_silent. intros s. unfold clock.
  now destruct (time_now B (st_world s)).
Qed.

Lemma emits_perform {A} (c : call T) (op : W -> result A * W) :
  P c -> emits P (perform c op).
Proof.
  intros Hc s. exists [c]. unfold perform.
  destruct (op (st_world s)). simpl. split; [reflexivity|].
  now repeat constructor.
Qed.

Lemma emits_bind {A C} (m : M W T A) (k : A -> M W T C) :
  emits P m -> (forall a, emits P (k a)) -> emits P (bind m k).
Proof.
  intros Hm Hk s. destruct (Hm s) as [l1 [E1 F1]]. unfold bind.
  destruct (m s) as [[a|e] s1]; simpl in E1.
  - destruct (Hk a s1) as [l2 [E2 F2]]. exists (l1 ++ l2)%list.
    rewrite E2, E1, app_assoc. split; [reflexivity|].
    now apply Forall_app.
  - now exists l1.
Qed.

Lemma emits_try_except {A} (m : M W T A) (h : exn -> M W T A) :
  emits P m -> (forall e, emits P (h e)) -> emits P (try_except m h).
Proof.
  intros Hm Hh s. destruct (Hm s) as [l1 [E1 F1]]. unfold try_except.
  destruct (m s) as [[a|e] s1]; simpl in E1.
  - now exists l1.
  - destruct (Hh e s1) as [l2 [E2 F2]]. exists (l1 ++ l2)%list.
    rewrite E2, E1, app_assoc. split; [reflexivity|].
    now apply Forall_app.
Qed.

Lemma emits_timed {A} (step : M W T A) :
  emits P step -> emits P (timed B step).
Proof.
  intros H. unfold timed.
  apply emits_bind; [apply emits_clock|]. intros t0.
  apply emits_bind; [exact H|]. intros a.
  apply emits_bind; [apply emits_clock|]. intros t1. apply emits_ret.
Qed.

Lemma emits_get_llm (model : string) : emits P (get_llm B model).
Proof.
  apply emits_silent. intros s.
  now destruct (get_llm_keeps_state B model s) as [r ->].
Qed.

Lemma emits_get_graph_document_list (llm : llm_client)
    (docs : list Document) (allowedNodes : list string)
    (allowedRelationship : list (string * string * string))
    (additional_instructions : option string) :
  (forall tr d, P (Call_aconvert_to_graph_documents tr d)) ->
  emits P (get_graph_document_list B llm docs allowedNodes
             allowedRelationship additional_instructions).
Proof.
  intros HP s. unfold get_graph_document_list.
  destruct (aconvert_to_graph_documents B _ _ _ _) as [[r h] w]. simpl.
  eexists. split; [reflexivity|]. now repeat constructor.
Qed.

Lemma emits_get_graph_from_llm (model : string)
    (chunks : list chunk_entry) (allowedNodes allowedRelationship : string)
    (chunks_to_combine : Z) (additional_instructions : option string) :
  (forall tr d, P (Call_aconvert_to_graph_documents tr d)) ->
  emits P (get_graph_from_llm B model chunks allowedNodes
             allowedRelationship chunks_to_combine additional_instructions).
Proof.
  intros HP. unfold get_graph_from_llm.
  apply emits_try_except; [|intros e; apply emits_raise].
  apply emits_bind; [apply emits_get_llm|]. intros [llm model_name].
  apply emits_bind; [apply emits_lift|]. intros docs.
  apply emits_bind.
  - destruct (Py.truthy allowedRelationship); [|apply emits_ret].
    destruct (negb _); [apply emits_raise | apply emits_lift].
  - intros rels. now apply emits_get_graph_document_list.
Qed.

Lemma emits_create_graph_database_connection
    (uri userName password database : string) :
  (forall p, P (Call_Neo4jGraph p)) ->
  emits P (create_graph_database_connection B uri userName password database).
Proof.
  intros HP. unfold create_graph_database_connection.
  apply emits_bind; [apply emits_peek|]. intros flag.
  apply emits_bind; [apply emits_peek|]. intros user_agent.
  now apply emits_perform.
Qed.

Lemma emits_save_loop (graph : graph_handle) (docs : list ref)
    (delay n : nat) :
  P (Call_add_graph_documents graph docs) -> P (Call_sleep delay) ->
  emits P (save_loop B n graph docs delay).
Proof.
  intros Ha Hs. induction n as [|n IH]; simpl; [apply emits_raise|].
  apply emits_try_except.
  - intros s. exists [Call_add_graph_documents graph docs]. unfold perform.
    destruct (add_graph_documents B graph docs (st_heap s) (st_world s)).
    simpl. split; [reflexivity|]. now repeat constructor.
  - intros e. destruct (is_deadlock e); [|apply emits_raise].
    apply emits_bind; [now apply emits_perform|]. intros _. exact IH.
Qed.

Lemma emits_query_loop {A} (c : call T) (q : W -> result A * W)
    (delay n : nat) :
  P c -> P (Call_sleep delay) -> emits P (query_loop B n c q delay).
Proof.
  intros Hc Hs. induction n as [|n IH]; simpl; [apply emits_raise|].
  apply emits_try_except; [now apply emits_perform|].
  intros e. destruct (is_deadlock e); [|apply emits_raise].
  apply emits_bind; [now apply emits_perform|]. intros _. exact IH.
Qed.

Lemma emits_get_chunkId_chunkDoc_list (graph : graph_handle)
    (file_name : string) (pages : list Document)
    (token_chunk_size chunk_overlap : Z) (retry_condition : option string) :
  (forall c, (if opt_truthy retry_condition then is_read c
              else is_chunking c) = true -> P c) ->
  emits P (get_chunkId_chunkDoc_list B graph file_name pages token_chunk_size
             chunk_overlap retry_condition).
Proof.
  intros HP. unfold get_chunkId_chunkDoc_list.
  destruct (opt_truthy retry_condition); cbn [negb].
  - apply emits_bind.
    { apply emits_query_loop; now apply HP. }
    intros [|first rows]; [apply emits_raise|].
    destruct (match row_text first with
              | Some text => negb (Py.truthy text)
              | None => true
              end); [apply emits_raise|].
    apply emits_bind; [apply emits_lift|]. intros entries.
    destruct (opt_eqb _ _); [|apply emits_ret].
    apply emits_bind.
    { apply emits_query_loop; now apply HP. }
    intros [|row rest]; [apply emits_raise|].
    destruct (_ <? _)%Z; [apply emits_ret|].
    destruct (_ =? _)%Z; [|apply emits_raise].
    apply emits_bind.
    { apply emits_query_loop; now apply HP. }
    intros [|row' rest']; [apply emits_raise | apply emits_ret].
  - apply emits_bind; [now apply emits_perform, HP|]. intros chunks.
    apply emits_bind; [now apply emits_perform, HP|]. intros entries.
    apply emits_ret.
Qed.

End Emission.

(** X19.  On a retry, [get_chunkId_chunkDoc_list] only reads: whatever the
    graph answers, each call it makes is a query or the pause before a
    query is tried again, so the file is never split again and no chunk
    is stored again.  On a first run it makes no query: each call is the
    splitter's or the one that stores the chunks. *)
Theorem get_chunkId_chunkDoc_list_retry_only_reads {W T} (B : Backend W T)
    (graph : graph_handle) (file_name : string) (pages : list Document)
    (token_chunk_size chunk_overlap : Z) (retry_condition : option string)
    (s : state W T) :
  exists calls,
    st_log (get_chunkId_chunkDoc_list B graph file_name pages
              token_chunk_size chunk_overlap retry_condition s).2
    = (st_log s ++ calls)%list
    /\ forall c, c ∈ calls ->
         if opt_truthy retry_condition
         then is_read c = true /\ is_chunking c = false
         else is_chunking c = true /\ is_read c = false.
Proof.
  destruct (emits_get_chunkId_chunkDoc_list B
              (fun c => if opt_truthy retry_condition
                        then is_read c = true /\ is_chunking c = false
                        else is_chunking c = true /\ is_read c = false)
              graph file_name pages token_chunk_size chunk_overlap
              retry_condition) with (s := s) as [calls [E F]].
  - intros c. destruct (opt_truthy retry_condition); destruct c;
      simpl; intros; (discriminate || now split).
  - exists calls. split; [exact E|]. now apply Forall_forall.
Qed.

(** ** The calls of the pipeline *)

Section Logging.

Context {W T : Type}.
Variable B : Backend W T.

Lemma logs_of_emits {A} (P : call T -> Prop) (m : M W T A) :
  emits P m -> logs (fun _ l => Forall P l) m.
Proof. intros H s. destruct (H s) as [l [E F]]. now exists l. Qed.

Lemma emits_of_logs {A} (P : call T -> Prop) (m : M W T A) :
  logs (fun _ l => Forall P l) m -> emits P m.
Proof. intros H s. destruct (H s) as [l [E F]]. now exists l. Qed.

Lemma logs_weaken {A} (R R' : result A -> list (call T) -> Prop)
    (m : M W T A) :
  logs R m -> (forall r l, R r l -> R' r l) -> logs R' m.
Proof.
  intros H HR s. destruct (H s) as [l [E Hl]]. exists l. split; [exact E|].
  now apply HR.
Qed.

Lemma logs_bind {A C} (R1 : result A -> list (call T) -> Prop)
    (R : result C -> list (call T) -> Prop)
    (m : M W T A) (k : A -> M W T C) :
  logs R1 m ->
  (forall e l, R1 (Raise e) l -> R (Raise e) l) ->
  (forall a l1, R1 (Ok a) l1 -> logs (fun r l2 => R r (l1 ++ l2)%list) (k a)) ->
  logs R (bind m k).
Proof.
  intros Hm Hraise Hk s. destruct (Hm s) as [l1 [E1 H1]]. unfold bind.
  destruct (m s) as [[a|e] s1]; simpl in *.
  - destruct (Hk a l1 H1 s1) as [l2 [E2 H2]]. exists (l1 ++ l2)%list.
    rewrite E2, E1, app_assoc. now split.
  - exists l1. split; [exact E1|]. now apply Hraise.
Qed.

Lemma logs_ret {A} (R : result A -> list (call T) -> Prop) (a : A) :
  R (Ok a) [] -> logs R (ret a : M W T A).
Proof. intros H s. exists []. rewrite app_nil_r. now split. Qed.

Lemma logs_raise {A} (R : result A -> list (call T) -> Prop) (e : exn) :
  R (Raise e) [] -> logs R (raise e : M W T A).
Proof. intros H s. exists []. rewrite app_nil_r. now split. Qed.

Lemma logs_lift {A} (R : result A -> list (call T) -> Prop) (r : result A) :
  R r [] -> logs R (lift r : M W T A).
Proof. intros H s. exists []. rewrite app_nil_r. now split. Qed.

Lemma logs_peek {A} (f : W -> A) :
  logs (fun r l => l = [] /\ exists a, r = Ok a) (peek f : M W T A).
Proof. intros s. exists []. rewrite app_nil_r. simpl. eauto. Qed.

Lemma logs_clock :
  logs (fun r l => l = [] /\ exists t, r = Ok t) (clock B).
Proof.
  intros s. exists []. rewrite app_nil_r. unfold clock.
  destruct (time_now B (st_world s)). simpl. eauto.
Qed.

Lemma logs_perform {A} (c : call T) (op : W -> result A * W) :
  logs (fun _ l => l = [c]) (perform c op).
Proof.
  intros s. exists [c]. unfold perform. destruct (op (st_world s)).
  now split.
Qed.

Lemma logs_timed {A} (R : result A -> list (call T) -> Prop)
    (R' : result (A * string) -> list (call T) -> Prop) (step : M W T A) :
  logs R step ->
  (forall a t l, R (Ok a) l -> R' (Ok (a, t)) l) ->
  (forall e l, R (Raise e) l -> R' (Raise e) l) ->
  logs R' (timed B step).
Proof.
  intros Hstep Hok Hraise. unfold timed.
  eapply logs_bind; [apply logs_clock | |].
  { intros e l [_ [t Ht]]. discriminate. }
  intros t0 l0 [-> _]. cbn [app].
  eapply logs_bind; [exact Hstep | exact Hraise |].
  intros a l1 H1.
  eapply logs_bind; [apply logs_clock | |].
  { intros e l [_ [t Ht]]. discriminate. }
  intros t1 l2 [-> _]. apply logs_ret. rewrite !app_nil_r. now apply Hok.
Qed.

(** A prefix of calls that satisfy [P] can be put before what [R]
    describes. *)
Lemma logs_after {A C} (P : call T -> Prop)
    (R : result C -> list (call T) -> Prop)
    (m : M W T A) (k : A -> M W T C) :
  (forall r l1 l2, Forall P l1 -> R r l2 -> R r (l1 ++ l2)%list) ->
  (forall e, R (Raise e) []) ->
  emits P m -> (forall a, logs R (k a)) -> logs R (bind m k).
Proof.
  intros Hpre Hnil Hm Hk.
  eapply logs_bind; [apply logs_of_emits, Hm | |].
  - intros e l F. rewrite <- (app_nil_r l). now apply Hpre.
  - intros a l1 F. eapply logs_weaken; [apply Hk|].
    intros r l2 H2. now apply Hpre.
Qed.

Section Ordinary.

(** [P] holds of every call that neither removes a file nor embeds
    chunks. *)
Variable P : call T -> Prop.
Hypothesis ordinary :
  forall c, is_deletion c = false -> is_embedding c = false -> P c.

Lemma emits_update_graph_chunks_processed :
  emits P (update_graph_chunks_processed B).
Proof.
  unfold update_graph_chunks_processed.
  apply emits_bind; [apply emits_peek|]. intros [v|];
    [apply emits_lift | apply emits_ret].
Qed.

Lemma emits__initialize_processing (uri userName password database : string) :
  emits P (_initialize_processing B uri userName password database).
Proof.
  unfold _initialize_processing.
  apply emits_bind; [apply emits_clock|]. intros start_time.
  apply emits_bind; [apply emits_clock|]. intros processing_start_time.
  apply emits_bind.
  { apply emits_timed, emits_create_graph_database_connection.
    intros p. now apply ordinary. }
  intros r.
  apply emits_bind; [now apply emits_perform, ordinary|]. intros _.
  apply emits_ret.
Qed.

Lemma emits__get_chunks_and_initialize_processing (graph : graph_handle)
    (file_name : string) (pages : list Document)
    (token_chunk_size chunk_overlap : Z) (retry_condition : option string) :
  emits P (_get_chunks_and_initialize_processing B graph file_name pages
             token_chunk_size chunk_overlap retry_condition).
Proof.
  unfold _get_chunks_and_initialize_processing.
  apply emits_bind.
  { apply emits_timed, emits_get_chunkId_chunkDoc_list.
    intros c Hc. apply ordinary;
      destruct (opt_truthy retry_condition); destruct c;
      (reflexivity || discriminate). }
  intros [[total_chunks chunks] elapsed]. apply emits_ret.
Qed.

Lemma emits__get_document_status (file_name : string) :
  emits P (_get_document_status B file_name).
Proof.
  unfold _get_document_status.
  now apply emits_timed, emits_perform, ordinary.
Qed.

Lemma emits__update_source_node_and_get_chunks (source_node : sourceNode T)
    (file_name : string) :
  emits P (_update_source_node_and_get_chunks B source_node file_name).
Proof.
  unfold _update_source_node_and_get_chunks.
  apply emits_bind; [now apply emits_perform, ordinary|]. intros _.
  apply emits_bind; [now apply emits_perform, ordinary|]. intros _.
  apply emits_ret.
Qed.

(** [processing_chunks] embeds its chunks once, after it has connected
    again where the driver was closed; no other call of it embeds. *)
Lemma processing_chunks_logs (chunks : list chunk_entry)
    (graph : graph_handle) (uri userName password database : string)
    (file_name model allowedNodes allowedRelationship : string)
    (chunks_to_combine : Z) (node_count rel_count : count)
    (additional_instructions : option string) :
  logs (fun r l =>
          exists before after,
            Forall P before /\ Forall P after
            /\ ((exists graph',
                   l = (before
                        ++ Call_create_chunk_embeddings graph' chunks file_name
                        :: after)%list)
                \/ (l = before /\ after = [] /\ exists e, r = Raise e)))
       (processing_chunks B chunks graph uri userName password database
          file_name model allowedNodes allowedRelationship chunks_to_combine
          node_count rel_count additional_instructions).
Proof.
  unfold processing_chunks.
  eapply logs_bind; [apply logs_peek | |].
  { intros e l [_ [a Ha]]. discriminate. }
  intros closed l0 [-> _]. cbn [app].
  eapply logs_bind.
  { apply (logs_of_emits P). destruct closed; [|apply emits_ret].
    apply emits_create_graph_database_connection.
    intros p. now apply ordinary. }
  { intros e l F. exists l, []. repeat split; eauto. }
  intros graph' before Fb.
  eapply logs_bind.
  { apply (logs_timed (fun _ l =>
               l = [Call_create_chunk_embeddings graph' chunks file_name])
             (fun _ l =>
               l = [Call_create_chunk_embeddings graph' chunks file_name]));
      [apply logs_perform | auto | auto]. }
  { intros e l ->. exists before, []. repeat split; eauto. }
  intros r l ->.
  eapply logs_weaken.
  { apply (logs_of_emits P).
    apply emits_bind.
    { apply emits_timed, emits_get_graph_from_llm.
      intros tr d. now apply ordinary. }
    intros r1. apply emits_bind.
    { apply emits_silent. intros s.
      now destruct (handle_backticks_nodes_relationship_id_type _ _). }
    intros cleaned. apply emits_bind.
    { apply emits_timed, emits_save_loop; now apply ordinary. }
    intros r2. apply emits_bind; [now apply emits_silent|].
    intros pairs. apply emits_bind.
    { apply emits_timed. intros s. eexists. unfold perform.
      destruct (merge_relationship_between_chunk_and_entites _ _ _ _ _).
      simpl. split; [reflexivity|]. repeat constructor. now apply ordinary. }
    intros r3. apply emits_bind; [now apply emits_perform, ordinary|].
    intros count_response.
    destruct (count_response !! file_name) as [[nc rc]|];
      [apply emits_ret | apply emits_raise]. }
  intros r' after Fa. exists before, after. repeat split; eauto.
Qed.

End Ordinary.

End Logging.

Section Pipeline.

Context {W T : Type}.
Variable B : Backend W T.

(** [processing_chunks] makes no call that removes a file. *)
Lemma emits_processing_chunks (P : call T -> Prop) (chunks : list chunk_entry)
    (graph : graph_handle) (uri userName password database : string)
    (file_name model allowedNodes allowedRelationship : string)
    (chunks_to_combine : Z) (node_count rel_count : count)
    (additional_instructions : option string) :
  (forall c, is_deletion c = false -> P c) ->
  emits P (processing_chunks B chunks graph uri userName password database
             file_name model allowedNodes allowedRelationship
             chunks_to_combine node_count rel_count additional_instructions).
Proof.
  intros HP. apply emits_of_logs. eapply logs_weaken.
  { apply (processing_chunks_logs B P (fun c Hd _ => HP c Hd)). }
  intros r l [before [after [Fb [Fa [[g ->]|[-> _]]]]]]; [|exact Fb].
  apply Forall_app. split; [exact Fb|].
  constructor; [now apply HP | exact Fa].
Qed.

(** The batch loop makes no call that removes a file. *)
Lemma emits_process_batches (P : call T -> Prop) (starts : list nat)
    (chunks : list chunk_entry) (graph : graph_handle)
    (uri userName password database : string)
    (file_name model allowedNodes allowedRelationship : string)
    (chunks_to_combine : Z) (additional_instructions : option string) :
  (forall c, is_deletion c = false -> P c) ->
  forall (node_count rel_count : count) (uri_latency : gmap string lat_val),
    emits P (process_batches B starts chunks graph uri userName password
               database file_name model allowedNodes allowedRelationship
               chunks_to_combine additional_instructions node_count rel_count
               uri_latency).
Proof.
  intros HP. induction starts as [|i starts IH];
    intros node_count rel_count uri_latency; cbn [process_batches].
  - apply emits_ret.
  - apply emits_bind.
    { apply emits_update_graph_chunks_processed. }
    intros step. apply emits_bind; [now apply emits_perform, HP|].
    intros [|row rows]; [apply emits_raise|].
    destruct (is_cancelled row); [apply emits_ret|].
    apply emits_bind.
    + now apply emits_timed, emits_processing_chunks.
    + intros [[[nc rc] latency] elapsed]. apply IH.
Qed.

(** The end of [processing_source] for an uploaded file. *)
Lemma cleanup_logs (uri file_name : string) (is_uploaded_from_local : bool)
    (merged_file_path : option string) :
  logs (fun _ l =>
          cleanup_calls B uri file_name is_uploaded_from_local
            merged_file_path l)
       (if is_uploaded_from_local then
          let* gcs_file_cache := peek (environ_get B "GCS_FILE_CACHE") in
          if match gcs_file_cache with
             | Some v => String.eqb v "True"
             | None => false
             end
          then
            let folder_name :=
              create_gcs_bucket_folder_name_hashed B uri file_name in
            perform (Call_delete_file_from_gcs folder_name file_name)
                    (delete_file_from_gcs B (BUCKET_UPLOAD B) folder_name
                       file_name)
          else
            match merged_file_path with
            | Some path => delete_uploaded_local_file B path file_name
            | None =>
                raise (TypeError
                         "expected str, bytes or os.PathLike object, not NoneType")
            end
        else ret tt).
Proof.
  unfold cleanup_calls. destruct is_uploaded_from_local.
  2:{ apply logs_ret. now left. }
  eapply logs_bind; [apply logs_peek | |].
  { intros e l [_ [a Ha]]. discriminate. }
  intros v l [-> _]. cbn [app].
  destruct (match v with Some x => String.eqb x "True" | None => false end).
  - eapply logs_weaken; [apply logs_perform|].
    intros r l ->. right. split; [reflexivity|]. now left.
  - destruct merged_file_path as [path|]; [|apply logs_raise; now left].
    unfold delete_uploaded_local_file.
    eapply logs_bind; [apply logs_peek | |].
    { intros e l [_ [a Ha]]. discriminate. }
    intros present l [-> _]. cbn [app]. destruct present.
    + eapply logs_weaken; [apply logs_perform|].
      intros r l ->. right. split; [reflexivity|]. right. now exists path.
    + apply logs_ret. now left.
Qed.

(** X20.  Whatever the backend answers, [processing_source] removes at
    most one file, with its last call, and only for a file uploaded from
    local storage: the object named by the file in the folder of the
    hashed name, or the local file at [merged_file_path].  No other call
    of the run removes a file. *)
Theorem processing_source_removes_only_the_upload
    (uri userName password database model file_name : string)
    (pages : list Document) (allowedNodes allowedRelationship : string)
    (token_chunk_size chunk_overlap chunks_to_combine : Z)
    (is_uploaded_from_local : bool) (merged_file_path : option string)
    (retry_condition additional_instructions : option string)
    (s : state W T) :
  exists calls last,
    st_log (processing_source B uri userName password database model
              file_name pages allowedNodes allowedRelationship
              token_chunk_size chunk_overlap chunks_to_combine
              is_uploaded_from_local merged_file_path retry_condition
              additional_instructions s).2
    = (st_log s ++ calls ++ last)%list
    /\ (forall c, c ∈ calls -> is_deletion c = false)
    /\ cleanup_calls B uri file_name is_uploaded_from_local merged_file_path
         last.
Proof.
  set (P := fun c : call T => is_deletion c = false).
  set (R := fun (_ : result (gmap string lat_val * gmap string (@resp_val T)))
                (l : list (call T)) =>
              exists calls last,
                l = (calls ++ last)%list /\ Forall P calls
                /\ cleanup_calls B uri file_name is_uploaded_from_local
                     merged_file_path last).
  assert (HP : forall c, is_deletion c = false -> is_embedding c = false -> P c)
    by (intros c Hc _; exact Hc).
  assert (Hpre : forall r l1 l2, Forall P l1 -> R r l2 -> R r (l1 ++ l2)%list).
  { intros r l1 l2 F1 [calls [last [-> [F2 Hc]]]].
    exists (l1 ++ calls)%list, last. rewrite app_assoc.
    split; [reflexivity|]. split; [now apply Forall_app | exact Hc]. }
  assert (Hnil : forall r, R r []).
  { intros r. exists [], []. repeat split; [constructor | now left]. }
  assert (Hlogs : logs R
            (processing_source B uri userName password database model
               file_name pages allowedNodes allowedRelationship
               token_chunk_size chunk_overlap chunks_to_combine
               is_uploaded_from_local merged_file_path retry_condition
               additional_instructions)).
  { unfold processing_source.
    apply (logs_after P); [exact Hpre | intros e; apply Hnil | |].
    { now apply emits__initialize_processing. }
    intros [[[graph start_time] processing_start_time] uri_latency].
    apply (logs_after P); [exact Hpre | intros e; apply Hnil | |].
    { now apply emits__get_chunks_and_initialize_processing. }
    intros [[total_chunks chunks] chunk_latency_info].
    apply (logs_after P); [exact Hpre | intros e; apply Hnil | |].
    { now apply emits__get_document_status. }
    intros [[|row rows] status_elapsed_time]; [apply logs_raise, Hnil|].
    destruct (String.eqb (Status row) "Processing"); [apply logs_ret, Hnil|].
    destruct (_create_processing_source_node _ _ _ _ _)
      as [[[source_node node_count] rel_count] select_chunks_with_retry].
    apply (logs_after P); [exact Hpre | intros e; apply Hnil | |].
    { now apply emits_update_graph_chunks_processed. }
    intros _.
    apply (logs_after P); [exact Hpre | intros e; apply Hnil | |].
    { now apply emits__update_source_node_and_get_chunks. }
    intros _.
    apply (logs_after P); [exact Hpre | intros e; apply Hnil | |].
    { now apply emits_update_graph_chunks_processed. }
    intros step.
    apply (logs_after P); [exact Hpre | intros e; apply Hnil | |].
    { apply emits_lift. }
    intros starts.
    apply (logs_after P); [exact Hpre | intros e; apply Hnil | |].
    { apply emits_process_batches. auto. }
    intros [[[job_status nc] rc] latency].
    apply (logs_after P); [exact Hpre | intros e; apply Hnil | |].
    { apply emits_clock. }
    intros end_time.
    apply (logs_after P); [exact Hpre | intros e; apply Hnil | |].
    { now apply emits_perform. }
    intros _.
    apply (logs_after P); [exact Hpre | intros e; apply Hnil | |].
    { now apply emits_perform. }
    intros _.
    eapply logs_bind; [apply cleanup_logs | |].
    { intros e l Hc. exists [], l. repeat split; [constructor | exact Hc]. }
    intros u last Hc.
    eapply logs_weaken.
    { apply (logs_of_emits (fun _ => False)).
      apply emits_bind; [apply emits_clock|]. intros now.
      apply emits_bind.
      { destruct nc as [[| |]|]; (apply emits_ret || apply emits_raise). }
      intros per_entity. apply emits_ret. }
    intros r l F. destruct l as [|c l]; [|now inversion F].
    exists [], last. rewrite app_nil_r.
    repeat split; [constructor | exact Hc]. }
  destruct (Hlogs s) as [l [E [calls [last [-> [F Hc]]]]]].
  exists calls, last. split; [exact E|]. split; [|exact Hc].
  now apply Forall_forall.
Qed.

End Pipeline.

(** ** The batches of [processing_source] *)

Lemma embedded_app {T} (l1 l2 : list (call T)) :
  embedded (l1 ++ l2) = (embedded l1 ++ embedded l2)%list.
Proof. apply flat_map_app. Qed.

Lemma embedded_quiet {T} (l : list (call T)) :
  Forall (fun c => is_embedding c = false) l -> embedded l = [].
Proof.
  induction 1 as [|c l Hc _ IH]; [reflexivity|].
  unfold embedded in *. simpl. rewrite IH. now destruct c.
Qed.

Lemma take_min_length {A} (k : nat) (l : list A) :
  take (k `min` length l) l = take k l.
Proof.
  destruct (Nat.le_gt_cases k (length l)).
  - now rewrite Nat.min_l.
  - rewrite Nat.min_r by lia. now rewrite !take_ge by lia.
Qed.

(** The slice that the batch loop takes at the start [j * k] is the
    [j]-th window of size [k]. *)
Lemma batch_window {A} (k j : nat) (l : list A) :
  0 < k -> j * k < length l ->
  Py.slice_between (Z.of_nat (j * k))
    (Z.min (Z.of_nat (j * k) + Z.of_nat k) (Z.of_nat (length l))) l
  = window k j l.
Proof.
  intros Hk Hj. unfold Py.slice_between, window.
  destruct (Z.ltb_spec (Z.of_nat (j * k)) 0) as [?|_]; [lia|].
  destruct (Z.ltb_spec (Z.min (Z.of_nat (j * k) + Z.of_nat k)
                              (Z.of_nat (length l))) 0) as [?|_]; [lia|].
  replace (Z.to_nat (Z.min (Z.of_nat (j * k)) (Z.of_nat (length l))))
    with (j * k) by lia.
  replace (Z.to_nat _) with (k `min` length (drop (j * k) l))
    by (rewrite length_drop; lia).
  apply take_min_length.
Qed.

Lemma range_below (n k j : nat) :
  0 < k -> j < (n + k - 1) / k -> j * k < n.
Proof.
  intros Hk Hj.
  pose proof (Nat.div_mod_eq (n + k - 1) k) as E.
  pose proof (Nat.mod_upper_bound (n + k - 1) k) as U.
  nia.
Qed.

Lemma windows_take {A} (k m : nat) (l : list A) :
  concat (map (fun j => window k j l) (seq 0 m)) = take (m * k) l.
Proof.
  induction m as [|m IH]; [now rewrite take_0|].
  rewrite seq_S, map_app, concat_app, IH. simpl. rewrite app_nil_r.
  unfold window. rewrite take_take_drop. f_equal. lia.
Qed.

Section Batches.

Context {W T : Type}.
Variable B : Backend W T.
Variables (v : option string) (k : Z).
Hypothesis Henv :
  forall w, environ_get B "UPDATE_GRAPH_CHUNKS_PROCESSED" w = v.
Hypothesis Hparse :
  match v with Some x => py_int B x | None => Ok 10%Z end = Ok k.
Hypothesis Hpos : (0 < k)%Z.

Lemma logs_update_graph_chunks_processed :
  logs (fun r l => l = [] /\ r = Ok k) (update_graph_chunks_processed B).
Proof.
  intros s. exists []. rewrite app_nil_r.
  unfold update_graph_chunks_processed. monad. rewrite Henv.
  destruct v as [x|]; simpl; rewrite Hparse; now repeat split.
Qed.

Lemma batch_starts_positive (n : nat) :
  batch_starts n k = Ok (Py.range n (Z.to_nat k)).
Proof.
  unfold batch_starts.
  destruct (Z.eqb_spec k 0) as [?|_]; [lia|].
  now destruct (Z.ltb_spec k 0) as [?|_]; [lia|].
Qed.

Variables (chunks : list chunk_entry) (graph : graph_handle).
Variables (uri userName password database : string).
Variables (file_name model allowedNodes allowedRelationship : string).
Variable chunks_to_combine : Z.
Variable additional_instructions : option string.

(** The batch loop embeds the slices of its starts, in order, one per
    batch, up to the batch at which it stops. *)
Lemma process_batches_embeds (starts : list nat) :
  forall (node_count rel_count : count) (uri_latency : gmap string lat_val),
    logs (fun r l =>
            exists m,
              m <= length starts
              /\ embedded l
                 = map (fun i =>
                          Py.slice_between (Z.of_nat i)
                            (Z.min (Z.of_nat i + k) (Z.of_nat (length chunks)))
                            chunks)
                       (take m starts)
              /\ (forall nc rc latency,
                    r = Ok ("Completed", nc, rc, latency) ->
                    m = length starts))
         (process_batches B starts chunks graph uri userName password
            database file_name model allowedNodes allowedRelationship
            chunks_to_combine additional_instructions node_count rel_count
            uri_latency).
Proof.
  induction starts as [|i starts IH];
    intros node_count rel_count uri_latency; cbn [process_batches].
  - apply logs_ret. exists 0. now repeat split.
  - eapply logs_bind; [apply logs_update_graph_chunks_processed | |].
    { intros e l [_ H]. discriminate. }
    intros step l [-> [= ->]]. cbn [app].
    eapply logs_bind; [apply logs_perform | |].
    { intros e l ->. exists 0. split; [simpl; lia|].
      split; [reflexivity | discriminate]. }
    intros [|row rows] l ->.
    { apply logs_raise. exists 0. split; [simpl; lia|].
      split; [reflexivity | discriminate]. }
    destruct (is_cancelled row).
    { apply logs_ret. exists 0. split; [simpl; lia|].
      split; [reflexivity | discriminate]. }
    set (selected :=
           Py.slice_between (Z.of_nat i)
             (Z.min (Z.of_nat i + k) (Z.of_nat (length chunks))) chunks).
    eapply logs_bind.
    + eapply (logs_timed B _
                (fun r l => embedded l = [selected]
                            \/ (embedded l = [] /\ exists e, r = Raise e))).
      * apply (processing_chunks_logs B (fun c => is_embedding c = false)
                 (fun c _ H => H)).
      * intros a t l [before [after [Fb [Fa [[g ->]|[_ [_ [e He]]]]]]]];
          [|discriminate].
        left. rewrite embedded_app. simpl.
        change (embedded (?c :: after)) with (selected :: embedded after).
        now rewrite !embedded_quiet.
      * intros e l [before [after [Fb [Fa [[g ->]|[-> _]]]]]].
        -- left. rewrite embedded_app.
           change (embedded (?c :: after)) with (selected :: embedded after).
           now rewrite !embedded_quiet.
        -- right. split; [now apply embedded_quiet | eauto].
    + intros e l [H|[H _]].
      * exists 1. split; [simpl; lia|]. split; [|discriminate].
        rewrite embedded_app, H. reflexivity.
      * exists 0. split; [simpl; lia|]. split; [|discriminate].
        rewrite embedded_app, H. reflexivity.
    + intros [[[nc rc] latency] elapsed] l [H|[_ [e He]]]; [|discriminate].
      eapply logs_weaken; [apply IH|].
      intros r l2 [m [Hm [E Hc]]]. exists (S m).
      split; [simpl; lia|]. split.
      * rewrite !embedded_app, H, E. reflexivity.
      * intros nc' rc' latency' Hr. simpl. f_equal. eauto.
Qed.

(** For the starts that [range] gives, the slices are the windows. *)
Lemma batches_are_windows (m : nat) :
  map (fun i =>
         Py.slice_between (Z.of_nat i)
           (Z.min (Z.of_nat i + k) (Z.of_nat (length chunks))) chunks)
      (take m (Py.range (length chunks) (Z.to_nat k)))
  = map (fun j => window (Z.to_nat k) j chunks)
        (seq 0 (m `min` ((length chunks + Z.to_nat k - 1) / Z.to_nat k))).
Proof.
  rewrite range_closed by lia.
  rewrite firstn_map, take_seq, map_map. apply map_ext_in. intros j Hj.
  apply in_seq in Hj.
  rewrite <- batch_window; [|lia|apply range_below; lia].
  now rewrite Z2Nat.id by lia.
Qed.

End Batches.

Lemma logs_bind_lift_ok {W T A C} (R : result C -> list (call T) -> Prop)
    (a : A) (k : A -> M W T C) :
  logs R (k a) -> logs R (bind (lift (Ok a)) k).
Proof. intros H s. exact (H s). Qed.

Lemma logs_bind_ret {W T A C} (R : result C -> list (call T) -> Prop)
    (a : A) (k : A -> M W T C) :
  logs R (k a) -> logs R (bind (ret a) k).
Proof. intros H s. exact (H s). Qed.

Lemma logs_bind_lift_raise {W T A C} (R : result C -> list (call T) -> Prop)
    (e : exn) (k : A -> M W T C) :
  R (Raise e) [] -> logs R (bind (lift (Raise e)) k).
Proof. intros H s. exists []. rewrite app_nil_r. now split. Qed.

(** The end of [processing_source], from the reading of the end time to
    the response: no call of it embeds chunks. *)
Ltac walk_to_response P Hpre Hnil :=
  apply (logs_after P); [exact Hpre | exact Hnil | apply emits_clock |];
  intros ?;
  apply (logs_after P); [exact Hpre | exact Hnil | now apply emits_perform |];
  intros _;
  apply (logs_after P); [exact Hpre | exact Hnil | now apply emits_perform |];
  intros _;
  apply (logs_after P);
    [exact Hpre | exact Hnil
    | apply emits_of_logs; eapply logs_weaken; [apply cleanup_logs|];
      intros ? ? [->|[_ [->|[? [_ ->]]]]]; now repeat constructor |];
  intros _;
  apply (logs_after P); [exact Hpre | exact Hnil | apply emits_clock |];
  intros ?;
  apply (logs_after P);
    [exact Hpre | exact Hnil
    | match goal with
      | |- emits _ (match ?n with CInt _ => _ | CStr _ => _ end) =>
          destruct n as [[| |]|]; (apply emits_ret || apply emits_raise)
      end |];
  intros ?;
  apply logs_ret.

(** X21.  Let the environment give the same positive batch size [k] at
    every read of UPDATE_GRAPH_CHUNKS_PROCESSED (10 when the variable is
    not set), and let the first two steps of [processing_source] have
    returned the chunk list.  Then, whatever the backend answers later,
    the chunks handed to [create_chunk_embeddings] are, call after call,
    the first windows of [k] chunks of that list, in order and without
    gap, overlap or empty window; and when the run returns with the status
    [Completed], every chunk of the list has been handed over exactly
    once. *)
Theorem processing_source_embeds_batches {W T} (B : Backend W T)
    (uri userName password database model file_name : string)
    (pages : list Document) (allowedNodes allowedRelationship : string)
    (token_chunk_size chunk_overlap chunks_to_combine : Z)
    (is_uploaded_from_local : bool) (merged_file_path : option string)
    (retry_condition additional_instructions : option string)
    (v : option string) (k : Z) (s s1 s2 : state W T)
    (graph : graph_handle) (start_time processing_start_time : T)
    (uri_latency chunk_latency_info : gmap string lat_val)
    (total_chunks : nat) (chunkId_chunkDoc_list : list chunk_entry) :
  (forall w, environ_get B "UPDATE_GRAPH_CHUNKS_PROCESSED" w = v) ->
  match v with Some x => py_int B x | None => Ok 10%Z end = Ok k ->
  (0 < k)%Z ->
  _initialize_processing B uri userName password database s
  = (Ok (graph, start_time, processing_start_time, uri_latency), s1) ->
  _get_chunks_and_initialize_processing B graph file_name pages
    token_chunk_size chunk_overlap retry_condition s1
  = (Ok (total_chunks, chunkId_chunkDoc_list, chunk_latency_info), s2) ->
  exists calls m,
    st_log (processing_source B uri userName password database model
              file_name pages allowedNodes allowedRelationship
              token_chunk_size chunk_overlap chunks_to_combine
              is_uploaded_from_local merged_file_path retry_condition
              additional_instructions s).2
    = (st_log s2 ++ calls)%list
    /\ m <= (length chunkId_chunkDoc_list + Z.to_nat k - 1) / Z.to_nat k
    /\ embedded calls
       = map (fun j => window (Z.to_nat k) j chunkId_chunkDoc_list) (seq 0 m)
    /\ concat (embedded calls) = take (m * Z.to_nat k) chunkId_chunkDoc_list
    /\ (forall latency response,
          (processing_source B uri userName password database model
             file_name pages allowedNodes allowedRelationship
             token_chunk_size chunk_overlap chunks_to_combine
             is_uploaded_from_local merged_file_path retry_condition
             additional_instructions s).1
          = Ok (latency, response) ->
          response !! "status" = Some (RStr "Completed") ->
          concat (embedded calls) = chunkId_chunkDoc_list).
Proof.
  intros Henv Hparse Hpos Hinit Hchunks.
  set (K := Z.to_nat k).
  set (L := chunkId_chunkDoc_list).
  set (c := (length L + K - 1) / K).
  set (P := fun c : call T => is_embedding c = false).
  set (R := fun (r : result (gmap string lat_val * gmap string (@resp_val T)))
                (l : list (call T)) =>
              exists m,
                m <= c
                /\ embedded l = map (fun j => window K j L) (seq 0 m)
                /\ (forall latency response,
                      r = Ok (latency, response) ->
                      response !! "status" = Some (RStr "Completed") ->
                      m = c)).
  assert (HP : forall c, is_deletion c = false -> is_embedding c = false -> P c)
    by (intros c' _ Hc; exact Hc).
  assert (Hpre : forall r l1 l2, Forall P l1 -> R r l2 -> R r (l1 ++ l2)%list).
  { intros r l1 l2 F1 [m [Hm [E Hc]]]. exists m. split; [exact Hm|].
    split; [|exact Hc]. now rewrite embedded_app, embedded_quiet. }
  assert (Hnil : forall e, R (Raise e) []).
  { intros e. exists 0. split; [lia|]. split; [reflexivity | discriminate]. }
  unfold processing_source.
  erewrite bind_ok by exact Hinit. cbv beta iota zeta.
  erewrite bind_ok by exact Hchunks. cbv beta iota zeta.
  lazymatch goal with
  | |- context [bind ?m ?k s2] => assert (Hlogs : logs R (bind m k))
  end.
  { apply (logs_after P); [exact Hpre | exact Hnil | |].
    { now apply emits__get_document_status. }
    intros [[|row rows] status_elapsed_time]; [apply logs_raise, Hnil|].
    destruct (String.eqb (Status row) "Processing").
    { apply logs_ret. exists 0. split; [lia|]. split; [reflexivity|].
      intros latency response [= _ <-]. now rewrite lookup_empty. }
    destruct (_create_processing_source_node _ _ _ _ _)
      as [[[source_node node_count] rel_count] select_chunks_with_retry].
    apply (logs_after P); [exact Hpre | exact Hnil | |].
    { now apply emits_update_graph_chunks_processed. }
    intros _.
    apply (logs_after P); [exact Hpre | exact Hnil | |].
    { now apply emits__update_source_node_and_get_chunks. }
    intros _.
    eapply logs_bind;
      [apply (logs_update_graph_chunks_processed B v k Henv Hparse) | |].
    { intros e l [_ H]. discriminate. }
    intros step l [-> [= ->]]. cbn [app].
    rewrite batch_starts_positive by exact Hpos.
    apply logs_bind_lift_ok.
    eapply logs_bind;
      [apply (process_batches_embeds B v k Henv Hparse) | |].
    { intros e l [m [Hm [E _]]]. rewrite batches_are_windows in E by exact Hpos.
      exists (m `min` c). split; [lia|]. split; [exact E | discriminate]. }
    intros [[[job_status nc] rc] latency] l1 [m [Hm [E Hc]]].
    rewrite batches_are_windows in E by exact Hpos.
    eapply (logs_weaken
              (fun r l2 =>
                 Forall P l2
                 /\ forall latency response,
                      r = Ok (latency, response) ->
                      response !! "status" = Some (RStr job_status))).
    - set (R2 := fun (r : result
                            (gmap string lat_val * gmap string (@resp_val T)))
                     (l2 : list (call T)) =>
                   Forall P l2
                   /\ forall latency response,
                        r = Ok (latency, response) ->
                        response !! "status" = Some (RStr job_status)).
      assert (Hpre2 : forall r l1 l2,
                Forall P l1 -> R2 r l2 -> R2 r (l1 ++ l2)%list).
      { intros r l2 l3 F2 [F3 Hs]. split; [now apply Forall_app | exact Hs]. }
      assert (Hnil2 : forall e, R2 (Raise e) []).
      { intros e. split; [constructor | discriminate]. }
      walk_to_response P Hpre2 Hnil2.
      split; [constructor|].
      intros latency' response [= _ <-].
      rewrite !lookup_insert_ne by discriminate.
      apply lookup_insert_eq.
    - intros r l2 [F Hs]. exists (m `min` c). split; [lia|]. split.
      + now rewrite embedded_app, (embedded_quiet l2), app_nil_r.
      + intros latency' response Hr Hstat.
        rewrite (Hs _ _ Hr) in Hstat. injection Hstat as ->.
        rewrite (Hc _ _ _ eq_refl).
        unfold c, K, L. rewrite range_closed by lia.
        rewrite length_map, length_seq. lia. }
  destruct (Hlogs s2) as [l [E [m [Hm [Eemb Hc]]]]].
  exists l, m. split; [exact E|]. split; [exact Hm|]. split; [exact Eemb|].
  split; [rewrite Eemb; apply windows_take|].
  intros latency response Hr Hstat.
  rewrite Eemb, windows_take, (Hc _ _ Hr Hstat).
  apply take_ge. apply div_up_covers. lia.
Qed.

Section Outcome.

Context {W T : Type}.
Variable B : Backend W T.

(** The batch loop ends with one of two job statuses. *)
Lemma process_batches_status (starts : list nat)
    (chunks : list chunk_entry) (graph : graph_handle)
    (uri userName password database : string)
    (file_name model allowedNodes allowedRelationship : string)
    (chunks_to_combine : Z) (additional_instructions : option string) :
  forall (node_count rel_count : count) (uri_latency : gmap string lat_val),
    logs (fun r _ =>
            forall job nc rc latency,
              r = Ok (job, nc, rc, latency) ->
              job = "Completed" \/ job = "Cancelled")
         (process_batches B starts chunks graph uri userName password
            database file_name model allowedNodes allowedRelationship
            chunks_to_combine additional_instructions node_count rel_count
            uri_latency).
Proof.
  set (P := fun _ : call T => True).
  set (R := fun (r : result (string * count * count * gmap string lat_val))
                (_ : list (call T)) =>
              forall job nc rc latency,
                r = Ok (job, nc, rc, latency) ->
                job = "Completed" \/ job = "Cancelled").
  assert (Hpre : forall r l1 l2, Forall P l1 -> R r l2 -> R r (l1 ++ l2)%list)
    by (intros r l1 l2 _ H; exact H).
  assert (Hnil : forall e, R (Raise e) []) by (intros e ? ? ? ? H; discriminate).
  induction starts as [|i starts IH];
    intros node_count rel_count uri_latency; cbn [process_batches].
  - apply logs_ret. intros job nc rc latency H. inversion H. now left.
  - apply (logs_after P); [exact Hpre | exact Hnil | |].
    { now apply emits_update_graph_chunks_processed. }
    intros step.
    apply (logs_after P); [exact Hpre | exact Hnil | |].
    { now apply emits_perform. }
    intros [|row rows]; [apply logs_raise, Hnil|].
    destruct (is_cancelled row).
    { apply logs_ret. intros job nc rc latency H. inversion H. now right. }
    apply (logs_after P); [exact Hpre | exact Hnil | |].
    { now apply emits_timed, emits_processing_chunks. }
    intros [[[nc rc] latency] elapsed]. apply IH.
Qed.

(** X22.  A run of [processing_source] that returns a response has
    written the same outcome: its calls end with the update of the source
    node to the job status and the two counters that the response gives,
    then the refresh of the counters, then the removal of the upload if
    one is made.  The job status is [Completed] or [Cancelled]. *)
Theorem processing_source_reports_what_it_stored
    (uri userName password database model file_name : string)
    (pages : list Document) (allowedNodes allowedRelationship : string)
    (token_chunk_size chunk_overlap chunks_to_combine : Z)
    (is_uploaded_from_local : bool) (merged_file_path : option string)
    (retry_condition additional_instructions : option string)
    (s : state W T)
    (latency : gmap string lat_val) (response : gmap string resp_val) :
  (processing_source B uri userName password database model file_name pages
     allowedNodes allowedRelationship token_chunk_size chunk_overlap
     chunks_to_combine is_uploaded_from_local merged_file_path
     retry_condition additional_instructions s).1
  = Ok (latency, response) ->
  response <> ∅ ->
  exists before last job_status node_count rel_count processed_time,
    st_log (processing_source B uri userName password database model
              file_name pages allowedNodes allowedRelationship
              token_chunk_size chunk_overlap chunks_to_combine
              is_uploaded_from_local merged_file_path retry_condition
              additional_instructions s).2
    = (st_log s ++ before
       ++ [Call_update_source_node
             (final_source_node file_name job_status processed_time
                node_count rel_count);
           Call_update_node_relationship_count file_name]
       ++ last)%list
    /\ cleanup_calls B uri file_name is_uploaded_from_local merged_file_path
         last
    /\ (job_status = "Completed" \/ job_status = "Cancelled")
    /\ response !! "status" = Some (RStr job_status)
    /\ response !! "nodeCount" = Some (RCount node_count)
    /\ response !! "relationshipCount" = Some (RCount rel_count).
Proof.
  set (P := fun _ : call T => True).
  set (R := fun (r : result (gmap string lat_val * gmap string (@resp_val T)))
                (l : list (call T)) =>
              forall latency response,
                r = Ok (latency, response) -> response <> ∅ ->
                exists before last job_status node_count rel_count
                       processed_time,
                  l = (before
                       ++ [Call_update_source_node
                             (final_source_node file_name job_status
                                processed_time node_count rel_count);
                           Call_update_node_relationship_count file_name]
                       ++ last)%list
                  /\ cleanup_calls B uri file_name is_uploaded_from_local
                       merged_file_path last
                  /\ (job_status = "Completed" \/ job_status = "Cancelled")
                  /\ response !! "status" = Some (RStr job_status)
                  /\ response !! "nodeCount" = Some (RCount node_count)
                  /\ response !! "relationshipCount"
                     = Some (RCount rel_count)).
  assert (HP : forall c, is_deletion c = false -> is_embedding c = false -> P c)
    by (intros; exact I).
  assert (Hpre : forall r l1 l2, Forall P l1 -> R r l2 -> R r (l1 ++ l2)%list).
  { intros r l1 l2 _ H lat resp Hr Hne.
    destruct (H lat resp Hr Hne)
      as [before [last [job [nc [rc [t [-> Hrest]]]]]]].
    exists (l1 ++ before)%list, last, job, nc, rc, t.
    now rewrite app_assoc. }
  assert (Hnil : forall e, R (Raise e) []) by (intros e ? ? H; discriminate).
  assert (Hraise : forall e l, R (Raise e) l) by (intros e l ? ? H; discriminate).
  assert (Hlogs : logs R
            (processing_source B uri userName password database model
               file_name pages allowedNodes allowedRelationship
               token_chunk_size chunk_overlap chunks_to_combine
               is_uploaded_from_local merged_file_path retry_condition
               additional_instructions)).
  { unfold processing_source.
    apply (logs_after P); [exact Hpre | exact Hnil | |].
    { now apply emits__initialize_processing. }
    intros [[[graph start_time] processing_start_time] uri_latency].
    apply (logs_after P); [exact Hpre | exact Hnil | |].
    { now apply emits__get_chunks_and_initialize_processing. }
    intros [[total_chunks chunks] chunk_latency_info].
    apply (logs_after P); [exact Hpre | exact Hnil | |].
    { now apply emits__get_document_status. }
    intros [[|row rows] status_elapsed_time]; [apply logs_raise, Hnil|].
    destruct (String.eqb (Status row) "Processing").
    { apply logs_ret. intros lat resp [= _ <-] Hne. now destruct Hne. }
    destruct (_create_processing_source_node _ _ _ _ _)
      as [[[source_node node_count] rel_count] select_chunks_with_retry].
    apply (logs_after P); [exact Hpre | exact Hnil | |].
    { now apply emits_update_graph_chunks_processed. }
    intros _.
    apply (logs_after P); [exact Hpre | exact Hnil | |].
    { now apply emits__update_source_node_and_get_chunks. }
    intros _.
    apply (logs_after P); [exact Hpre | exact Hnil | |].
    { now apply emits_update_graph_chunks_processed. }
    intros step.
    apply (logs_after P); [exact Hpre | exact Hnil | |].
    { apply emits_lift. }
    intros starts.
    eapply logs_bind; [apply process_batches_status | |].
    { intros e l _. apply Hraise. }
    intros [[[job nc] rc] latency'] l1 Hjob.
    specialize (Hjob _ _ _ _ eq_refl).
    apply (logs_weaken R).
    2:{ intros r l2 H. apply Hpre; [|exact H].
        apply Forall_forall. intros c _. exact I. }
    eapply logs_bind; [apply logs_clock | |].
    { intros e l _. apply Hraise. }
    intros end_time l [-> _]. cbn [app].
    eapply logs_bind; [apply logs_perform | |].
    { intros e l _. apply Hraise. }
    intros u1 l ->. cbv beta.
    eapply logs_bind; [apply logs_perform | |].
    { intros e l _. apply Hraise. }
    intros u2 l ->. cbv beta.
    eapply logs_bind; [apply cleanup_logs | |].
    { intros e l _. apply Hraise. }
    intros u3 last Hc. cbv beta.
    eapply logs_bind; [apply logs_clock | |].
    { intros e l _. apply Hraise. }
    intros now l [-> _]. cbv beta.
    eapply (logs_bind (fun _ l => l = [])).
    { destruct nc as [[| |]|];
        (now apply logs_ret) || (now apply logs_raise). }
    { intros e l _. apply Hraise. }
    intros per_entity l ->. cbv beta.
    apply logs_ret. intros lat resp [= _ <-] _.
    exists [], last, job, nc, rc, (time_sub B end_time start_time).
    split; [now rewrite !app_nil_r|]. split; [exact Hc|].
    split; [exact Hjob|].
    repeat split;
      rewrite ?lookup_insert_ne by discriminate; apply lookup_insert_eq. }
  intros Hr Hne.
  destruct (Hlogs s) as [l [E HR]].
  destruct (HR latency response Hr Hne)
    as [before [last [job [nc [rc [t [-> Hrest]]]]]]].
  exists before, last, job, nc, rc, t. split; [exact E | exact Hrest].
Qed.

End Outcome.

(** X23.  Let the environment give the same batch size [k] at every read
    of UPDATE_GRAPH_CHUNKS_PROCESSED, with [k] zero or negative.  Then
    [processing_source] never hands a chunk to [create_chunk_embeddings].
    With [k = 0] it never returns a response: it raises, or returns the
    empty response of a document that is being processed.  With [k < 0] a
    response that it returns has the status [Completed], although no
    chunk was processed. *)
Theorem processing_source_nonpositive_batch_size {W T} (B : Backend W T)
    (uri userName password database model file_name : string)
    (pages : list Document) (allowedNodes allowedRelationship : string)
    (token_chunk_size chunk_overlap chunks_to_combine : Z)
    (is_uploaded_from_local : bool) (merged_file_path : option string)
    (retry_condition additional_instructions : option string)
    (v : option string) (k : Z) (s : state W T) :
  (forall w, environ_get B "UPDATE_GRAPH_CHUNKS_PROCESSED" w = v) ->
  match v with Some x => py_int B x | None => Ok 10%Z end = Ok k ->
  (k <= 0)%Z ->
  exists calls,
    st_log (processing_source B uri userName password database model
              file_name pages allowedNodes allowedRelationship
              token_chunk_size chunk_overlap chunks_to_combine
              is_uploaded_from_local merged_file_path retry_condition
              additional_instructions s).2
    = (st_log s ++ calls)%list
    /\ embedded calls = []
    /\ (forall latency response,
          (processing_source B uri userName password database model
             file_name pages allowedNodes allowedRelationship
             token_chunk_size chunk_overlap chunks_to_combine
             is_uploaded_from_local merged_file_path retry_condition
             additional_instructions s).1
          = Ok (latency, response) ->
          response = ∅
          \/ ((k < 0)%Z /\ response !! "status" = Some (RStr "Completed"))).
Proof.
  intros Henv Hparse Hk.
  set (P := fun c : call T => is_embedding c = false).
  set (R := fun (r : result (gmap string lat_val * gmap string (@resp_val T)))
                (l : list (call T)) =>
              Forall P l
              /\ forall latency response,
                   r = Ok (latency, response) ->
                   response = ∅
                   \/ ((k < 0)%Z
                       /\ response !! "status" = Some (RStr "Completed"))).
  assert (HP : forall c, is_deletion c = false -> is_embedding c = false -> P c)
    by (intros c' _ Hc; exact Hc).
  assert (Hpre : forall r l1 l2, Forall P l1 -> R r l2 -> R r (l1 ++ l2)%list).
  { intros r l1 l2 F1 [F2 H]. split; [now apply Forall_app | exact H]. }
  assert (Hnil : forall e, R (Raise e) []).
  { intros e. split; [constructor | discriminate]. }
  assert (Hlogs : logs R
            (processing_source B uri userName password database model
               file_name pages allowedNodes allowedRelationship
               token_chunk_size chunk_overlap chunks_to_combine
               is_uploaded_from_local merged_file_path retry_condition
               additional_instructions)).
  { unfold processing_source.
    apply (logs_after P); [exact Hpre | exact Hnil | |].
    { now apply emits__initialize_processing. }
    intros [[[graph start_time] processing_start_time] uri_latency].
    apply (logs_after P); [exact Hpre | exact Hnil | |].
    { now apply emits__get_chunks_and_initialize_processing. }
    intros [[total_chunks chunks] chunk_latency_info].
    apply (logs_after P); [exact Hpre | exact Hnil | |].
    { now apply emits__get_document_status. }
    intros [[|row rows] status_elapsed_time]; [apply logs_raise, Hnil|].
    destruct (String.eqb (Status row) "Processing").
    { apply logs_ret. split; [constructor|].
      intros latency response [= _ <-]. now left. }
    destruct (_create_processing_source_node _ _ _ _ _)
      as [[[source_node node_count] rel_count] select_chunks_with_retry].
    apply (logs_after P); [exact Hpre | exact Hnil | |].
    { now apply emits_update_graph_chunks_processed. }
    intros _.
    apply (logs_after P); [exact Hpre | exact Hnil | |].
    { now apply emits__update_source_node_and_get_chunks. }
    intros _.
    eapply logs_bind;
      [apply (logs_update_graph_chunks_processed B v k Henv Hparse) | |].
    { intros e l [_ H]. discriminate. }
    intros step l [-> [= ->]]. cbn [app].
    unfold batch_starts.
    destruct (Z.eqb_spec k 0) as [Hz|Hz];
      [apply logs_bind_lift_raise, Hnil|].
    destruct (Z.ltb_spec k 0) as [Hneg|?]; [|lia].
    apply logs_bind_lift_ok. cbn [process_batches]. apply logs_bind_ret.
    walk_to_response P Hpre Hnil.
    split; [constructor|].
    intros latency response [= _ <-]. right. split; [exact Hneg|].
    rewrite !lookup_insert_ne by discriminate.
    apply lookup_insert_eq. }
  destruct (Hlogs s) as [l [E [F H]]].
  exists l. split; [exact E|]. split; [now apply embedded_quiet | exact H].
Qed.

(** ** The call of the model *)

Lemma solid_patterns_stay_out (instruction p : string) :
  p ∈ solid_patterns ->
  Py.contains_ci p (sanitize_additional_instruction instruction) = false.
Proof.
  intros Hp.
  destruct (solid_pattern_facts p Hp) as [Hinert [Hne [Hsolid Hin]]].
  unfold sanitize_additional_instruction, Py.strip, Py.collapse_ws.
  apply rstrip_keeps_absent, lstrip_keeps_absent, collapse_keeps_absent;
    [exact Hsolid|].
  apply patterns_absent; [exact Hinert | exact Hne | now left].
Qed.

Lemma harmless_empty : harmless "".
Proof.
  repeat split. intros p Hp. unfold solid_patterns in Hp.
  repeat (apply elem_of_cons in Hp as [->|Hp]); try reflexivity.
  now apply not_elem_of_nil in Hp.
Qed.

Lemma harmless_sanitized (instruction : string) :
  harmless (sanitize_additional_instruction instruction).
Proof.
  destruct (sanitize_additional_instruction_no_braces instruction) as [Ho Hc].
  split; [exact Ho|]. split; [exact Hc|]. split.
  - unfold sanitize_additional_instruction. apply strip_collapse_ws_normal.
  - intros p. apply solid_patterns_stay_out.
Qed.

Section Extraction.

Context {W T : Type}.
Variable B : Backend W T.

Lemma logs_try_except {A} (R1 R : result A -> list (call T) -> Prop)
    (m : M W T A) (h : exn -> M W T A) :
  logs R1 m ->
  (forall a l, R1 (Ok a) l -> R (Ok a) l) ->
  (forall e l1, R1 (Raise e) l1 ->
     logs (fun r l2 => R r (l1 ++ l2)%list) (h e)) ->
  logs R (try_except m h).
Proof.
  intros Hm Hok Hh s. destruct (Hm s) as [l1 [E1 H1]]. unfold try_except.
  destruct (m s) as [[a|e] s1]; simpl in *.
  - exists l1. split; [exact E1|]. now apply Hok.
  - destruct (Hh e l1 H1 s1) as [l2 [E2 H2]]. exists (l1 ++ l2)%list.
    rewrite E2, E1, app_assoc. now split.
Qed.

Lemma logs_silent {A} (m : M W T A) :
  emits (fun _ => False) m -> logs (fun _ l => l = []) m.
Proof.
  intros H. eapply logs_weaken; [apply logs_of_emits, H|].
  intros r [|c l] F; [reflexivity | now inversion F].
Qed.

(** The model is called with the instructions of the code followed by a
    harmless text. *)
Lemma get_graph_document_list_logs (llm : llm_client) (docs : list Document)
    (allowedNodes : list string)
    (allowedRelationship : list (string * string * string))
    (additional_instructions : option string) :
  logs (fun _ l =>
          exists tr suffix,
            l = [Call_aconvert_to_graph_documents tr docs]
            /\ tr_llm tr = llm
            /\ tr_allowed_nodes tr = allowedNodes
            /\ tr_allowed_relationships tr = allowedRelationship
            /\ tr_additional_instructions tr
               = ADDITIONAL_INSTRUCTIONS B ++ suffix
            /\ harmless suffix)
       (get_graph_document_list B llm docs allowedNodes allowedRelationship
          additional_instructions).
Proof.
  intros s. unfold get_graph_document_list.
  destruct (aconvert_to_graph_documents B _ _ _ _) as [[r h] w]. simpl.
  eexists. split; [reflexivity|]. eexists _, _.
  split; [reflexivity|]. cbn [tr_llm tr_allowed_nodes tr_allowed_relationships
                             tr_additional_instructions].
  do 4 (split; [reflexivity|]).
  destruct additional_instructions as [i|]; [|apply harmless_empty].
  destruct (Py.truthy i) eqn:Ti.
  - destruct (Py.truthy (sanitize_additional_instruction i));
      [apply harmless_sanitized | apply harmless_empty].
  - rewrite Ti. apply harmless_empty.
Qed.

Lemma get_graph_from_llm_logs (model : string) (chunks : list chunk_entry)
    (allowedNodes allowedRelationship : string) (chunks_to_combine : Z)
    (additional_instructions : option string) :
  logs (fun r l =>
          (l = [] /\ exists e, r = Raise e)
          \/ exists tr docs suffix,
               l = [Call_aconvert_to_graph_documents tr docs]
               /\ get_combined_chunks chunks chunks_to_combine = Ok docs
               /\ tr_allowed_nodes tr = stripped_items allowedNodes
               /\ tr_additional_instructions tr
                  = ADDITIONAL_INSTRUCTIONS B ++ suffix
               /\ harmless suffix)
       (get_graph_from_llm B model chunks allowedNodes allowedRelationship
          chunks_to_combine additional_instructions).
Proof.
  unfold get_graph_from_llm.
  eapply logs_try_except with
    (R1 := fun r l =>
             (l = [] /\ exists e, r = Raise e)
             \/ exists tr docs suffix,
                  l = [Call_aconvert_to_graph_documents tr docs]
                  /\ get_combined_chunks chunks chunks_to_combine = Ok docs
                  /\ tr_allowed_nodes tr = stripped_items allowedNodes
                  /\ tr_additional_instructions tr
                     = ADDITIONAL_INSTRUCTIONS B ++ suffix
                  /\ harmless suffix).
  - eapply logs_bind; [apply logs_silent, emits_get_llm | |].
    { intros e l ->. left. eauto. }
    intros [llm model_name] l ->. cbn [app].
    destruct (get_combined_chunks chunks chunks_to_combine) as [docs|e] eqn:Ec.
    2:{ apply logs_bind_lift_raise. left. eauto. }
    apply logs_bind_lift_ok.
    eapply (logs_bind (fun _ l => l = [])).
    { destruct (Py.truthy allowedRelationship); [|now apply logs_ret].
      destruct (negb _); [now apply logs_raise | now apply logs_lift]. }
    { intros e l ->. left. eauto. }
    intros rels l ->. cbn [app].
    eapply logs_weaken; [apply get_graph_document_list_logs|].
    intros r l [tr [suffix [-> [_ [Hn [_ [Hi Hs]]]]]]].
    right. exists tr, docs, suffix.
    split; [reflexivity|]. split; [reflexivity|]. split; [exact Hn|].
    split; [exact Hi | exact Hs].
  - intros a l H. exact H.
  - intros e l1 H. apply logs_raise. rewrite app_nil_r.
    destruct H as [[-> _]|H]; [left; eauto | now right].
Qed.

(** X24.  Whatever the backend answers, [get_graph_from_llm] makes at most
    one outside call, the call of the model, and makes none only when it
    raises.  The call is made on the documents that [get_combined_chunks]
    gives, with the allowed nodes of [allowedNodes], and its instructions
    are those of the code followed by a text with no brace, with
    whitespace in normal form and without the blocked patterns
    [os.getenv(], [eval(], [exec(] and [subprocess.]. *)
Theorem get_graph_from_llm_calls_model_once (model : string)
    (chunks : list chunk_entry) (allowedNodes allowedRelationship : string)
    (chunks_to_combine : Z) (additional_instructions : option string)
    (s : state W T) :
  (st_log (get_graph_from_llm B model chunks allowedNodes
             allowedRelationship chunks_to_combine additional_instructions
             s).2
   = st_log s
   /\ exists e,
        (get_graph_from_llm B model chunks allowedNodes allowedRelationship
           chunks_to_combine additional_instructions s).1 = Raise e)
  \/ exists tr docs suffix,
       st_log (get_graph_from_llm B model chunks allowedNodes
                 allowedRelationship chunks_to_combine
                 additional_instructions s).2
       = (st_log s ++ [Call_aconvert_to_graph_documents tr docs])%list
       /\ get_combined_chunks chunks chunks_to_combine = Ok docs
       /\ tr_allowed_nodes tr = stripped_items allowedNodes
       /\ tr_additional_instructions tr = ADDITIONAL_INSTRUCTIONS B ++ suffix
       /\ harmless suffix.
Proof.
  destruct (get_graph_from_llm_logs model chunks allowedNodes
              allowedRelationship chunks_to_combine additional_instructions s)
    as [l [E [[-> He]|[tr [docs [suffix [-> H]]]]]]].
  - left. rewrite app_nil_r in E. now split.
  - right. exists tr, docs, suffix. now split.
Qed.

End Extraction.

(** ** The order of the steps on a batch *)

Section Steps.

Context {W T : Type}.
Variable B : Backend W T.




End Steps.

(** * The further statements on concrete inputs *)

Lemma resume_from_inner_position_witness :
  (1 <= 7 < Z.of_nat (length ten_rows))%Z
  /\ exists l,
       (get_chunkId_chunkDoc_list (scripted resume_script) 0 "f" [] 0 0
          (Some START_FROM_LAST_PROCESSED_POSITION) (start 0)).1
       = Ok (10, l)
       /\ map chunk_id l = ["c7"; "c8"; "c9"; "c10"].
Proof.
  split; [split; [lia | reflexivity]|].
  destruct (chunk_entries ten_rows []) as [entries|e] eqn:Hent;
    [|vm_compute in Hent; discriminate].
  destruct (resume_from_inner_position (scripted resume_script) 0 "f" []
              0%Z 0%Z ten_rows (mkChunkRow "c1" (Some "text1") 1) "text1"
              entries 7%Z [] (start 0)
              (mkState 1 empty_heap [Call_query 0 QUERY_TO_GET_CHUNKS "f"])
              (mkState 2 empty_heap
                 [Call_query 0 QUERY_TO_GET_CHUNKS "f";
                  Call_query 0 QUERY_TO_GET_LAST_PROCESSED_CHUNK_POSITION "f"])
              eq_refl eq_refl eq_refl ltac:(discriminate) Hent eq_refl
              ltac:(split; [lia | reflexivity]))
    as [E _].
  rewrite E. eexists. split; [reflexivity|].
  vm_compute in Hent. injection Hent as <-. reflexivity.
Defined.

Lemma resume_from_position_zero_witness :
  exists l,
    (get_chunkId_chunkDoc_list (scripted zero_position_script) 0 "f" [] 0 0
       (Some START_FROM_LAST_PROCESSED_POSITION) (start 0)).1
    = Ok (10, l)
    /\ map chunk_id l = ["c10"].
Proof.
  destruct (chunk_entries ten_rows []) as [entries|e] eqn:Hent;
    [|vm_compute in Hent; discriminate].
  destruct (resume_from_position_zero (scripted zero_position_script) 0 "f"
              [] 0%Z 0%Z ten_rows (mkChunkRow "c1" (Some "text1") 1) "text1"
              entries [] (start 0)
              (mkState 1 empty_heap [Call_query 0 QUERY_TO_GET_CHUNKS "f"])
              (mkState 2 empty_heap
                 [Call_query 0 QUERY_TO_GET_CHUNKS "f";
                  Call_query 0 QUERY_TO_GET_LAST_PROCESSED_CHUNK_POSITION "f"])
              eq_refl eq_refl eq_refl ltac:(discriminate) Hent eq_refl)
    as [e [Hlast E]].
  rewrite E. eexists. split; [reflexivity|].
  vm_compute in Hent. injection Hent as <-.
  vm_compute in Hlast. injection Hlast as <-. reflexivity.
Defined.

Lemma resume_nothing_left_witness :
  exists msg,
    (get_chunkId_chunkDoc_list (scripted no_position_script) 0 "f" [] 0 0
       (Some START_FROM_LAST_PROCESSED_POSITION) (start 0)).1
    = Raise (LLMGraphBuilderException msg).
Proof.
  destruct (chunk_entries ten_rows []) as [entries|e] eqn:Hent;
    [|vm_compute in Hent; discriminate].
  rewrite (resume_nothing_left (scripted no_position_script) 0 "f"
             [] 0%Z 0%Z ten_rows (mkChunkRow "c1" (Some "text1") 1) "text1"
             entries [] (start 0)
             (mkState 1 empty_heap [Call_query 0 QUERY_TO_GET_CHUNKS "f"])
             (mkState 2 empty_heap
                [Call_query 0 QUERY_TO_GET_CHUNKS "f";
                 Call_query 0 QUERY_TO_GET_LAST_PROCESSED_CHUNK_POSITION "f"])
             eq_refl eq_refl eq_refl ltac:(discriminate) Hent eq_refl
             (or_introl eq_refl)).
  eexists. reflexivity.
Defined.

Lemma retry_first_chunk_without_text_witness :
  opt_truthy (Some "start_from_beginning") = true
  /\ exists msg,
       (get_chunkId_chunkDoc_list (scripted textless_script) 0 "f" [] 0 0
          (Some "start_from_beginning") (start 0)).1
       = Raise (LLMGraphBuilderException msg).
Proof.
  split; [reflexivity|].
  rewrite (retry_first_chunk_without_text (scripted textless_script) 0 "f"
             [] 0%Z 0%Z (Some "start_from_beginning")
             (mkChunkRow "c1" None 1) [] (start 0)
             (mkState 1 empty_heap [Call_query 0 QUERY_TO_GET_CHUNKS "f"])
             eq_refl eq_refl (or_introl eq_refl)).
  eexists. reflexivity.
Defined.

Lemma retry_from_beginning_returns_all_witness :
  opt_eqb (Some "start_from_beginning") START_FROM_LAST_PROCESSED_POSITION
  = false
  /\ exists l,
       (get_chunkId_chunkDoc_list (scripted resume_script) 0 "f" [] 0 0
          (Some "start_from_beginning") (start 0)).1
       = Ok (10, l)
       /\ map chunk_id l = map row_id ten_rows.
Proof.
  split; [reflexivity|].
  destruct (chunk_entries ten_rows []) as [entries|e] eqn:Hent;
    [|vm_compute in Hent; discriminate].
  destruct (retry_from_beginning_returns_all (scripted resume_script) 0 "f"
              [] 0%Z 0%Z (Some "start_from_beginning") ten_rows
              (mkChunkRow "c1" (Some "text1") 1) "text1" entries (start 0)
              (mkState 1 empty_heap [Call_query 0 QUERY_TO_GET_CHUNKS "f"])
              eq_refl eq_refl eq_refl eq_refl eq_refl ltac:(discriminate)
              Hent)
    as [E [_ [Hids _]]].
  rewrite E. exists entries. split; [reflexivity | exact Hids].
Defined.

Lemma first_run_cleans_pages_witness :
  opt_truthy None = false
  /\ (get_chunkId_chunkDoc_list (scripted quiet) 0 "f"
        [quoted_page] 0 0 None (start 0)).1
     = Ok (1, [])
  /\ st_log
       (get_chunkId_chunkDoc_list (scripted quiet) 0 "f"
          [quoted_page] 0 0 None (start 0)).2
     = [Call_split_file_into_chunks [mkDocument "its here" ∅] 0 0;
        Call_create_relation_between_chunks 0 "f"
          [mkDocument "its here" ∅]].
Proof.
  split; [reflexivity|].
  destruct (first_run_cleans_pages (scripted quiet) 0 "f"
              [quoted_page] 0%Z 0%Z None [mkDocument "its here" ∅] [] (start 0) 1 2
              eq_refl eq_refl eq_refl) as [E _].
  rewrite E. split; reflexivity.
Defined.

Lemma get_llm_succeeds_iff_witness :
  get_llm (scripted quiet) " M " (start 0)
  = (Ok (ChatOllama "http://localhost" "m", "m"), start 0).
Proof.
  apply (get_llm_succeeds_iff (scripted quiet) " M " (start 0)).
  exists "http://localhost". repeat split; reflexivity.
Defined.

Lemma get_graph_from_llm_accepts_well_formed_witness :
  well_formed (stripped_items "Person, Company")
              (stripped_items "Person,WORKS_AT,Company")
  /\ (get_graph_from_llm (scripted quiet) "m" seven_chunks "Person, Company"
        "Person,WORKS_AT,Company" 3 (Some "be {brief}") (start 0)).1
     = Ok []
  /\ exists tr docs,
       st_log
         (get_graph_from_llm (scripted quiet) "m" seven_chunks
            "Person, Company" "Person,WORKS_AT,Company" 3
            (Some "be {brief}") (start 0)).2
       = [Call_aconvert_to_graph_documents tr docs]
       /\ tr_allowed_nodes tr = ["Person"; "Company"]
       /\ tr_allowed_relationships tr = [("Person", "WORKS_AT", "Company")]
       /\ tr_additional_instructions tr = "be [brief]"
       /\ length docs = 3.
Proof.
  assert (H : well_formed (stripped_items "Person, Company")
                          (stripped_items "Person,WORKS_AT,Company")).
  { split; [reflexivity|]. intros a b c Hin. vm_compute in Hin.
    apply list_elem_of_singleton in Hin. injection Hin as -> -> ->.
    split; apply mem_spec; reflexivity. }
  split; [exact H|].
  destruct (get_combined_chunks seven_chunks 3) as [docs|e] eqn:Hdocs;
    [|vm_compute in Hdocs; discriminate].
  rewrite (get_graph_from_llm_accepts_well_formed (scripted quiet) "m"
             seven_chunks "Person, Company" "Person,WORKS_AT,Company" 3%Z
             (Some "be {brief}") (start 0)
             (ChatOllama "http://localhost" "m") "m" docs
             eq_refl Hdocs H).
  split; [reflexivity|].
  eexists _, docs. split; [reflexivity|].
  repeat split.
  vm_compute in Hdocs. injection Hdocs as <-. reflexivity.
Defined.

Lemma get_combined_chunks_bounds_witness :
  get_combined_chunks seven_chunks 0
  = Raise (ValueError "range() arg 3 must not be zero")
  /\ get_combined_chunks seven_chunks (-2) = Ok []
  /\ get_combined_chunks seven_chunks 7 = Ok [combined_document seven_chunks].
Proof.
  destruct (get_combined_chunks_bounds seven_chunks 0) as [H0 _].
  destruct (get_combined_chunks_bounds seven_chunks (-2)) as [_ [Hneg _]].
  destruct (get_combined_chunks_bounds seven_chunks 7) as [_ [_ [Hall _]]].
  split; [exact (H0 eq_refl)|].
  split; [apply Hneg; lia|].
  apply Hall; [discriminate | vm_compute; discriminate].
Defined.

Lemma mapping_covers_combined_chunks_witness :
  (0 < 3)%Z
  /\ exists pairs,
       get_chunk_and_graphDocument combined_store [0; 1; 2] = Ok pairs
       /\ map snd pairs = ["c1"; "c2"; "c3"; "c4"; "c5"; "c6"; "c7"].
Proof.
  split; [lia|].
  destruct (get_combined_chunks seven_chunks 3) as [combined|e] eqn:Hcomb;
    [|vm_compute in Hcomb; discriminate].
  destruct (mapping_covers_combined_chunks seven_chunks 3 combined
              combined_store [0; 1; 2] ltac:(lia) Hcomb)
    as [pairs [E [Hids _]]].
  - unfold combined_store. rewrite Hcomb.
    vm_compute in Hcomb. injection Hcomb as <-. reflexivity.
  - exists pairs. split; [exact E|]. rewrite Hids. reflexivity.
Defined.

Lemma sanitize_additional_instruction_blocks_solid_patterns_witness :
  Py.contains_ci "eval("
    (sanitize_additional_instruction "then EVAL(os.GetEnv(key))") = false.
Proof.
  apply sanitize_additional_instruction_blocks_solid_patterns.
  unfold solid_patterns. apply list_elem_of_In. simpl. auto.
Defined.

Lemma sanitize_additional_instruction_fixes_clean_text_witness :
  sanitize_additional_instruction "Prefer short node ids [v2]"
  = "Prefer short node ids [v2]".
Proof.
  apply sanitize_additional_instruction_fixes_clean_text. reflexivity.
Defined.

Lemma sanitize_additional_instruction_idempotent_unless_import_witness :
  sanitize_additional_instruction
    (sanitize_additional_instruction "  use {exec(x)}  and   dates ")
  = sanitize_additional_instruction "  use {exec(x)}  and   dates ".
Proof.
  apply sanitize_additional_instruction_idempotent_unless_import;
    reflexivity.
Defined.

Lemma handle_backticks_leaves_no_backtick_witness :
  settled (handle_backticks_nodes_relationship_id_type shared_heap [0]).1 0
  /\ h_docs (handle_backticks_nodes_relationship_id_type shared_heap [0]).1 1
     = h_docs shared_heap 1.
Proof.
  destruct (handle_backticks_leaves_no_backtick shared_heap [0])
    as [Hin [Hout _]].
  split.
  - apply (Hin 0). left.
  - apply (Hout 1). intros H. apply elem_of_cons in H as [H|H];
      [discriminate | now apply not_elem_of_nil in H].
Defined.

Lemma get_labels_and_relationtypes_yields_witness :
  session_run_triples (scripted labelled_script) "uri" "user" "pw" "db" 0
  = (Ok [mkTriple ["Chunk"; "Page"] "HAS_ENTITY" ["__Entity__"; "Person"];
         mkTriple ["Person"] "NEXT" ["Person"]], 1)
  /\ exists triplets,
       (get_labels_and_relationtypes (scripted labelled_script)
          "uri" "user" "pw" "db" (start 0)).1
       = Ok triplets
       /\ "Page-HAS_ENTITY->Person" ∈ triplets
       /\ ("Person-NEXT->Person" ∉ triplets).
Proof.
  split; [reflexivity|].
  destruct (get_labels_and_relationtypes_yields (scripted labelled_script)
              "uri" "user" "pw" "db" _ (start 0) 1 eq_refl)
    as [triplets [E Hin]].
  exists triplets. split; [now rewrite E|]. split.
  - apply Hin. eexists. split; [left|].
    now apply record_triplet_yields.
  - intros H. apply Hin in H as [r [Hr Hy]].
    apply record_triplet_yields in Hy.
    apply elem_of_cons in Hr as [->|Hr]; [discriminate|].
    apply elem_of_cons in Hr as [->|Hr]; [discriminate|].
    now apply not_elem_of_nil in Hr.
Defined.

Lemma processing_source_embeds_batches_witness :
  exists calls,
    st_log (processing_source (counted batch_script) "uri" "user" "pw" "db"
              "m" "f" [] "" "" 0 0 1 false None (Some "start_from_beginning")
              None (start 0)).2
    = ([Call_Neo4jGraph (mkParams "uri" "db" "user" "pw" false true None);
        Call_create_chunk_vector_index 0;
        Call_query 0 QUERY_TO_GET_CHUNKS "f"] ++ calls)%list
    /\ concat (embedded calls) = ten_entries.
Proof.
  pose (B := counted batch_script).
  pose (log1 := [Call_Neo4jGraph
                   (mkParams "uri" "db" "user" "pw" false true None);
                 Call_create_chunk_vector_index 0] : list (call nat)).
  pose (log2 := (log1 ++ [Call_query 0 QUERY_TO_GET_CHUNKS "f"])%list).
  assert (H1 : _initialize_processing B "uri" "user" "pw" "db" (start 0)
               = (Ok (0, 0, 1, {[ "create_connection" := LStr "0.00" ]}),
                  mkState 6 empty_heap log1))
    by (vm_compute; reflexivity).
  assert (H2 : _get_chunks_and_initialize_processing B 0 "f" [] 0 0
                 (Some "start_from_beginning") (mkState 6 empty_heap log1)
               = (Ok (10, ten_entries,
                      {[ "create_list_chunk_and_document" := LStr "0.00";
                         "total_chunks" := LNat 10 ]}),
                  mkState 9 empty_heap log2))
    by (vm_compute; reflexivity).
  assert (Hs : match (processing_source B "uri" "user" "pw" "db" "m" "f" []
                        "" "" 0 0 1 false None (Some "start_from_beginning")
                        None (start 0)).1 with
               | Ok (_, response) => response !! "status"
               | Raise _ => None
               end = Some (RStr "Completed"))
    by (vm_compute; reflexivity).
  destruct (processing_source_embeds_batches B "uri" "user" "pw" "db" "m" "f"
              [] "" "" 0%Z 0%Z 1%Z false None (Some "start_from_beginning")
              None (Some "4") 4%Z (start 0) _ _ _ _ _ _ _ _ _
              (fun _ => eq_refl) eq_refl eq_refl H1 H2)
    as [calls [m [E [_ [_ [_ Hall]]]]]].
  exists calls. split; [exact E|].
  destruct (processing_source B "uri" "user" "pw" "db" "m" "f" [] "" "" 0 0 1
              false None (Some "start_from_beginning") None (start 0)).1
    as [[latency response]|e]; [|discriminate Hs].
  exact (Hall latency response eq_refl Hs).
Defined.

Lemma processing_source_reports_what_it_stored_witness :
  exists before last processed_time node_count rel_count,
    st_log (processing_source (counted batch_script) "uri" "user" "pw" "db"
              "m" "f" [] "" "" 0 0 1 false None (Some "start_from_beginning")
              None (start 0)).2
    = (before
       ++ [Call_update_source_node
             (final_source_node "f" "Completed" processed_time node_count
                rel_count);
           Call_update_node_relationship_count "f"]
       ++ last)%list.
Proof.
  pose (B := counted batch_script).
  assert (Hs : match (processing_source B "uri" "user" "pw" "db" "m" "f" []
                        "" "" 0 0 1 false None (Some "start_from_beginning")
                        None (start 0)).1 with
               | Ok (_, response) => response !! "status"
               | Raise _ => None
               end = Some (RStr "Completed"))
    by (vm_compute; reflexivity).
  pose proof (processing_source_reports_what_it_stored B "uri" "user" "pw"
                "db" "m" "f" [] "" "" 0%Z 0%Z 1%Z false None
                (Some "start_from_beginning") None (start 0)) as H.
  destruct (processing_source B "uri" "user" "pw" "db" "m" "f" [] "" "" 0 0 1
              false None (Some "start_from_beginning") None (start 0)).1
    as [[latency response]|e]; [|discriminate Hs].
  destruct (H latency response eq_refl)
    as [before [last [job [nc [rc [t [E [_ [_ [Hj _]]]]]]]]]].
  { intros ->. rewrite lookup_empty in Hs. discriminate. }
  rewrite Hs in Hj. injection Hj as <-.
  exists before, last, t, nc, rc. exact E.
Defined.

Lemma processing_source_nonpositive_batch_size_witness :
  exists calls,
    st_log (processing_source (counted negative_batch_script) "uri" "user"
              "pw" "db" "m" "f" [] "" "" 0 0 1 false None
              (Some "start_from_beginning") None (start 0)).2
    = calls
    /\ embedded calls = [].
Proof.
  destruct (processing_source_nonpositive_batch_size
              (counted negative_batch_script) "uri" "user" "pw" "db" "m" "f"
              [] "" "" 0%Z 0%Z 1%Z false None (Some "start_from_beginning")
              None (Some "-1") (-1)%Z (start 0)
              (fun _ => eq_refl) eq_refl ltac:(lia))
    as [calls [E [Hemb _]]].
  exists calls. split; [exact E | exact Hemb].
Defined.
